(** * neko: OAuth2 token client (goauth2) and Google Photos search client (gphoto)

    A shallow embedding of the Go packages [goauth2], [gclient] and [gphoto]
    of sters/neko and of the search that ends the program's [main],
    together with the parts of the Go standard library they call
    ([strings.Builder], [net/url], [net/http] headers, [encoding/json]).

    Conventions of the embedding:
    - a Go [string] is a byte string: Rocq's [string], one [ascii] per byte;
    - a method with a pointer receiver that mutates the receiver is a
      function from the receiver's value to its new value;
    - a call that may panic returns an [outcome];
    - a Go [error] result is an [option error], [None] being [nil];
    - the injected [*http.Client] is represented by its [Do] method, a
      function from the request to either a transport error or a response
      (status line, header and the result of reading the body to its end);
      a nil [*http.Client] is [None], and [Do] on it panics;
    - [log.Println] is the list of the values logged; closing the body of a
      response has no counterpart. *)

From Stdlib Require Import String Ascii List ZArith NArith Bool Lia.
Import ListNotations.
Local Open Scope string_scope.
Local Open Scope Z_scope.

(** ** Byte strings *)

Module GoString.

Definition code (c : ascii) : N := N_of_ascii c.

Definition byte (n : N) : ascii := ascii_of_N n.

Definition len (s : string) : Z := Z.of_nat (String.length s).

Definition of_list (l : list ascii) : string := string_of_list_ascii l.


(** [of_rev acc] is the string whose bytes were accumulated, last first. *)
Definition of_rev (acc : list ascii) : string := of_list (rev acc).

(** A simple slice expression [s[:hi]]; Go panics unless [0 <= hi <= len(s)]. *)
Definition slice_to (s : string) (hi : Z) : option string :=
  if (0 <=? hi) && (hi <=? len s)
  then Some (substring 0 (Z.to_nat hi) s)
  else None.

(** [strings.Builder]: [WriteString] appends, [String] reads the content. *)
Definition Builder := string.
Definition Builder_new : Builder := EmptyString.
Definition WriteString (b : Builder) (s : string) : Builder := b ++ s.
Definition Builder_String (b : Builder) : string := b.

Definition is_digit (c : ascii) : bool := (48 <=? code c)%N && (code c <=? 57)%N.
Definition is_lower (c : ascii) : bool := (97 <=? code c)%N && (code c <=? 122)%N.
Definition is_upper (c : ascii) : bool := (65 <=? code c)%N && (code c <=? 90)%N.
Definition is_letter (c : ascii) : bool := is_lower c || is_upper c.

Definition to_lower (c : ascii) : ascii :=
  if is_upper c then byte (code c + 32) else c.
Definition to_upper (c : ascii) : ascii :=
  if is_lower c then byte (code c - 32) else c.

Fixpoint map_bytes (f : ascii -> ascii) (s : string) : string :=
  match s with
  | EmptyString => EmptyString
  | String c r => String (f c) (map_bytes f r)
  end.

(** Value of a hexadecimal digit. *)
Definition hex_val (c : ascii) : option N :=
  let n := code c in
  if is_digit c then Some (n - 48)%N
  else if (97 <=? n)%N && (n <=? 102)%N then Some (n - 87)%N
  else if (65 <=? n)%N && (n <=? 70)%N then Some (n - 55)%N
  else None.

Definition hex_digit (upper : bool) (n : N) : ascii :=
  if (n <? 10)%N then byte (48 + n)
  else byte ((if upper then 55 else 87) + n).

(** The double quote and the backslash, by code. *)
Definition dquote : ascii := byte 34.
Definition backslash : ascii := byte 92.

(** Test data is written with single quotes standing for double quotes. *)
Definition q (s : string) : string :=
  map_bytes (fun c => if (code c =? 39)%N then dquote else c) s.

(** Decimal rendering of an integer ([strconv.FormatInt] in base 10). *)
Fixpoint digits_of_pos (fuel : nat) (n : N) (acc : string) : string :=
  match fuel with
  | O => acc
  | S fuel' =>
      let acc' := String (byte (48 + N.modulo n 10)) acc in
      if (n <? 10)%N then acc' else digits_of_pos fuel' (N.div n 10) acc'
  end.

Definition FormatInt (z : Z) : string :=
  let n := Z.to_N (Z.abs z) in
  let d := digits_of_pos (S (N.to_nat (N.log2 n))) n EmptyString in
  if z <? 0 then String "-" d else d.

(** [strconv.ParseInt(s, 10, 64)]: an optional sign, then decimal digits
    only, and the value within the range of [int64]. *)
Fixpoint parse_digits (s : string) (acc : Z) : option Z :=
  match s with
  | EmptyString => Some acc
  | String c r =>
      if is_digit c then parse_digits r (10 * acc + Z.of_N (code c - 48))
      else None
  end.

Definition min_int64 : Z := - 2 ^ 63.
Definition max_int64 : Z := 2 ^ 63 - 1.

Definition ParseInt64 (s : string) : option Z :=
  let '(neg, body) :=
    match s with
    | String "-" r => (true, r)
    | String "+" r => (false, r)
    | _ => (false, s)
    end in
  match body with
  | EmptyString => None
  | _ =>
      match parse_digits body 0 with
      | Some v =>
          let z := if neg then - v else v in
          if (min_int64 <=? z) && (z <=? max_int64) then Some z else None
      | None => None
      end
  end.

End GoString.

(** ** UTF-8, as [unicode/utf8] and [unicode/utf16] see it *)

Module UTF8.
Import GoString.

Definition between (lo : N) (c : ascii) (hi : N) : bool :=
  (lo <=? code c)%N && (code c <=? hi)%N.

Definition cont (c : ascii) : bool := between 128 c 191.

Definition two_ok (c c1 : ascii) : bool := between 194 c 223 && cont c1.

Definition three_ok (c c1 c2 : ascii) : bool :=
  ((between 224 c 224 && between 160 c1 191)
   || ((between 225 c 236 || between 238 c 239) && cont c1)
   || (between 237 c 237 && between 128 c1 159))
  && cont c2.

Definition four_ok (c c1 c2 c3 : ascii) : bool :=
  ((between 240 c 240 && between 144 c1 191)
   || (between 241 c 243 && cont c1)
   || (between 244 c 244 && between 128 c1 143))
  && cont c2 && cont c3.

Definition RuneError : N := 65533.

(** [utf8.EncodeRune]: surrogates and values past U+10FFFF become U+FFFD. *)
Definition EncodeRune (r : N) : string :=
  let r := if ((55296 <=? r) && (r <=? 57343) || (1114111 <? r))%N
           then RuneError else r in
  if (r <? 128)%N then String (byte r) EmptyString
  else if (r <? 2048)%N then
    String (byte (192 + r / 64)) (String (byte (128 + r mod 64)) EmptyString)
  else if (r <? 65536)%N then
    String (byte (224 + r / 4096))
      (String (byte (128 + (r / 64) mod 64))
         (String (byte (128 + r mod 64)) EmptyString))
  else
    String (byte (240 + r / 262144))
      (String (byte (128 + (r / 4096) mod 64))
         (String (byte (128 + (r / 64) mod 64))
            (String (byte (128 + r mod 64)) EmptyString))).

Definition IsSurrogate (r : N) : bool := ((55296 <=? r) && (r <? 57344))%N.

(** [utf16.DecodeRune]: a high surrogate followed by a low one. *)
Definition DecodeSurrogates (r1 r2 : N) : option N :=
  if ((55296 <=? r1) && (r1 <? 56320) && (56320 <=? r2) && (r2 <? 57344))%N
  then Some ((r1 - 55296) * 1024 + (r2 - 56320) + 65536)%N
  else None.

Definition hex4 (a b c d : ascii) : option N :=
  match hex_val a, hex_val b, hex_val c, hex_val d with
  | Some x, Some y, Some z, Some w => Some (((x * 16 + y) * 16 + z) * 16 + w)%N
  | _, _, _, _ => None
  end.

End UTF8.

(** ** JSON texts, as [encoding/json] reads and writes them *)

Module JSON.
Import GoString UTF8.

(** A JSON value.  A number keeps its literal: the conversion depends on the
    Go type it is stored into. *)
#[warnings="-register-all"]
Inductive value : Type :=
| JNull
| JBool (b : bool)
| JNumber (lit : string)
| JString (s : string)
| JArray (elems : list value)
| JObject (members : list (string * value)).

Definition prepend (p : string) (o : option string) : option string :=
  match o with
  | Some s => Some (p ++ s)
  | None => None
  end.

Definition str1 (c : ascii) : string := String c EmptyString.
Definition str2 (c c1 : ascii) : string := String c (str1 c1).
Definition str3 (c c1 c2 : ascii) : string := String c (str2 c1 c2).
Definition str4 (c c1 c2 c3 : ascii) : string := String c (str3 c1 c2 c3).

(** The byte an escape letter stands for ([\u] is handled apart). *)
Definition simple_escape (e : ascii) : option ascii :=
  let n := code e in
  if (n =? 34)%N || (n =? 92)%N || (n =? 47)%N then Some e
  else if (n =? 98)%N then Some (byte 8)
  else if (n =? 102)%N then Some (byte 12)
  else if (n =? 110)%N then Some (byte 10)
  else if (n =? 114)%N then Some (byte 13)
  else if (n =? 116)%N then Some (byte 9)
  else None.

(** The content of a string literal (between its quotes) to the string it
    denotes: escapes are resolved, a [\u] escape becomes the UTF-8 encoding
    of its rune (a surrogate pair one rune, a lone surrogate U+FFFD), and a
    byte that is not part of valid UTF-8 becomes U+FFFD.  [None] when the
    literal is not well formed. *)
Fixpoint unquote (s : string) : option string :=
  match s with
  | EmptyString => Some EmptyString
  | String c r =>
      if (code c =? 92)%N then
        match r with
        | EmptyString => None
        | String e r' =>
            if (code e =? 117)%N then
              match r' with
              | String h1 (String h2 (String h3 (String h4 r2))) =>
                  match hex4 h1 h2 h3 h4 with
                  | None => None
                  | Some rr =>
                      if IsSurrogate rr then
                        match r2 with
                        | String b (String u (String g1 (String g2 (String g3 (String g4 r3))))) =>
                            match (if (code b =? 92)%N && (code u =? 117)%N
                                   then hex4 g1 g2 g3 g4 else None) with
                            | Some rr1 =>
                                match DecodeSurrogates rr rr1 with
                                | Some dec => prepend (EncodeRune dec) (unquote r3)
                                | None => prepend (EncodeRune RuneError) (unquote r2)
                                end
                            | None => prepend (EncodeRune RuneError) (unquote r2)
                            end
                        | _ => prepend (EncodeRune RuneError) (unquote r2)
                        end
                      else prepend (EncodeRune rr) (unquote r2)
                  end
              | _ => None
              end
            else
              match simple_escape e with
              | Some b => prepend (str1 b) (unquote r')
              | None => None
              end
        end
      else if (code c =? 34)%N || (code c <? 32)%N then None
      else if (code c <? 128)%N then prepend (str1 c) (unquote r)
      else
        let bad := prepend (EncodeRune RuneError) (unquote r) in
        match r with
        | String c1 r1 =>
            if two_ok c c1 then prepend (str2 c c1) (unquote r1)
            else
              match r1 with
              | String c2 r2 =>
                  if three_ok c c1 c2 then prepend (str3 c c1 c2) (unquote r2)
                  else
                    match r2 with
                    | String c3 r3 =>
                        if four_ok c c1 c2 c3
                        then prepend (str4 c c1 c2 c3) (unquote r3)
                        else bad
                    | EmptyString => bad
                    end
              | EmptyString => bad
              end
        | EmptyString => bad
        end
  end.

(** A number literal: an optional minus sign; a zero, or a non-zero digit
    followed by digits; an optional fraction (a dot and at least one
    digit); an optional exponent (e or E, an optional sign, at least one
    digit). *)
Fixpoint all_digits (s : string) : bool :=
  match s with
  | EmptyString => true
  | String c r => is_digit c && all_digits r
  end.

Definition exponent_ok (s : string) : bool :=
  let body :=
    match s with
    | String c r => if (code c =? 43)%N || (code c =? 45)%N then r else s
    | EmptyString => s
    end in
  match body with
  | EmptyString => false
  | _ => all_digits body
  end.

(** After the integer part: an optional fraction, an optional exponent. *)
Fixpoint fraction_digits (seen : bool) (s : string) : bool :=
  match s with
  | EmptyString => seen
  | String c r =>
      if is_digit c then fraction_digits true r
      else if (code c =? 101)%N || (code c =? 69)%N then seen && exponent_ok r
      else false
  end.

Fixpoint integer_digits (s : string) : bool :=
  match s with
  | EmptyString => true
  | String c r =>
      if is_digit c then integer_digits r
      else if (code c =? 46)%N then fraction_digits false r
      else if (code c =? 101)%N || (code c =? 69)%N then exponent_ok r
      else false
  end.

Definition after_zero (s : string) : bool :=
  match s with
  | EmptyString => true
  | String c r =>
      if (code c =? 46)%N then fraction_digits false r
      else if (code c =? 101)%N || (code c =? 69)%N then exponent_ok r
      else false
  end.

Definition valid_number (s : string) : bool :=
  let body :=
    match s with
    | String c r => if (code c =? 45)%N then r else s
    | EmptyString => s
    end in
  match body with
  | EmptyString => false
  | String c r =>
      if (code c =? 48)%N then after_zero r
      else if is_digit c then integer_digits r
      else false
  end.

(** *** Lexical analysis *)

Inductive token : Type :=
| TLBrace | TRBrace | TLBracket | TRBracket | TColon | TComma
| TString (s : string)
| TNumber (lit : string)
| TTrue | TFalse | TNull.

(** The lexer reads one byte at a time.  Between tokens it is in [LSkip];
    inside a string literal it accumulates the raw content, inside a number
    or a literal name the maximal run of bytes that can belong to one. *)
Inductive lex_state : Type :=
| LSkip
| LStr (acc : list ascii)
| LEsc (acc : list ascii)
| LNum (acc : list ascii)
| LLit (acc : list ascii).

Definition is_space (c : ascii) : bool :=
  let n := code c in
  (n =? 32)%N || (n =? 9)%N || (n =? 13)%N || (n =? 10)%N.

Definition is_numchar (c : ascii) : bool :=
  let n := code c in
  is_digit c || (n =? 45)%N || (n =? 43)%N || (n =? 46)%N
  || (n =? 101)%N || (n =? 69)%N.

(** A byte met between tokens: the state it leads to and the token it
    completes, if any. *)
Definition start (c : ascii) : option (lex_state * list token) :=
  let n := code c in
  if is_space c then Some (LSkip, [])
  else if (n =? 123)%N then Some (LSkip, [TLBrace])
  else if (n =? 125)%N then Some (LSkip, [TRBrace])
  else if (n =? 91)%N then Some (LSkip, [TLBracket])
  else if (n =? 93)%N then Some (LSkip, [TRBracket])
  else if (n =? 58)%N then Some (LSkip, [TColon])
  else if (n =? 44)%N then Some (LSkip, [TComma])
  else if (n =? 34)%N then Some (LStr [], [])
  else if is_digit c || (n =? 45)%N then Some (LNum [c], [])
  else if is_lower c then Some (LLit [c], [])
  else None.

Definition close_num (acc : list ascii) : option token :=
  let lit := of_rev acc in
  if valid_number lit then Some (TNumber lit) else None.

Definition close_lit (acc : list ascii) : option token :=
  let w := of_rev acc in
  if String.eqb w "true" then Some TTrue
  else if String.eqb w "false" then Some TFalse
  else if String.eqb w "null" then Some TNull
  else None.

(** After a number or a name, the byte that ended it is read as a byte
    between tokens. *)
Definition close_then (t : option token) (c : ascii) (toks : list token)
  : option (lex_state * list token) :=
  match t, start c with
  | Some t, Some (st, ts) => Some (st, (ts ++ t :: toks)%list)
  | _, _ => None
  end.

(** [lex st toks s]: the tokens of [s], [toks] being those read so far, last
    first.  [None] on a byte no JSON text can have there. *)
Fixpoint lex (st : lex_state) (toks : list token) (s : string)
  : option (list token) :=
  match s with
  | EmptyString =>
      match st with
      | LSkip => Some (rev toks)
      | LStr _ | LEsc _ => None
      | LNum acc =>
          match close_num acc with
          | Some t => Some (rev (t :: toks))
          | None => None
          end
      | LLit acc =>
          match close_lit acc with
          | Some t => Some (rev (t :: toks))
          | None => None
          end
      end
  | String c r =>
      match st with
      | LSkip =>
          match start c with
          | Some (st', ts) => lex st' (ts ++ toks)%list r
          | None => None
          end
      | LStr acc =>
          if (code c =? 34)%N then
            match unquote (of_rev acc) with
            | Some v => lex LSkip (TString v :: toks) r
            | None => None
            end
          else if (code c =? 92)%N then lex (LEsc (c :: acc)) toks r
          else if (code c <? 32)%N then None
          else lex (LStr (c :: acc)) toks r
      | LEsc acc => lex (LStr (c :: acc)) toks r
      | LNum acc =>
          if is_numchar c then lex (LNum (c :: acc)) toks r
          else
            match close_then (close_num acc) c toks with
            | Some (st', toks') => lex st' toks' r
            | None => None
            end
      | LLit acc =>
          if is_lower c then lex (LLit (c :: acc)) toks r
          else
            match close_then (close_lit acc) c toks with
            | Some (st', toks') => lex st' toks' r
            | None => None
            end
      end
  end.

Definition tokens (s : string) : option (list token) := lex LSkip [] s.

(** *** Syntax analysis *)

(** An open container: the elements, or the members and the key whose value
    is awaited, read so far (last first). *)
Inductive frame : Type :=
| FArr (elems : list value)
| FObj (members : list (string * value)) (key : string).

(** What the parser expects next.  The containers still open are on the
    stack, innermost first; the innermost one is the state's own. *)
Inductive parse_state : Type :=
| SValue                                    (* a value *)
| SArrFirst                                 (* a value or the closing bracket *)
| SArrNext (elems : list value)             (* a comma or the closing bracket *)
| SObjFirst                                 (* a key or the closing brace *)
| SObjKey (members : list (string * value)) (* a key *)
| SObjColon (members : list (string * value)) (key : string)
| SObjNext (members : list (string * value)) (* a comma or the closing brace *)
| SDone (v : value).                        (* the end of the text *)

(** The scanner refuses a text nested deeper than this. *)
Definition maxNestingDepth : N := 10000.

(** A value is complete: it goes to the innermost open container. *)
Definition complete (v : value) (stack : list frame)
  : parse_state * list frame :=
  match stack with
  | [] => (SDone v, [])
  | FArr elems :: stack' => (SArrNext (v :: elems), stack')
  | FObj members key :: stack' => (SObjNext ((key, v) :: members), stack')
  end.

(** [depth] counts the open containers, the state's own included. *)
Definition depth (st : parse_state) (stack : list frame) : N :=
  match st with
  | SValue | SDone _ => N.of_nat (List.length stack)
  | _ => N.succ (N.of_nat (List.length stack))
  end.

(** A token where a value must begin. *)
Definition begin_value (t : token) (stack : list frame) (d : N)
  : option (parse_state * list frame) :=
  match t with
  | TString s => Some (complete (JString s) stack)
  | TNumber lit => Some (complete (JNumber lit) stack)
  | TTrue => Some (complete (JBool true) stack)
  | TFalse => Some (complete (JBool false) stack)
  | TNull => Some (complete JNull stack)
  | TLBracket =>
      if (d <? maxNestingDepth)%N then Some (SArrFirst, stack) else None
  | TLBrace =>
      if (d <? maxNestingDepth)%N then Some (SObjFirst, stack) else None
  | _ => None
  end.

Definition step (st : parse_state) (stack : list frame) (t : token)
  : option (parse_state * list frame) :=
  match st, t with
  | SValue, _ => begin_value t stack (depth st stack)
  | SArrFirst, TRBracket => Some (complete (JArray []) stack)
  | SArrFirst, _ => begin_value t (FArr [] :: stack) (depth st stack)
  | SArrNext elems, TComma => Some (SValue, FArr elems :: stack)
  | SArrNext elems, TRBracket => Some (complete (JArray (rev elems)) stack)
  | SObjFirst, TRBrace => Some (complete (JObject []) stack)
  | SObjFirst, TString k => Some (SObjColon [] k, stack)
  | SObjKey members, TString k => Some (SObjColon members k, stack)
  | SObjColon members k, TColon => Some (SValue, FObj members k :: stack)
  | SObjNext members, TComma => Some (SObjKey members, stack)
  | SObjNext members, TRBrace => Some (complete (JObject (rev members)) stack)
  | _, _ => None
  end.

Fixpoint run (st : parse_state) (stack : list frame) (ts : list token)
  : option value :=
  match ts with
  | [] => match st with SDone v => Some v | _ => None end
  | t :: ts' =>
      match step st stack t with
      | Some (st', stack') => run st' stack' ts'
      | None => None
      end
  end.

(** [parse s]: the value the JSON text [s] denotes; [None] when [s] is not a
    JSON text (the empty text is not one). *)
Definition parse (s : string) : option value :=
  match tokens s with
  | Some ts => run SValue [] ts
  | None => None
  end.

(** *** Writing a value *)

(** A byte written as it is inside a string literal: printable ASCII but the
    quote, the backslash and the characters HTML gives a meaning to. *)
Definition htmlSafe (c : ascii) : bool :=
  let n := code c in
  (32 <=? n)%N && (n <? 128)%N
  && negb ((n =? 34)%N || (n =? 92)%N || (n =? 38)%N || (n =? 60)%N || (n =? 62)%N).

Definition u00 (c : ascii) : string :=
  String backslash
    (String "u" (String "0" (String "0"
       (str2 (hex_digit false (code c / 16)) (hex_digit false (code c mod 16)))))).

Definition escape_ascii (c : ascii) : string :=
  let n := code c in
  if htmlSafe c then str1 c
  else if (n =? 34)%N || (n =? 92)%N then str2 backslash c
  else if (n =? 10)%N then str2 backslash "n"
  else if (n =? 13)%N then str2 backslash "r"
  else if (n =? 9)%N then str2 backslash "t"
  else u00 c.

Definition ufffd : string := String backslash "ufffd".

(** U+2028 and U+2029 (E2 80 A8, E2 80 A9) are written as escapes. *)
Definition escape3 (c c1 c2 : ascii) : string :=
  if (code c =? 226)%N && (code c1 =? 128)%N && (code c2 =? 168)%N
  then String backslash "u2028"
  else if (code c =? 226)%N && (code c1 =? 128)%N && (code c2 =? 169)%N
  then String backslash "u2029"
  else str3 c c1 c2.

(** The content of the string literal for [s]: control characters, the
    quote, the backslash and the HTML characters escaped, a byte that is not
    part of valid UTF-8 written as the escape of U+FFFD.  (Backspace and
    form feed are written [\u0008] and [\u000c], as the releases of Go of
    the time of this code do; later ones write [\b] and [\f].) *)
Fixpoint escape (s : string) : string :=
  match s with
  | EmptyString => EmptyString
  | String c r =>
      if (code c <? 128)%N then escape_ascii c ++ escape r
      else
        let bad := ufffd ++ escape r in
        match r with
        | String c1 r1 =>
            if two_ok c c1 then str2 c c1 ++ escape r1
            else
              match r1 with
              | String c2 r2 =>
                  if three_ok c c1 c2 then escape3 c c1 c2 ++ escape r2
                  else
                    match r2 with
                    | String c3 r3 =>
                        if four_ok c c1 c2 c3
                        then str4 c c1 c2 c3 ++ escape r3
                        else bad
                    | EmptyString => bad
                    end
              | EmptyString => bad
              end
        | EmptyString => bad
        end
  end.

Definition quote (s : string) : string :=
  String dquote (escape s) ++ str1 dquote.

(** The compact text of a value: no space between tokens, members in the
    order of the list. *)
Fixpoint encode (v : value) : string :=
  match v with
  | JNull => "null"
  | JBool true => "true"
  | JBool false => "false"
  | JNumber lit => lit
  | JString s => quote s
  | JArray elems =>
      let fix items (first : bool) (l : list value) : string :=
        match l with
        | [] => EmptyString
        | e :: l' => (if first then EmptyString else ",") ++ encode e ++ items false l'
        end in
      "[" ++ items true elems ++ "]"
  | JObject members =>
      let fix items (first : bool) (l : list (string * value)) : string :=
        match l with
        | [] => EmptyString
        | (k, e) :: l' =>
            (if first then EmptyString else ",")
            ++ quote k ++ ":" ++ encode e ++ items false l'
        end in
      "{" ++ items true members ++ "}"
  end.

(** The keys of an object, in order; of any other value, none. *)
Definition keys (v : value) : list string :=
  match v with
  | JObject members => map fst members
  | _ => []
  end.


End JSON.

(** ** Errors *)

(** The [error] values the two packages can return.  [failure.Wrap] keeps
    the error it is given as the cause. *)
Inductive error : Type :=
| SyntaxError                                  (* *json.SyntaxError *)
| UnmarshalTypeError (Value Type_ : string)    (* *json.UnmarshalTypeError *)
| MarshalError (msg : string)                  (* returned by json.Marshal *)
| NewRequestError (msg : string)               (* returned by http.NewRequest *)
| URLError (Op URL Err : string)               (* *url.Error, returned by Client.Do *)
| BodyReadError (msg : string)                 (* returned while the body is read *)
| Wrapped (cause : error).                     (* failure.Wrap *)

Definition failure_Wrap (err : error) : error := Wrapped err.

Fixpoint cause (e : error) : error :=
  match e with
  | Wrapped e' => cause e'
  | _ => e
  end.

(** The error taxonomy of the design: an error of the transport (the call or
    the reading of the body) is a network error, an error of the local
    serialization an encoding error, and a body that cannot be decoded into
    the expected shape a protocol error. *)
Inductive ErrorKind : Type := NetworkError | EncodingError | ProtocolError.

Definition kind_of (e : error) : ErrorKind :=
  match cause e with
  | SyntaxError | UnmarshalTypeError _ _ => ProtocolError
  | MarshalError _ | NewRequestError _ => EncodingError
  | URLError _ _ _ | BodyReadError _ => NetworkError
  | Wrapped _ => NetworkError
  end.

(** A call either returns or panics with a run-time error. *)
Inductive outcome (A : Type) : Type :=
| Returned (a : A)
| Panicked (msg : string).
Arguments Returned {A} a.
Arguments Panicked {A} msg.

(** ** [json.Unmarshal] into the types of the two packages *)

Module Decode.
Import GoString JSON.

(** A decoder stores a value into a Go variable: it takes the variable's
    content and returns the new content, with the first error met.  As in
    [encoding/json], a type mismatch is recorded and decoding goes on. *)
Definition decoder (T : Type) : Type := value -> T -> T * option error.

Definition first_error (e1 e2 : option error) : option error :=
  match e1 with
  | Some _ => e1
  | None => e2
  end.

Definition describe (v : value) : string :=
  match v with
  | JNull => "null"
  | JBool _ => "bool"
  | JNumber _ => "number"
  | JString _ => "string"
  | JArray _ => "array"
  | JObject _ => "object"
  end.

Definition mismatch (v : value) (ty : string) : option error :=
  Some (UnmarshalTypeError (describe v) ty).

(** [null] leaves a variable that is not a pointer or a slice as it is. *)
Definition decode_string : decoder string :=
  fun v old =>
    match v with
    | JString s => (s, None)
    | JNull => (old, None)
    | _ => (old, mismatch v "string")
    end.

Definition decode_int64 : decoder Z :=
  fun v old =>
    match v with
    | JNumber lit =>
        match ParseInt64 lit with
        | Some n => (n, None)
        | None => (old, Some (UnmarshalTypeError ("number " ++ lit) "int64"))
        end
    | JNull => (old, None)
    | _ => (old, mismatch v "int64")
    end.

Definition decode_number {F : Type} (parse_number : string -> option F) (ty : string)
  : decoder F :=
  fun v old =>
    match v with
    | JNumber lit =>
        match parse_number lit with
        | Some n => (n, None)
        | None => (old, Some (UnmarshalTypeError ("number " ++ lit) ty))
        end
    | JNull => (old, None)
    | _ => (old, mismatch v ty)
    end.

(** A pointer: [null] makes it nil; any other value is stored into the
    variable pointed to, allocated with the zero value when the pointer is
    nil. *)
Definition decode_ptr {T : Type} (zero : T) (d : decoder T) : decoder (option T) :=
  fun v old =>
    match v with
    | JNull => (None, None)
    | _ =>
        let '(t, e) := d v (match old with Some t => t | None => zero end) in
        (Some t, e)
    end.

(** A slice, as the documentation of [Unmarshal] has it: an array resets
    the length to zero and appends each element, stored into a fresh zero
    value; [null] makes the slice nil (here the empty list). *)
Fixpoint decode_elems {T : Type} (zero : T) (d : decoder T) (l : list value)
  : list T * option error :=
  match l with
  | [] => ([], None)
  | v :: l' =>
      let '(t, e) := d v zero in
      let '(ts, e') := decode_elems zero d l' in
      (t :: ts, first_error e e')
  end.

Definition decode_slice {T : Type} (zero : T) (d : decoder T) (ty : string)
  : decoder (list T) :=
  fun v old =>
    match v with
    | JArray elems => decode_elems zero d elems
    | JNull => ([], None)
    | _ => (old, mismatch v ty)
    end.

(** Keys are matched with the field names exactly or, failing that, under
    Unicode simple case folding.  The field names are ASCII: a key folds to
    one when its ASCII letters do without regard to case, the long s
    (U+017F, bytes C5 BF) standing for an s and the Kelvin sign (U+212A,
    bytes E2 84 AA) for a k. *)
Fixpoint fold_key (key : string) : string :=
  match key with
  | EmptyString => EmptyString
  | String c r =>
      match r with
      | String c1 r1 =>
          if (code c =? 197)%N && (code c1 =? 191)%N then String "s" (fold_key r1)
          else
            match r1 with
            | String c2 r2 =>
                if (code c =? 226)%N && (code c1 =? 132)%N && (code c2 =? 170)%N
                then String "k" (fold_key r2)
                else String (to_lower c) (fold_key r)
            | EmptyString => String (to_lower c) (fold_key r)
            end
      | EmptyString => String (to_lower c) EmptyString
      end
  end.

Definition fold_eq (field key : string) : bool :=
  String.eqb (map_bytes to_lower field) (fold_key key).

Definition find_field (fields : list string) (key : string) : option string :=
  match find (String.eqb key) fields with
  | Some f => Some f
  | None => find (fun f => fold_eq f key) fields
  end.

(** A struct: the members of an object are stored in the order of the text,
    each into the field its key names (a later member with the same key is
    stored over the earlier one), members that name no field are skipped;
    [null] leaves the struct as it is. *)
Definition decode_member {T : Type} (fields : list string)
    (set : string -> decoder T) (acc : T * option error) (m : string * value)
  : T * option error :=
  match find_field fields (fst m) with
  | Some f =>
      let '(t, e) := set f (snd m) (fst acc) in
      (t, first_error (snd acc) e)
  | None => acc
  end.

Definition decode_struct {T : Type} (ty : string) (fields : list string)
    (set : string -> decoder T) : decoder T :=
  fun v old =>
    match v with
    | JObject members => fold_left (decode_member fields set) members (old, None)
    | JNull => (old, None)
    | _ => (old, mismatch v ty)
    end.

(** [json.Unmarshal(data, &x)]: the text is checked as a whole first, so a
    text that is not JSON leaves [x] as it is. *)
Definition Unmarshal {T : Type} (d : decoder T) (data : string) (x : T)
  : T * option error :=
  match parse data with
  | Some v => d v x
  | None => (x, Some SyntaxError)
  end.

End Decode.

(** ** [net/url]: escaping, form values, query strings *)

Module URL.
Import GoString.

(** Bytes [url.QueryEscape] leaves as they are: letters, digits and
    [- _ . ~]. *)
Definition unreserved (c : ascii) : bool :=
  let n := code c in
  is_letter c || is_digit c
  || (n =? 45)%N || (n =? 95)%N || (n =? 46)%N || (n =? 126)%N.

Definition percent (c : ascii) : string :=
  String "%" (String (hex_digit true (code c / 16))
                (String (hex_digit true (code c mod 16)) EmptyString)).

Fixpoint QueryEscape (s : string) : string :=
  match s with
  | EmptyString => EmptyString
  | String c r =>
      (if unreserved c then String c EmptyString
       else if (code c =? 32)%N then "+"
       else percent c) ++ QueryEscape r
  end.

(** [url.QueryUnescape]: [+] is a space, [%XX] the byte XX; an error when a
    [%] is not followed by two hexadecimal digits. *)
Fixpoint QueryUnescape (s : string) : option string :=
  match s with
  | EmptyString => Some EmptyString
  | String c r =>
      if (code c =? 37)%N then
        match r with
        | String h1 (String h2 r') =>
            match hex_val h1, hex_val h2, QueryUnescape r' with
            | Some x, Some y, Some t => Some (String (byte (x * 16 + y)) t)
            | _, _, _ => None
            end
        | _ => None
        end
      else
        match QueryUnescape r with
        | Some t => Some (String (if (code c =? 43)%N then " "%char else c) t)
        | None => None
        end
  end.

(** [url.Values]: for each key the values added, in the order they were
    added. *)
Definition Values := list (string * list string).

Fixpoint Add (v : Values) (key value : string) : Values :=
  match v with
  | [] => [(key, [value])]
  | (k, vs) :: v' =>
      if String.eqb k key then (k, (vs ++ [value])%list) :: v'
      else (k, vs) :: Add v' key value
  end.

Fixpoint Set_ (v : Values) (key value : string) : Values :=
  match v with
  | [] => [(key, [value])]
  | (k, vs) :: v' =>
      if String.eqb k key then (k, [value]) :: v'
      else (k, vs) :: Set_ v' key value
  end.

Fixpoint insert_sorted (e : string * list string) (v : Values) : Values :=
  match v with
  | [] => [e]
  | e' :: v' =>
      if String.leb (fst e) (fst e') then e :: v
      else e' :: insert_sorted e v'
  end.

Definition sort_keys (v : Values) : Values :=
  fold_right insert_sorted [] v.

(** [Values.Encode]: [key=value] pairs, escaped, joined by [&], sorted by
    key. *)
Definition pairs_of (v : Values) : list string :=
  flat_map
    (fun kv => map (fun x => QueryEscape (fst kv) ++ "=" ++ QueryEscape x) (snd kv))
    (sort_keys v).

Definition Encode (v : Values) : string := String.concat "&" (pairs_of v).

(** *** Reading a query string *)

Fixpoint contains_byte (n : N) (s : string) : bool :=
  match s with
  | EmptyString => false
  | String c r => (code c =? n)%N || contains_byte n r
  end.

(** [strings.Cut(s, sep)] for a one-byte [sep]: what precedes the first
    [sep] and what follows it; all of [s] and nothing when [s] has none. *)
Fixpoint cut (sep : N) (s : string) : string * string :=
  match s with
  | EmptyString => (EmptyString, EmptyString)
  | String c r =>
      if (code c =? sep)%N then (EmptyString, r)
      else let '(a, b) := cut sep r in (String c a, b)
  end.

(** The fields of [s] between the occurrences of [sep]. *)
Fixpoint split (sep : N) (s : string) : list string :=
  match s with
  | EmptyString => [EmptyString]
  | String c r =>
      if (code c =? sep)%N then EmptyString :: split sep r
      else
        match split sep r with
        | x :: xs => String c x :: xs
        | [] => [String c EmptyString]
        end
  end.

(** [url.ParseQuery], keeping the order of the text: the fields between
    [&], the empty ones skipped, each cut at its first [=] into a name and a
    value, both unescaped; a field that cannot be unescaped is dropped. *)
Definition parse_field (f : string) : list (string * string) :=
  match f with
  | EmptyString => []
  | _ =>
      let '(k, v) := cut 61 f in
      match QueryUnescape k, QueryUnescape v with
      | Some k', Some v' => [(k', v')]
      | _, _ => []
      end
  end.

Definition ParseQuery (query : string) : list (string * string) :=
  flat_map parse_field (split 38 query).

(** The query of a URL: what follows the first [?], the fragment (from the
    first [#] on) left out. *)
Definition RawQuery (url : string) : string :=
  snd (cut 63 (fst (cut 35 url))).

Definition query_parameters (url : string) : list (string * string) :=
  ParseQuery (RawQuery url).

End URL.

(** ** [net/http]: headers, requests, responses, the client *)

Module HTTP.
Import GoString.

Definition MethodPost : string := "POST".

(** Bytes a header name may have: letters, digits and some punctuation. *)
Definition is_token_byte (c : ascii) : bool :=
  let n := code c in
  is_letter c || is_digit c
  || (n =? 33)%N || ((35 <=? n)%N && (n <=? 39)%N) || (n =? 42)%N || (n =? 43)%N
  || (n =? 45)%N || (n =? 46)%N || (n =? 94)%N || (n =? 95)%N || (n =? 96)%N
  || (n =? 124)%N || (n =? 126)%N.

Fixpoint all_token (s : string) : bool :=
  match s with
  | EmptyString => true
  | String c r => is_token_byte c && all_token r
  end.

Fixpoint canonical (upper : bool) (s : string) : string :=
  match s with
  | EmptyString => EmptyString
  | String c r =>
      String (if upper then to_upper c else to_lower c)
             (canonical (code c =? 45)%N r)
  end.

(** [textproto.CanonicalMIMEHeaderKey]: the first letter and every letter
    after a hyphen in upper case, the others in lower case; a name with a
    byte no header name can have is left as it is. *)
Definition CanonicalHeaderKey (s : string) : string :=
  if all_token s then canonical true s else s.

(** [http.Header] maps a canonical name to the values set for it. *)
Definition Header := URL.Values.

Definition Header_Add (h : Header) (key value : string) : Header :=
  URL.Add h (CanonicalHeaderKey key) value.

Definition Header_Set (h : Header) (key value : string) : Header :=
  URL.Set_ h (CanonicalHeaderKey key) value.


Section WithContext.
(** The type of [context.Context] values: they are handed to the transport
    and not looked at by the two packages. *)
Variable Ctx : Type.

Record Request : Type := mkRequest {
  Method : string;
  RequestURL : string;
  RequestHeader : Header;
  RequestBody : string;
  RequestCtx : option Ctx
}.

(** [http.NewRequest]: the background context is the request's context
    until [WithContext] gives it one. *)
Definition NewRequest (method url body : string) : Request * option error :=
  (mkRequest method url [] body None, None).

Definition WithContext (r : Request) (ctx : Ctx) : Request :=
  mkRequest (Method r) (RequestURL r) (RequestHeader r) (RequestBody r) (Some ctx).

Definition with_header (r : Request) (h : Header) : Request :=
  mkRequest (Method r) (RequestURL r) h (RequestBody r) (RequestCtx r).

(** The body of a response as [ioutil.ReadAll] finds it: the bytes read and
    the error that ended the reading, if any. *)
Record BodyReader : Type := mkBody {
  content : string;
  read_error : option error
}.

Definition ReadAll (b : BodyReader) : string * option error :=
  (content b, read_error b).

Record Response : Type := mkResponse {
  StatusCode : Z;
  Status : string;
  ResponseHeader : Header;
  Body : BodyReader
}.

(** The [Do] method of [http.Client]: a response or an error. *)
Definition Client : Type := Request -> Response + error.

Definition Do (c : Client) (r : Request) : Response * option error :=
  match c r with
  | inl resp => (resp, None)
  | inr err => (mkResponse 0 EmptyString [] (mkBody EmptyString None), Some err)
  end.

End WithContext.

Arguments mkRequest {Ctx}.
Arguments Method {Ctx}.
Arguments RequestURL {Ctx}.
Arguments RequestHeader {Ctx}.
Arguments RequestBody {Ctx}.
Arguments RequestCtx {Ctx}.
Arguments NewRequest {Ctx}.
Arguments WithContext {Ctx}.
Arguments with_header {Ctx}.
Arguments Do {Ctx}.

End HTTP.

(** ** Package gclient *)

Module gclient.

Definition ContentTypeHeader : string := "Content-type".
Definition ContentTypeJSON : string := "application/json".
Definition ContentTypeForm : string := "application/x-www-form-urlencoded".

Definition AuthorizationHeader : string := "Authorization".
Definition AuthorizationParam : string := "Bearer %s".

End gclient.

(** [fmt.Sprintf] for a format with one [%s] verb and its operand. *)
Fixpoint Sprintf (format arg : string) : string :=
  match format with
  | String "%" (String "s" r) => arg ++ r
  | String c r => String c (Sprintf r arg)
  | EmptyString => EmptyString
  end.

(** ** Package goauth2 *)

Module goauth2.
Import GoString JSON Decode HTTP.

Definition oauthURI : string := "https://accounts.google.com/o/oauth2/v2/auth".
Definition authorizationURI : string := "https://www.googleapis.com/oauth2/v4/token".

Definition redirectURI : string := "urn:ietf:wg:oauth:2.0:oob".
Definition responseType : string := "code".
Definition accessType : string := "offline".
Definition grantTypeAuthorizationCode : string := "authorization_code".
Definition grantTypeRefreshToken : string := "refresh_token".

Record AuthorizationResponse : Type := mkAuthorizationResponse {
  AccessToken : string;
  IDToken : string;
  ExpiresIn : Z;
  TokenType : string;
  RefreshToken : string
}.

(** The value of [var response AuthorizationResponse]. *)
Definition zero_AuthorizationResponse : AuthorizationResponse :=
  mkAuthorizationResponse EmptyString EmptyString 0 EmptyString EmptyString.

(** The JSON names of the fields, from the struct tags. *)
Definition AuthorizationResponse_fields : list string :=
  ["access_token"; "id_token"; "expires_in"; "token_type"; "refresh_token"].

Definition set_AuthorizationResponse (f : string) : decoder AuthorizationResponse :=
  fun v r =>
    if String.eqb f "access_token" then
      let '(x, e) := decode_string v (AccessToken r) in
      (mkAuthorizationResponse x (IDToken r) (ExpiresIn r) (TokenType r) (RefreshToken r), e)
    else if String.eqb f "id_token" then
      let '(x, e) := decode_string v (IDToken r) in
      (mkAuthorizationResponse (AccessToken r) x (ExpiresIn r) (TokenType r) (RefreshToken r), e)
    else if String.eqb f "expires_in" then
      let '(x, e) := decode_int64 v (ExpiresIn r) in
      (mkAuthorizationResponse (AccessToken r) (IDToken r) x (TokenType r) (RefreshToken r), e)
    else if String.eqb f "token_type" then
      let '(x, e) := decode_string v (TokenType r) in
      (mkAuthorizationResponse (AccessToken r) (IDToken r) (ExpiresIn r) x (RefreshToken r), e)
    else if String.eqb f "refresh_token" then
      let '(x, e) := decode_string v (RefreshToken r) in
      (mkAuthorizationResponse (AccessToken r) (IDToken r) (ExpiresIn r) (TokenType r) x, e)
    else (r, None).

Definition decode_AuthorizationResponse : decoder AuthorizationResponse :=
  decode_struct "goauth2.AuthorizationResponse"
    AuthorizationResponse_fields set_AuthorizationResponse.

Section WithContext.
Variable Ctx : Type.

(** [c] is the [*http.Client], nil until [WithHTTPClient] sets it. *)
Record Client : Type := mkClient {
  c : option (HTTP.Client Ctx);
  clientID : string;
  clientSecret : string;
  accessToken : string;
  accessTokenExpire : Z;
  refreshToken : string;
  scope : string
}.

Definition GetRefreshToken (c : Client) : string := refreshToken c.
Definition GetAccessToken (c : Client) : string := accessToken c.

Definition NewClient (clientID clientSecret : string) : Client :=
  mkClient None clientID clientSecret EmptyString 0 EmptyString EmptyString.

Definition set_accessToken (c0 : Client) (v : string) : Client :=
  mkClient (c c0) (clientID c0) (clientSecret c0) v (accessTokenExpire c0)
    (refreshToken c0) (scope c0).
Definition set_accessTokenExpire (c0 : Client) (v : Z) : Client :=
  mkClient (c c0) (clientID c0) (clientSecret c0) (accessToken c0) v
    (refreshToken c0) (scope c0).
Definition set_refreshToken (c0 : Client) (v : string) : Client :=
  mkClient (c c0) (clientID c0) (clientSecret c0) (accessToken c0)
    (accessTokenExpire c0) v (scope c0).
Definition set_scope (c0 : Client) (v : string) : Client :=
  mkClient (c c0) (clientID c0) (clientSecret c0) (accessToken c0)
    (accessTokenExpire c0) (refreshToken c0) v.

Definition WithAccessToken (c : Client) (accessToken : string) : Client :=
  set_accessToken c accessToken.

Definition WithScope (c : Client) (scope : string) : Client :=
  set_scope c scope.

(** The loop of [WithScopes]: each scope and an ampersand after it. *)
Definition write_scopes (builder : Builder) (scopes : list string) : Builder :=
  fold_left
    (fun builder scope => WriteString (WriteString builder scope) "&")
    scopes builder.

Definition WithScopes (c : Client) (scopes : list string) : outcome Client :=
  let builder := write_scopes Builder_new scopes in
  let s := Builder_String builder in
  match slice_to s (len s - 1) with
  | Some v => Returned (set_scope c v)
  | None => Panicked "slice bounds out of range"
  end.

Definition WithHTTPClient (c0 : Client) (client : HTTP.Client Ctx) : Client :=
  mkClient (Some client) (clientID c0) (clientSecret c0) (accessToken c0)
    (accessTokenExpire c0) (refreshToken c0) (scope c0).

Definition GetOAuthURI (c : Client) : string :=
  let builder := Builder_new in
  let builder := WriteString builder oauthURI in
  let builder := WriteString builder "?" in
  let builder := WriteString builder "&client_id=" in
  let builder := WriteString builder (clientID c) in
  let builder := WriteString builder "&redirect_uri=" in
  let builder := WriteString builder redirectURI in
  let builder := WriteString builder "&scope=" in
  let builder := WriteString builder (scope c) in
  let builder := WriteString builder "&access_type=" in
  let builder := WriteString builder accessType in
  let builder := WriteString builder "&response_type=" in
  let builder := WriteString builder responseType in
  Builder_String builder.

(** What a call leaves behind: the client, the error returned and the
    responses written to the log by [log.Println]. *)
Record result : Type := mkResult {
  state : Client;
  err : option error;
  logged : list Response
}.

(** The request [Authorization] hands to the HTTP client. *)
Definition Authorization_request (ctx : Ctx) (c : Client) (authorizationCode : string)
  : Request Ctx * option error :=
  let params : URL.Values := [] in
  let params := URL.Add params "code" authorizationCode in
  let params := URL.Add params "client_id" (clientID c) in
  let params := URL.Add params "client_secret" (clientSecret c) in
  let params := URL.Add params "redirect_uri" redirectURI in
  let params := URL.Add params "grant_type" grantTypeAuthorizationCode in
  let params := URL.Add params "access_type" accessType in
  let '(req, err) := NewRequest MethodPost authorizationURI (URL.Encode params) in
  match err with
  | Some _ => (req, err)
  | None =>
      let req := WithContext req ctx in
      let req := with_header req
                   (Header_Add (RequestHeader req)
                      gclient.ContentTypeHeader gclient.ContentTypeForm) in
      (req, None)
  end.

Definition Authorization (ctx : Ctx) (c0 : Client) (authorizationCode : string)
  : outcome result :=
  let '(req, err) := Authorization_request ctx c0 authorizationCode in
  match err with
  | Some err => Returned (mkResult c0 (Some (failure_Wrap err)) [])
  | None =>
      match c c0 with
      | None => Panicked "invalid memory address or nil pointer dereference"
      | Some client =>
          let '(rawResponse, err) := Do client req in
          match err with
          | Some err => Returned (mkResult c0 (Some (failure_Wrap err)) [])
          | None =>
              let '(responseBuf, err) := ReadAll (Body rawResponse) in
              match err with
              | Some err => Returned (mkResult c0 (Some (failure_Wrap err)) [])
              | None =>
                  let '(response, err) :=
                    Unmarshal decode_AuthorizationResponse responseBuf
                      zero_AuthorizationResponse in
                  match err with
                  | Some err =>
                      Returned (mkResult c0 (Some (failure_Wrap err)) [rawResponse])
                  | None =>
                      let c1 := set_accessToken c0 (AccessToken response) in
                      let c1 := set_accessTokenExpire c1 (ExpiresIn response) in
                      let c1 := set_refreshToken c1 (RefreshToken response) in
                      Returned (mkResult c1 None [])
                  end
              end
          end
      end
  end.

(** The request [Refresh] hands to the HTTP client; [c] has the refresh
    token of the call already. *)
Definition Refresh_request (ctx : Ctx) (c : Client) : Request Ctx * option error :=
  let params : URL.Values := [] in
  let params := URL.Set_ params "client_id" (clientID c) in
  let params := URL.Set_ params "client_secret" (clientSecret c) in
  let params := URL.Set_ params "grant_type" grantTypeRefreshToken in
  let params := URL.Set_ params "refresh_token" (refreshToken c) in
  let '(req, err) := NewRequest MethodPost authorizationURI (URL.Encode params) in
  match err with
  | Some _ => (req, err)
  | None =>
      let req := WithContext req ctx in
      let req := with_header req
                   (Header_Add (RequestHeader req)
                      gclient.ContentTypeHeader gclient.ContentTypeForm) in
      (req, None)
  end.

Definition Refresh (ctx : Ctx) (c0 : Client) (refreshToken : string)
  : outcome result :=
  let c0 := set_refreshToken c0 refreshToken in
  let '(req, err) := Refresh_request ctx c0 in
  match err with
  | Some err => Returned (mkResult c0 (Some (failure_Wrap err)) [])
  | None =>
      match c c0 with
      | None => Panicked "invalid memory address or nil pointer dereference"
      | Some client =>
          let '(rawResponse, err) := Do client req in
          match err with
          | Some err => Returned (mkResult c0 (Some (failure_Wrap err)) [])
          | None =>
              let '(responseBuf, err) := ReadAll (Body rawResponse) in
              match err with
              | Some err => Returned (mkResult c0 (Some (failure_Wrap err)) [])
              | None =>
                  let '(response, err) :=
                    Unmarshal decode_AuthorizationResponse responseBuf
                      zero_AuthorizationResponse in
                  match err with
                  | Some err =>
                      Returned (mkResult c0 (Some (failure_Wrap err)) [rawResponse])
                  | None =>
                      let c1 :=
                        if negb (String.eqb (AccessToken response) EmptyString)
                        then set_accessTokenExpire
                               (set_accessToken c0 (AccessToken response))
                               (ExpiresIn response)
                        else c0 in
                      let c1 :=
                        if negb (String.eqb (RefreshToken response) EmptyString)
                        then set_refreshToken c1 (RefreshToken response)
                        else c1 in
                      Returned (mkResult c1 None [])
                  end
              end
          end
      end
  end.

End WithContext.

Arguments mkClient {Ctx}.
Arguments c {Ctx}.
Arguments clientID {Ctx}.
Arguments clientSecret {Ctx}.
Arguments accessToken {Ctx}.
Arguments accessTokenExpire {Ctx}.
Arguments refreshToken {Ctx}.
Arguments scope {Ctx}.
Arguments GetRefreshToken {Ctx}.
Arguments GetAccessToken {Ctx}.
Arguments NewClient {Ctx}.
Arguments WithAccessToken {Ctx}.
Arguments WithScope {Ctx}.
Arguments WithScopes {Ctx}.
Arguments WithHTTPClient {Ctx}.
Arguments GetOAuthURI {Ctx}.
Arguments mkResult {Ctx}.
Arguments state {Ctx}.
Arguments err {Ctx}.
Arguments logged {Ctx}.
Arguments Authorization_request {Ctx}.
Arguments Authorization {Ctx}.
Arguments Refresh_request {Ctx}.
Arguments Refresh {Ctx}.

End goauth2.

(** ** Package gphoto *)

Module gphoto.
Import GoString JSON Decode HTTP.

Definition baseURL : string := "https://photoslibrary.googleapis.com/v1/".
Definition mediaItemsSearchEndpoint : string := "mediaItems:search".
Definition ScopeLibraryReadOnly : string :=
  "https://www.googleapis.com/auth/photoslibrary.readonly".

(** *** The request *)

Record PagerRequest : Type := mkPagerRequest {
  PageSize : string;
  PageToken : string
}.

Definition ContentCategory := string.
Definition MediaType := string.
Definition Feature := string.
Definition VideoProcessingStatus := string.

(** [int] fields hold values of the machine's [int]. *)
Record Date : Type := mkDate {
  Year : Z;
  Month : Z;
  Day : Z
}.

Record DateRange : Type := mkDateRange {
  StartDate : option Date;
  EndDate : option Date
}.

Record DateFilter : Type := mkDateFilter {
  Dates : list (option Date);
  Ranges : list (option DateRange)
}.

Record ContentFilter : Type := mkContentFilter {
  IncludedContentCategories : list ContentCategory;
  ExcludedContentCategories : list ContentCategory
}.

Record MediaTypeFilter : Type := mkMediaTypeFilter {
  MediaTypes : list MediaType
}.

Record FeatureFilter : Type := mkFeatureFilter {
  IncludedFeatures : list Feature
}.

(** A field whose name is the name of its type has the type's initial
    letters put before it. *)
Record Filters : Type := mkFilters {
  F_DateFilter : option DateFilter;
  F_ContentFilter : option ContentFilter;
  F_MediaTypeFilter : option MediaTypeFilter;
  F_FeatureFilter : option FeatureFilter;
  IncludeArchivedMedia : bool;
  ExcludeNonAppCreatedData : bool
}.

Record MediaItemsSearchRequest : Type := mkMediaItemsSearchRequest {
  R_PagerRequest : PagerRequest;
  AlbumID : string;
  R_Filters : option Filters
}.

Definition ContentCategoryNone : ContentCategory := "NONE".
Definition ContentCategoryLandscapes : ContentCategory := "LANDSCAPES".
Definition ContentCategoryPets : ContentCategory := "PETS".
Definition MediaTypeAllMedia : MediaType := "ALL_MEDIA".
Definition MediaTypeVideo : MediaType := "VIDEO".
Definition MediaTypePhoto : MediaType := "PHOTO".
Definition FeatureNone : Feature := "NONE".
Definition FeatureFavorites : Feature := "FAVORITES".

(** *** [json.Marshal] of the request *)

(** A field tagged [omitempty]: left out when its value is empty (the empty
    string, zero, false, a nil pointer, a slice of length zero). *)
Definition omitempty (name : string) (empty : bool) (v : value)
  : list (string * value) :=
  if empty then [] else [(name, v)].

Definition string_field (name s : string) : list (string * value) :=
  omitempty name (String.eqb s EmptyString) (JString s).

Definition int_field (name : string) (z : Z) : list (string * value) :=
  omitempty name (z =? 0) (JNumber (FormatInt z)).

Definition bool_field (name : string) (b : bool) : list (string * value) :=
  omitempty name (negb b) (JBool b).

Definition ptr_field {T : Type} (name : string) (m : T -> value) (p : option T)
  : list (string * value) :=
  match p with
  | None => []
  | Some t => [(name, m t)]
  end.

Definition slice_field {T : Type} (name : string) (m : T -> value) (l : list T)
  : list (string * value) :=
  match l with
  | [] => []
  | _ => [(name, JArray (map m l))]
  end.

(** A pointer that is an element of a slice: nil is written [null]. *)
Definition marshal_ptr {T : Type} (m : T -> value) (p : option T) : value :=
  match p with
  | None => JNull
  | Some t => m t
  end.

Definition marshal_Date (d : Date) : value :=
  JObject (int_field "year" (Year d) ++ int_field "month" (Month d)
           ++ int_field "day" (Day d))%list.

Definition marshal_DateRange (r : DateRange) : value :=
  JObject (ptr_field "startDate" marshal_Date (StartDate r)
           ++ ptr_field "endDate" marshal_Date (EndDate r))%list.

Definition marshal_DateFilter (f : DateFilter) : value :=
  JObject (slice_field "dates" (marshal_ptr marshal_Date) (Dates f)
           ++ slice_field "ranges" (marshal_ptr marshal_DateRange) (Ranges f))%list.

Definition marshal_ContentFilter (f : ContentFilter) : value :=
  JObject (slice_field "includedContentCategories" JString (IncludedContentCategories f)
           ++ slice_field "excludedContentCategories" JString
                (ExcludedContentCategories f))%list.

Definition marshal_MediaTypeFilter (f : MediaTypeFilter) : value :=
  JObject (slice_field "mediaTypes" JString (MediaTypes f)).

Definition marshal_FeatureFilter (f : FeatureFilter) : value :=
  JObject (slice_field "includedFeatures" JString (IncludedFeatures f)).

Definition marshal_Filters (f : Filters) : value :=
  JObject (ptr_field "dateFilter" marshal_DateFilter (F_DateFilter f)
           ++ ptr_field "contentFilter" marshal_ContentFilter (F_ContentFilter f)
           ++ ptr_field "mediaTypeFilter" marshal_MediaTypeFilter (F_MediaTypeFilter f)
           ++ ptr_field "featureFilter" marshal_FeatureFilter (F_FeatureFilter f)
           ++ bool_field "includeArchivedMedia" (IncludeArchivedMedia f)
           ++ bool_field "excludeNonAppCreatedData" (ExcludeNonAppCreatedData f))%list.

(** The fields of the embedded [PagerRequest] are fields of the request. *)
Definition marshal_MediaItemsSearchRequest (r : MediaItemsSearchRequest) : value :=
  JObject (string_field "pageSize" (PageSize (R_PagerRequest r))
           ++ string_field "pageToken" (PageToken (R_PagerRequest r))
           ++ string_field "albumId" (AlbumID r)
           ++ ptr_field "filters" marshal_Filters (R_Filters r))%list.

(** [json.Marshal(req)] for [req] of type [*MediaItemsSearchRequest]; no
    value of this type makes it fail. *)
Definition Marshal (req : option MediaItemsSearchRequest) : string * option error :=
  (encode (marshal_ptr marshal_MediaItemsSearchRequest req), None).

(** *** The response *)

Section WithFloat.
(** The type [float64], its zero and [strconv.ParseFloat(s, 64)] on a JSON
    number literal ([None] when the value is out of range). *)
Variable float64 : Type.
Variable float64_zero : float64.
Variable ParseFloat : string -> option float64.

Record PagerResponse : Type := mkPagerResponse {
  NextPageToken : string
}.

Record Photo : Type := mkPhoto {
  P_CameraMake : string;
  P_CameraModel : string;
  FocalLength : float64;
  ApertureFNumber : float64;
  IsoEquivalent : float64;
  ExposureTime : string
}.

Record Video : Type := mkVideo {
  V_CameraMake : string;
  V_CameraModel : string;
  Fps : float64;
  VideoStatus : VideoProcessingStatus
}.

Record MediaMetadata : Type := mkMediaMetadata {
  CreationTime : string;
  Width : string;
  Height : string;
  M_Photo : option Photo;
  M_Video : option Video
}.

Record ContributorInfo : Type := mkContributorInfo {
  ProfilePictureBaseURL : string;
  DisplayName : string
}.

Record MediaItem : Type := mkMediaItem {
  ID : string;
  Description : string;
  ProductURL : string;
  BaseURL : string;
  MimeType : string;
  I_MediaMetadata : option MediaMetadata;
  I_ContributorInfo : option ContributorInfo;
  Filename : string
}.

Record MediaItemsSearchResponse : Type := mkMediaItemsSearchResponse {
  S_PagerResponse : PagerResponse;
  MediaItems : list (option MediaItem)
}.

Definition zero_Photo : Photo :=
  mkPhoto EmptyString EmptyString float64_zero float64_zero float64_zero EmptyString.
Definition zero_Video : Video :=
  mkVideo EmptyString EmptyString float64_zero EmptyString.
Definition zero_MediaMetadata : MediaMetadata :=
  mkMediaMetadata EmptyString EmptyString EmptyString None None.
Definition zero_ContributorInfo : ContributorInfo :=
  mkContributorInfo EmptyString EmptyString.
Definition zero_MediaItem : MediaItem :=
  mkMediaItem EmptyString EmptyString EmptyString EmptyString EmptyString
    None None EmptyString.

(** The value of [var response MediaItemsSearchResponse]. *)
Definition zero_MediaItemsSearchResponse : MediaItemsSearchResponse :=
  mkMediaItemsSearchResponse (mkPagerResponse EmptyString) [].

Definition decode_float64 : decoder float64 := decode_number ParseFloat "float64".

(** [store d get put v x]: the field read by [get] is decoded from [v] and
    put back with [put]. *)
Definition store {T A : Type} (d : decoder A) (get : T -> A) (put : T -> A -> T)
  : decoder T :=
  fun v x => let '(a, e) := d v (get x) in (put x a, e).

Definition set_Photo (f : string) : decoder Photo :=
  if String.eqb f "cameraMake" then
    store decode_string P_CameraMake
      (fun x a => mkPhoto a (P_CameraModel x) (FocalLength x) (ApertureFNumber x)
                    (IsoEquivalent x) (ExposureTime x))
  else if String.eqb f "cameraModel" then
    store decode_string P_CameraModel
      (fun x a => mkPhoto (P_CameraMake x) a (FocalLength x) (ApertureFNumber x)
                    (IsoEquivalent x) (ExposureTime x))
  else if String.eqb f "focalLength" then
    store decode_float64 FocalLength
      (fun x a => mkPhoto (P_CameraMake x) (P_CameraModel x) a (ApertureFNumber x)
                    (IsoEquivalent x) (ExposureTime x))
  else if String.eqb f "apertureFNumber" then
    store decode_float64 ApertureFNumber
      (fun x a => mkPhoto (P_CameraMake x) (P_CameraModel x) (FocalLength x) a
                    (IsoEquivalent x) (ExposureTime x))
  else if String.eqb f "isoEquivalent" then
    store decode_float64 IsoEquivalent
      (fun x a => mkPhoto (P_CameraMake x) (P_CameraModel x) (FocalLength x)
                    (ApertureFNumber x) a (ExposureTime x))
  else if String.eqb f "exposureTime" then
    store decode_string ExposureTime
      (fun x a => mkPhoto (P_CameraMake x) (P_CameraModel x) (FocalLength x)
                    (ApertureFNumber x) (IsoEquivalent x) a)
  else fun _ x => (x, None).

Definition decode_Photo : decoder Photo :=
  decode_struct "gphoto.Photo"
    ["cameraMake"; "cameraModel"; "focalLength"; "apertureFNumber";
     "isoEquivalent"; "exposureTime"] set_Photo.

Definition set_Video (f : string) : decoder Video :=
  if String.eqb f "cameraMake" then
    store decode_string V_CameraMake
      (fun x a => mkVideo a (V_CameraModel x) (Fps x) (VideoStatus x))
  else if String.eqb f "cameraModel" then
    store decode_string V_CameraModel
      (fun x a => mkVideo (V_CameraMake x) a (Fps x) (VideoStatus x))
  else if String.eqb f "fps" then
    store decode_float64 Fps
      (fun x a => mkVideo (V_CameraMake x) (V_CameraModel x) a (VideoStatus x))
  else if String.eqb f "status" then
    store decode_string VideoStatus
      (fun x a => mkVideo (V_CameraMake x) (V_CameraModel x) (Fps x) a)
  else fun _ x => (x, None).

Definition decode_Video : decoder Video :=
  decode_struct "gphoto.Video" ["cameraMake"; "cameraModel"; "fps"; "status"] set_Video.

Definition set_MediaMetadata (f : string) : decoder MediaMetadata :=
  if String.eqb f "creationTime" then
    store decode_string CreationTime
      (fun x a => mkMediaMetadata a (Width x) (Height x) (M_Photo x) (M_Video x))
  else if String.eqb f "width" then
    store decode_string Width
      (fun x a => mkMediaMetadata (CreationTime x) a (Height x) (M_Photo x) (M_Video x))
  else if String.eqb f "height" then
    store decode_string Height
      (fun x a => mkMediaMetadata (CreationTime x) (Width x) a (M_Photo x) (M_Video x))
  else if String.eqb f "photo" then
    store (decode_ptr zero_Photo decode_Photo) M_Photo
      (fun x a => mkMediaMetadata (CreationTime x) (Width x) (Height x) a (M_Video x))
  else if String.eqb f "video" then
    store (decode_ptr zero_Video decode_Video) M_Video
      (fun x a => mkMediaMetadata (CreationTime x) (Width x) (Height x) (M_Photo x) a)
  else fun _ x => (x, None).

Definition decode_MediaMetadata : decoder MediaMetadata :=
  decode_struct "gphoto.MediaMetadata"
    ["creationTime"; "width"; "height"; "photo"; "video"] set_MediaMetadata.

Definition set_ContributorInfo (f : string) : decoder ContributorInfo :=
  if String.eqb f "profilePictureBaseUrl" then
    store decode_string ProfilePictureBaseURL
      (fun x a => mkContributorInfo a (DisplayName x))
  else if String.eqb f "displayName" then
    store decode_string DisplayName
      (fun x a => mkContributorInfo (ProfilePictureBaseURL x) a)
  else fun _ x => (x, None).

Definition decode_ContributorInfo : decoder ContributorInfo :=
  decode_struct "gphoto.ContributorInfo"
    ["profilePictureBaseUrl"; "displayName"] set_ContributorInfo.

Definition set_MediaItem (f : string) : decoder MediaItem :=
  if String.eqb f "id" then
    store decode_string ID
      (fun x a => mkMediaItem a (Description x) (ProductURL x) (BaseURL x) (MimeType x)
                    (I_MediaMetadata x) (I_ContributorInfo x) (Filename x))
  else if String.eqb f "description" then
    store decode_string Description
      (fun x a => mkMediaItem (ID x) a (ProductURL x) (BaseURL x) (MimeType x)
                    (I_MediaMetadata x) (I_ContributorInfo x) (Filename x))
  else if String.eqb f "productUrl" then
    store decode_string ProductURL
      (fun x a => mkMediaItem (ID x) (Description x) a (BaseURL x) (MimeType x)
                    (I_MediaMetadata x) (I_ContributorInfo x) (Filename x))
  else if String.eqb f "baseUrl" then
    store decode_string BaseURL
      (fun x a => mkMediaItem (ID x) (Description x) (ProductURL x) a (MimeType x)
                    (I_MediaMetadata x) (I_ContributorInfo x) (Filename x))
  else if String.eqb f "mimeType" then
    store decode_string MimeType
      (fun x a => mkMediaItem (ID x) (Description x) (ProductURL x) (BaseURL x) a
                    (I_MediaMetadata x) (I_ContributorInfo x) (Filename x))
  else if String.eqb f "mediaMetadata" then
    store (decode_ptr zero_MediaMetadata decode_MediaMetadata) I_MediaMetadata
      (fun x a => mkMediaItem (ID x) (Description x) (ProductURL x) (BaseURL x)
                    (MimeType x) a (I_ContributorInfo x) (Filename x))
  else if String.eqb f "contributorInfo" then
    store (decode_ptr zero_ContributorInfo decode_ContributorInfo) I_ContributorInfo
      (fun x a => mkMediaItem (ID x) (Description x) (ProductURL x) (BaseURL x)
                    (MimeType x) (I_MediaMetadata x) a (Filename x))
  else if String.eqb f "filename" then
    store decode_string Filename
      (fun x a => mkMediaItem (ID x) (Description x) (ProductURL x) (BaseURL x)
                    (MimeType x) (I_MediaMetadata x) (I_ContributorInfo x) a)
  else fun _ x => (x, None).

(** The JSON names of the fields, from the struct tags. *)
Definition MediaItem_fields : list string :=
  ["id"; "description"; "productUrl"; "baseUrl"; "mimeType"; "mediaMetadata";
   "contributorInfo"; "filename"].

Definition decode_MediaItem : decoder MediaItem :=
  decode_struct "gphoto.MediaItem" MediaItem_fields set_MediaItem.

(** The field of the embedded [PagerResponse] is a field of the response. *)
Definition set_MediaItemsSearchResponse (f : string) : decoder MediaItemsSearchResponse :=
  if String.eqb f "nextPageToken" then
    store decode_string (fun x => NextPageToken (S_PagerResponse x))
      (fun x a => mkMediaItemsSearchResponse (mkPagerResponse a) (MediaItems x))
  else if String.eqb f "mediaItems" then
    store (decode_slice None (decode_ptr zero_MediaItem decode_MediaItem)
             "[]*gphoto.MediaItem") MediaItems
      (fun x a => mkMediaItemsSearchResponse (S_PagerResponse x) a)
  else fun _ x => (x, None).

Definition MediaItemsSearchResponse_fields : list string :=
  ["nextPageToken"; "mediaItems"].

Definition decode_MediaItemsSearchResponse : decoder MediaItemsSearchResponse :=
  decode_struct "gphoto.MediaItemsSearchResponse"
    MediaItemsSearchResponse_fields set_MediaItemsSearchResponse.

(** *** The client *)

Variable Ctx : Type.

(** [c] is the [*http.Client] given to [NewClient]; it may be nil. *)
Record Client : Type := mkClient {
  c : option (HTTP.Client Ctx);
  token : string
}.

Definition NewClient (c : option (HTTP.Client Ctx)) (token : string) : Client :=
  mkClient c token.

(** What a call of [request] leaves behind: the content of the variable
    [response] points to, the error returned, and the requests handed to the
    HTTP client. *)
Record exchange (Resp : Type) : Type := mkExchange {
  filled : Resp;
  err : option error;
  sent : list (Request Ctx)
}.
Arguments mkExchange {Resp}.
Arguments filled {Resp}.
Arguments err {Resp}.
Arguments sent {Resp}.

(** [request] is generic in the request and in the response: [marshal] is
    [json.Marshal] at the type of [req], [unmarshal] is [json.Unmarshal] at
    the type [response] points to. *)
Definition request {Req Resp : Type}
    (marshal : Req -> string * option error) (unmarshal : decoder Resp)
    (c0 : Client) (ctx : Ctx) (endpoint : string) (req : Req) (response : Resp)
  : outcome (exchange Resp) :=
  let '(buf, err) := marshal req in
  match err with
  | Some err => Returned (mkExchange response (Some (failure_Wrap err)) [])
  | None =>
      let '(rawRequest, err) := NewRequest MethodPost (baseURL ++ endpoint) buf in
      match err with
      | Some err => Returned (mkExchange response (Some (failure_Wrap err)) [])
      | None =>
          let rawRequest := WithContext rawRequest ctx in
          let header : Header := [] in
          let header :=
            Header_Set header gclient.AuthorizationHeader
              (Sprintf gclient.AuthorizationParam (token c0)) in
          let header :=
            Header_Set header gclient.ContentTypeHeader gclient.ContentTypeJSON in
          let rawRequest := with_header rawRequest header in
          match c c0 with
          | None => Panicked "invalid memory address or nil pointer dereference"
          | Some client =>
              let '(rawResponse, err) := Do client rawRequest in
              match err with
              | Some err =>
                  Returned (mkExchange response (Some (failure_Wrap err)) [rawRequest])
              | None =>
                  let '(responseBuf, err) := ReadAll (Body rawResponse) in
                  match err with
                  | Some err =>
                      Returned (mkExchange response (Some (failure_Wrap err)) [rawRequest])
                  | None =>
                      let '(response, err) := Unmarshal unmarshal responseBuf response in
                      match err with
                      | Some err =>
                          Returned (mkExchange response (Some (failure_Wrap err))
                                      [rawRequest])
                      | None => Returned (mkExchange response None [rawRequest])
                      end
                  end
              end
          end
      end
  end.

(** [MediaItemsSearch] returns [&response]: a pointer, here [Some], to the
    variable [request] has filled. *)
Definition MediaItemsSearch (c0 : Client) (ctx : Ctx)
    (req : option MediaItemsSearchRequest)
  : outcome (exchange (option MediaItemsSearchResponse)) :=
  let response := zero_MediaItemsSearchResponse in
  match request Marshal decode_MediaItemsSearchResponse c0 ctx
          mediaItemsSearchEndpoint req response with
  | Returned x => Returned (mkExchange (Some (filled x)) (err x) (sent x))
  | Panicked msg => Panicked msg
  end.

End WithFloat.

Arguments mkPhoto {float64}.
Arguments mkVideo {float64}.
Arguments mkMediaMetadata {float64}.
Arguments mkMediaItem {float64}.
Arguments mkMediaItemsSearchResponse {float64}.
Arguments S_PagerResponse {float64}.
Arguments MediaItems {float64}.
Arguments ID {float64}.
Arguments ProductURL {float64}.
Arguments I_MediaMetadata {float64}.
Arguments mkClient {Ctx}.
Arguments c {Ctx}.
Arguments token {Ctx}.
Arguments NewClient {Ctx}.
Arguments mkExchange {Ctx Resp}.
Arguments filled {Ctx Resp}.
Arguments err {Ctx Resp}.
Arguments sent {Ctx Resp}.
Arguments request {Ctx Req Resp}.
Arguments MediaItemsSearch {float64} float64_zero ParseFloat {Ctx}.
Arguments zero_MediaItemsSearchResponse {float64}.
Arguments decode_MediaItemsSearchResponse {float64}.
Arguments decode_MediaItem {float64}.
Arguments zero_MediaItem {float64}.
Arguments set_MediaItem {float64}.
Arguments set_MediaItemsSearchResponse {float64}.
Arguments Description {float64}.
Arguments BaseURL {float64}.
Arguments MimeType {float64}.
Arguments I_ContributorInfo {float64}.
Arguments Filename {float64}.

End gphoto.

(** ** Terms in which the properties are stated *)

Module Terms.
Import GoString JSON Decode.

(** Each scope followed by an ampersand: what the loop of [WithScopes]
    writes. *)
Fixpoint each_with_amp (scopes : list string) : string :=
  match scopes with
  | [] => EmptyString
  | s :: rest => s ++ "&" ++ each_with_amp rest
  end.

(** [names fields f key]: among [fields], the key of a member selects the
    field [f] (it is [f], or it is [f] up to the case of letters and no
    field has exactly this key). *)
Definition names (fields : list string) (f key : string) : bool :=
  match find_field fields key with
  | Some g => String.eqb g f
  | None => false
  end.

(** [has_field fields f v]: [v] is an object with a member for the field
    [f].  A response is missing the field when this is [false]. *)
Definition has_field (fields : list string) (f : string) (v : value) : bool :=
  match v with
  | JObject members => existsb (fun m => names fields f (fst m)) members
  | _ => false
  end.

(** The token state of the design: access token, its expiry, refresh
    token. *)
Definition tokens {Ctx : Type} (c : goauth2.Client Ctx) : string * Z * string :=
  (goauth2.accessToken c, goauth2.accessTokenExpire c, goauth2.refreshToken c).

(** A response that differs from [r] in the status line only. *)
Definition with_status (r : HTTP.Response) (code : Z) (status : string)
  : HTTP.Response :=
  HTTP.mkResponse code status (HTTP.ResponseHeader r) (HTTP.Body r).

Section OnResponse.
Import HTTP goauth2.
Context {Ctx : Type}.

(** What [Authorization] does with the response [resp] of the provider. *)
Definition Authorization_on (c0 : Client Ctx) (resp : Response) : result Ctx :=
  match read_error (Body resp),
        Unmarshal decode_AuthorizationResponse (content (Body resp))
          zero_AuthorizationResponse with
  | Some e, _ => mkResult c0 (Some (failure_Wrap e)) []
  | None, (_, Some e) => mkResult c0 (Some (failure_Wrap e)) [resp]
  | None, (response, None) =>
      mkResult
        (set_refreshToken Ctx
           (set_accessTokenExpire Ctx
              (set_accessToken Ctx c0 (AccessToken response))
              (ExpiresIn response))
           (RefreshToken response))
        None []
  end.

(** What [Refresh] does with the response [resp] of the provider; [c1] is
    the client with the refresh token of the call stored. *)
Definition Refresh_on (c1 : Client Ctx) (resp : Response) : result Ctx :=
  match read_error (Body resp),
        Unmarshal decode_AuthorizationResponse (content (Body resp))
          zero_AuthorizationResponse with
  | Some e, _ => mkResult c1 (Some (failure_Wrap e)) []
  | None, (_, Some e) => mkResult c1 (Some (failure_Wrap e)) [resp]
  | None, (response, None) =>
      let c2 :=
        if negb (String.eqb (AccessToken response) EmptyString)
        then set_accessTokenExpire Ctx
               (set_accessToken Ctx c1 (AccessToken response))
               (ExpiresIn response)
        else c1 in
      let c2 :=
        if negb (String.eqb (RefreshToken response) EmptyString)
        then set_refreshToken Ctx c2 (RefreshToken response)
        else c2 in
      mkResult c2 None []
  end.

End OnResponse.

Section Search.
Import HTTP gphoto.
Context {float64 Ctx : Type}.
Variable float64_zero : float64.
Variable ParseFloat : string -> option float64.

(** The request of a search as the design describes it: a POST of the JSON
    text of the request to the fixed path under the base URL, with a bearer
    authorization and the JSON content type. *)
Definition wire_request (ctx : Ctx) (token : string)
    (req : option MediaItemsSearchRequest) : Request Ctx :=
  mkRequest "POST"
    "https://photoslibrary.googleapis.com/v1/mediaItems:search"
    [("Authorization", ["Bearer " ++ token]); ("Content-Type", ["application/json"])]
    (encode (marshal_ptr marshal_MediaItemsSearchRequest req))
    (Some ctx).

(** What a search returns for each answer of the HTTP client. *)
Definition search_outcome (answer : Response + error) (wire : Request Ctx)
  : exchange Ctx (option (MediaItemsSearchResponse float64)) :=
  match answer with
  | inr e => mkExchange (Some zero_MediaItemsSearchResponse) (Some (failure_Wrap e)) [wire]
  | inl resp =>
      match read_error (Body resp) with
      | Some e =>
          mkExchange (Some zero_MediaItemsSearchResponse) (Some (failure_Wrap e)) [wire]
      | None =>
          let '(r, e) :=
            Unmarshal (decode_MediaItemsSearchResponse float64_zero ParseFloat)
              (content (Body resp)) zero_MediaItemsSearchResponse in
          mkExchange (Some r)
            (match e with Some e => Some (failure_Wrap e) | None => None end) [wire]
      end
  end.

End Search.






(** [plain s]: [s] has none of the bytes that mean something in a query
    string: the ampersand, the number sign, the percent sign, the plus. *)
Definition plain (s : string) : bool :=
  negb (URL.contains_byte 38 s || URL.contains_byte 35 s
        || URL.contains_byte 37 s || URL.contains_byte 43 s).

(** The parameters the authorization URL is meant to carry. *)
Definition expected_parameters {Ctx : Type} (c : goauth2.Client Ctx)
  : list (string * string) :=
  [("client_id", goauth2.clientID c);
   ("redirect_uri", "urn:ietf:wg:oauth:2.0:oob");
   ("scope", goauth2.scope c);
   ("access_type", "offline");
   ("response_type", "code")].

(** [sub] appears verbatim in [s]. *)
Definition appears_in (sub s : string) : Prop :=
  exists pre post, s = pre ++ sub ++ post.

End Terms.

(** ** The program: the search at the end of [main] *)

Module neko.
Import GoString HTTP.

(** The request of [main]: a page of 100 items of the pets category. *)
Definition pets_request : gphoto.MediaItemsSearchRequest :=
  gphoto.mkMediaItemsSearchRequest
    (gphoto.mkPagerRequest "100" EmptyString)
    EmptyString
    (Some (gphoto.mkFilters None
             (Some (gphoto.mkContentFilter [gphoto.ContentCategoryPets] []))
             None None false false)).

(** What the program leaves behind: the strings given to [log.Print], in
    order, and how the run ended. *)
Record run : Type := mkRun {
  printed : list string;
  ended : outcome unit
}.

Section WithFloat.
Context {float64 Ctx : Type}.
Variable float64_zero : float64.
Variable ParseFloat : string -> option float64.

(** The loop over [resp.MediaItems]: [item.ProductURL] on a nil item is a
    nil pointer dereference. *)
Fixpoint print_items (items : list (option (gphoto.MediaItem float64))) : run :=
  match items with
  | [] => mkRun [] (Returned tt)
  | None :: _ => mkRun [] (Panicked "invalid memory address or nil pointer dereference")
  | Some item :: rest =>
      let r := print_items rest in
      mkRun (gphoto.ProductURL item :: printed r) (ended r)
  end.

(** The last statements of [main]: [httpClient] is the HTTP client made
    there, [background] is [context.Background()], [oauth2] the client after
    [Refresh].  The error of the search is assigned and not looked at. *)
Definition main_search (httpClient : HTTP.Client Ctx) (background : Ctx)
    (oauth2 : goauth2.Client Ctx) : run :=
  let gphotoClient :=
    gphoto.NewClient (Some httpClient) (goauth2.GetAccessToken oauth2) in
  match gphoto.MediaItemsSearch float64_zero ParseFloat gphotoClient background
          (Some pets_request) with
  | Panicked msg => mkRun [] (Panicked msg)
  | Returned x =>
      match gphoto.filled x with
      | None => mkRun [] (Panicked "invalid memory address or nil pointer dereference")
      | Some resp => print_items (gphoto.MediaItems resp)
      end
  end.

End WithFloat.

End neko.

(** ** Terms for the form bodies and the decoded responses *)

Module FormTerms.

(** The name and value pairs of form values, sorted by name as
    [Values.Encode] writes them. *)
Definition pairs (v : URL.Values) : list (string * string) :=
  flat_map (fun kv => map (fun x => (fst kv, x)) (snd kv)) (URL.sort_keys v).

(** The value of the first parameter with the given name. *)
Definition parameter (name : string) (params : list (string * string))
  : option string :=
  match find (fun kv => String.eqb (fst kv) name) params with
  | Some kv => Some (snd kv)
  | None => None
  end.

(** The items before the first nil item. *)
Fixpoint before_nil {T : Type} (items : list (option T)) : list T :=
  match items with
  | Some x :: rest => x :: before_nil rest
  | _ => []
  end.

(** Some item is nil. *)
Definition has_nil {T : Type} (items : list (option T)) : bool :=
  existsb (fun i => match i with None => true | Some _ => false end) items.

(** [fits f v]: the JSON value [v] can be stored into the field [f] of the
    token response: null into any field, a string into a string field, a
    number that is a 64-bit integer into the expiry. *)
Definition fits (f : string) (v : JSON.value) : bool :=
  match v with
  | JSON.JNull => true
  | JSON.JString _ => negb (String.eqb f "expires_in")
  | JSON.JNumber lit =>
      String.eqb f "expires_in"
      && match GoString.ParseInt64 lit with Some _ => true | None => false end
  | _ => false
  end.

(** A value that cannot be stored into a string. *)
Definition not_a_string (v : JSON.value) : bool :=
  match v with
  | JSON.JNull | JSON.JString _ => false
  | _ => true
  end.

Section OnAnswer.
Import HTTP goauth2 Terms.
Context {Ctx : Type}.

(** What [Authorization] returns for each answer of the HTTP client. *)
Definition Authorization_answer (c0 : Client Ctx) (answer : Response + error)
  : result Ctx :=
  match answer with
  | inl resp => Authorization_on c0 resp
  | inr e => mkResult c0 (Some (failure_Wrap e)) []
  end.

(** What [Refresh] returns for each answer of the HTTP client. *)
Definition Refresh_answer (c1 : Client Ctx) (answer : Response + error)
  : result Ctx :=
  match answer with
  | inl resp => Refresh_on c1 resp
  | inr e => mkResult c1 (Some (failure_Wrap e)) []
  end.

(** The identity of the client: what no call changes. *)
Definition same_identity (c1 c2 : Client Ctx) : Prop :=
  c c1 = c c2 /\ clientID c1 = clientID c2
  /\ clientSecret c1 = clientSecret c2 /\ scope c1 = scope c2.

End OnAnswer.

End FormTerms.

(** ** Terms for the JSON text of a request *)

Module Wellformed.
Import GoString JSON.






(** Token lists joined by commas. *)
Fixpoint with_commas (l : list (list token)) : list token :=
  match l with
  | [] => []
  | [x] => x
  | x :: rest => (x ++ TComma :: with_commas rest)%list
  end.

(** The tokens of the compact text of a value. *)
Fixpoint toks (v : value) : list token :=
  match v with
  | JNull => [TNull]
  | JBool true => [TTrue]
  | JBool false => [TFalse]
  | JNumber lit => [TNumber lit]
  | JString s => [TString s]
  | JArray elems => (TLBracket :: with_commas (map toks elems) ++ [TRBracket])%list
  | JObject members =>
      (TLBrace
       :: with_commas (map (fun m => TString (fst m) :: TColon :: toks (snd m)) members)
       ++ [TRBrace])%list
  end.

(** The texts of the items of a list after the first, each after its
    comma. *)
Fixpoint more {A : Type} (text : A -> string) (l : list A) : string :=
  match l with
  | [] => EmptyString
  | a :: l' => "," ++ text a ++ more text l'
  end.

(** The items of an array or of an object, between the brackets. *)
Definition items {A : Type} (text : A -> string) (l : list A) : string :=
  match l with
  | [] => EmptyString
  | a :: l' => text a ++ more text l'
  end.









End Wellformed.

(** * Properties *)

(** ** Byte strings *)

Module StringFacts.
Import GoString.

Lemma append_nil_r (s : string) : s ++ EmptyString = s.
Proof. induction s as [|a s IH]; simpl; [reflexivity | now rewrite IH]. Qed.

Lemma append_assoc (s t u : string) : (s ++ t) ++ u = s ++ (t ++ u).
Proof. induction s as [|a s IH]; simpl; [reflexivity | now rewrite IH]. Qed.

Lemma length_append (s t : string) :
  String.length (s ++ t) = (String.length s + String.length t)%nat.
Proof. induction s as [|a s IH]; simpl; [reflexivity | now rewrite IH]. Qed.

Lemma substring_prefix (s t : string) :
  substring 0 (String.length s) (s ++ t) = s.
Proof.
  induction s as [|a s IH]; simpl.
  - destruct t; reflexivity.
  - now rewrite IH.
Qed.

(** Dropping the last byte of [s ++ "&"] gives [s] back, in bounds. *)
Lemma slice_to_drop_last (s : string) (a : ascii) :
  let t := s ++ String a EmptyString in
  slice_to t (len t - 1) = Some s.
Proof.
  cbv zeta. unfold slice_to, len. rewrite length_append. simpl String.length.
  replace (Z.of_nat (String.length s + 1) - 1) with (Z.of_nat (String.length s)) by lia.
  replace (0 <=? Z.of_nat (String.length s)) with true
    by (symmetry; apply Z.leb_le; lia).
  replace (Z.of_nat (String.length s) <=? Z.of_nat (String.length s + 1)) with true
    by (symmetry; apply Z.leb_le; lia).
  simpl. rewrite Nat2Z.id. now rewrite substring_prefix.
Qed.

End StringFacts.

(** ** goauth2: the scopes *)

Module ScopeFacts.
Import GoString StringFacts goauth2 Terms.

Lemma write_scopes_spec (scopes : list string) (b : Builder) :
  write_scopes b scopes = b ++ each_with_amp scopes.
Proof.
  revert b. induction scopes as [|s rest IH]; intro b.
  - simpl. now rewrite append_nil_r.
  - unfold write_scopes in *. simpl fold_left. rewrite IH.
    unfold WriteString. simpl each_with_amp.
    now rewrite !append_assoc.
Qed.

Lemma each_with_amp_concat (s : string) (rest : list string) :
  each_with_amp (s :: rest) = String.concat "&" (s :: rest) ++ "&".
Proof.
  revert s. induction rest as [|t rest IH]; intro s.
  - reflexivity.
  - change (each_with_amp (s :: t :: rest)) with (s ++ "&" ++ each_with_amp (t :: rest)).
    rewrite IH.
    change (String.concat "&" (s :: t :: rest))
      with (s ++ "&" ++ String.concat "&" (t :: rest)).
    now rewrite !append_assoc.
Qed.

Lemma WithScopes_cons {Ctx : Type} (c : Client Ctx) (s : string) (rest : list string) :
  WithScopes c (s :: rest) = Returned (set_scope Ctx c (String.concat "&" (s :: rest))).
Proof.
  unfold WithScopes, Builder_String, Builder_new.
  rewrite write_scopes_spec. change (EmptyString ++ each_with_amp (s :: rest))
    with (each_with_amp (s :: rest)).
  rewrite each_with_amp_concat.
  now rewrite (slice_to_drop_last (String.concat "&" (s :: rest)) "&"%char).
Qed.

End ScopeFacts.

(** C8. For every non-empty list of scopes, [WithScopes] stores as the
    requested scope the scopes joined by ampersands: [s1&s2&...&sn], with an
    ampersand between two scopes and none after the last; the other fields
    of the client are left as they were. *)
Theorem WithScopes_joins_with_ampersand :
  forall (Ctx : Type) (c : goauth2.Client Ctx) (scopes : list string),
    scopes <> [] ->
    goauth2.WithScopes c scopes
    = Returned (goauth2.set_scope Ctx c (String.concat "&" scopes)).
Proof.
  intros Ctx c [|s rest] Hne; [congruence|].
  apply ScopeFacts.WithScopes_cons.
Qed.

Lemma WithScopes_joins_with_ampersand_witness :
  ["a"; "b"; "c"] <> []
  /\ goauth2.WithScopes (goauth2.NewClient (Ctx := unit) "id" "secret") ["a"; "b"; "c"]
     = Returned (goauth2.set_scope unit (goauth2.NewClient "id" "secret") "a&b&c").
Proof.
  split; [discriminate|].
  apply (WithScopes_joins_with_ampersand unit (goauth2.NewClient "id" "secret")
           ["a"; "b"; "c"]).
  discriminate.
Defined.

(** C9. [WithScopes] with no scope at all panics: the builder is empty and
    the upper bound [len(s)-1] of the slice expression is -1.  With at least
    one scope the builder holds at least the ampersand, the bound is within
    [0 .. len(s)], and the call returns. *)
Theorem WithScopes_panics_iff_no_scope :
  forall (Ctx : Type) (c : goauth2.Client Ctx),
    (let s := goauth2.write_scopes GoString.Builder_new [] in
     GoString.len s - 1 = -1
     /\ GoString.slice_to s (GoString.len s - 1) = None
     /\ goauth2.WithScopes c [] = Panicked "slice bounds out of range")
    /\ (forall (scope : string) (rest : list string),
          let s := goauth2.write_scopes GoString.Builder_new (scope :: rest) in
          0 <= GoString.len s - 1 <= GoString.len s
          /\ exists c', goauth2.WithScopes c (scope :: rest) = Returned c').
Proof.
  intros Ctx c. split.
  - cbv zeta. repeat split; reflexivity.
  - intros scope rest. cbv zeta. split.
    + rewrite ScopeFacts.write_scopes_spec, ScopeFacts.each_with_amp_concat.
      unfold GoString.len, GoString.Builder_new. simpl append.
      rewrite StringFacts.length_append. simpl String.length. lia.
    + eexists. apply ScopeFacts.WithScopes_cons.
Qed.

(** ** Decoding into a struct *)

Module DecodeFacts.
Import GoString JSON Decode Terms.

(** A property of the struct kept by every member's store is kept by the
    whole object. *)
Lemma fold_members_invariant {T : Type} (P : T -> Prop) (fields : list string)
    (set : string -> decoder T) (members : list (string * value)) :
  forall acc : T * option error,
    (forall m f t, In m members -> find_field fields (fst m) = Some f ->
                   P t -> P (fst (set f (snd m) t))) ->
    P (fst acc) ->
    P (fst (fold_left (decode_member fields set) members acc)).
Proof.
  induction members as [|m members IH]; intros acc Hstep Hacc; simpl.
  - exact Hacc.
  - apply IH.
    + intros m' f t Hin. apply Hstep. now right.
    + unfold decode_member.
      destruct (find_field fields (fst m)) as [f|] eqn:Ef; [|exact Hacc].
      specialize (Hstep m f (fst acc) (or_introl eq_refl) Ef Hacc).
      destruct (set f (snd m) (fst acc)) as [t e]. exact Hstep.
Qed.

(** A property kept by the stores into every field but [f] is kept by a
    value that has no member for [f]. *)
Lemma decode_struct_missing {T : Type} (P : T -> Prop) (ty : string)
    (fields : list string) (set : string -> decoder T) (f : string)
    (v : value) (old : T) :
  has_field fields f v = false ->
  (forall g x t, g <> f -> P t -> P (fst (set g x t))) ->
  P old ->
  P (fst (decode_struct ty fields set v old)).
Proof.
  intros Hmiss Hset Hold.
  destruct v as [| b | lit | s | elems | members]; simpl; try exact Hold.
  apply fold_members_invariant; [|exact Hold].
  intros m g t Hin Hg Ht. apply Hset; [|exact Ht].
  intro Heq. subst g.
  simpl in Hmiss.
  assert (Hex : existsb (fun m => names fields f (fst m)) members = true).
  { apply existsb_exists. exists m. split; [exact Hin|].
    unfold names. rewrite Hg. apply String.eqb_refl. }
  congruence.
Qed.

End DecodeFacts.

(** ** goauth2: one call, step by step *)

Module AuthFacts.
Import GoString JSON Decode HTTP goauth2 Terms DecodeFacts.

Section WithContext.
Context {Ctx : Type}.

Lemma Authorization_request_ok (ctx : Ctx) (c0 : Client Ctx) (code : string) :
  snd (Authorization_request ctx c0 code) = None.
Proof. reflexivity. Qed.

Lemma Refresh_request_ok (ctx : Ctx) (c0 : Client Ctx) :
  snd (Refresh_request ctx c0) = None.
Proof. reflexivity. Qed.

(** The requests do not depend on the HTTP client or on the tokens but the
    refresh token. *)
Lemma Authorization_request_WithHTTPClient (ctx : Ctx) (c0 : Client Ctx)
    (tr : HTTP.Client Ctx) (code : string) :
  Authorization_request ctx (WithHTTPClient c0 tr) code
  = Authorization_request ctx c0 code.
Proof. reflexivity. Qed.


Lemma Authorization_run (ctx : Ctx) (c0 : Client Ctx) (code : string)
    (tr : HTTP.Client Ctx) (resp : Response) :
  c c0 = Some tr ->
  tr (fst (Authorization_request ctx c0 code)) = inl resp ->
  Authorization ctx c0 code = Returned (Authorization_on c0 resp).
Proof.
  intros Hc Htr. unfold Authorization, Authorization_on.
  pose proof (Authorization_request_ok ctx c0 code) as Hnone.
  revert Htr Hnone.
  destruct (Authorization_request ctx c0 code) as [req e0]. simpl.
  intros Htr ->. rewrite Hc. unfold Do. rewrite Htr.
  unfold ReadAll.
  destruct (read_error (Body resp)) as [e|];
    destruct (Unmarshal decode_AuthorizationResponse (content (Body resp))
                zero_AuthorizationResponse) as [response [e'|]]; reflexivity.
Qed.

Lemma Refresh_run (ctx : Ctx) (c0 : Client Ctx) (rt : string)
    (tr : HTTP.Client Ctx) (resp : Response) :
  c c0 = Some tr ->
  tr (fst (Refresh_request ctx (set_refreshToken Ctx c0 rt))) = inl resp ->
  Refresh ctx c0 rt = Returned (Refresh_on (set_refreshToken Ctx c0 rt) resp).
Proof.
  intros Hc Htr. unfold Refresh, Refresh_on. cbv zeta.
  pose proof (Refresh_request_ok ctx (set_refreshToken Ctx c0 rt)) as Hnone.
  revert Htr Hnone.
  destruct (Refresh_request ctx (set_refreshToken Ctx c0 rt)) as [req e0]. simpl.
  intros Htr ->. rewrite Hc. unfold Do. rewrite Htr.
  unfold ReadAll.
  destruct (read_error (Body resp)) as [e|];
    destruct (Unmarshal decode_AuthorizationResponse (content (Body resp))
                zero_AuthorizationResponse) as [response [e'|]]; reflexivity.
Qed.

End WithContext.
End AuthFacts.

(** ** goauth2: the fields of the token response *)

Module TokenFacts.
Import GoString JSON Decode HTTP goauth2 Terms DecodeFacts AuthFacts.

Ltac other_field :=
  repeat match goal with
    | |- context [String.eqb ?g ?f] =>
        let E := fresh "E" in
        destruct (String.eqb g f) eqn:E;
        [try (apply String.eqb_eq in E; congruence)|]
    end.

Lemma set_keeps_AccessToken (g : string) (x : value) (t : AuthorizationResponse) :
  g <> "access_token" ->
  AccessToken (fst (set_AuthorizationResponse g x t)) = AccessToken t.
Proof.
  intro Hg. unfold set_AuthorizationResponse. other_field;
    try match goal with
      | |- context [decode_string ?v ?o] => destruct (decode_string v o)
      | |- context [decode_int64 ?v ?o] => destruct (decode_int64 v o)
      end; reflexivity.
Qed.

Lemma set_keeps_RefreshToken (g : string) (x : value) (t : AuthorizationResponse) :
  g <> "refresh_token" ->
  RefreshToken (fst (set_AuthorizationResponse g x t)) = RefreshToken t.
Proof.
  intro Hg. unfold set_AuthorizationResponse. other_field;
    try match goal with
      | |- context [decode_string ?v ?o] => destruct (decode_string v o)
      | |- context [decode_int64 ?v ?o] => destruct (decode_int64 v o)
      end; reflexivity.
Qed.

(** A response without a member for the access token decodes to an empty
    access token, and likewise for the refresh token. *)
Lemma missing_access_token (j : value) :
  has_field AuthorizationResponse_fields "access_token" j = false ->
  AccessToken (fst (decode_AuthorizationResponse j zero_AuthorizationResponse))
  = EmptyString.
Proof.
  intro Hmiss.
  apply (decode_struct_missing (fun t => AccessToken t = EmptyString)) with (f := "access_token").
  - exact Hmiss.
  - intros g x t Hg Ht. now rewrite set_keeps_AccessToken.
  - reflexivity.
Qed.

Lemma missing_refresh_token (j : value) :
  has_field AuthorizationResponse_fields "refresh_token" j = false ->
  RefreshToken (fst (decode_AuthorizationResponse j zero_AuthorizationResponse))
  = EmptyString.
Proof.
  intro Hmiss.
  apply (decode_struct_missing (fun t => RefreshToken t = EmptyString)) with (f := "refresh_token").
  - exact Hmiss.
  - intros g x t Hg Ht. now rewrite set_keeps_RefreshToken.
  - reflexivity.
Qed.

Lemma set_refreshToken_same {Ctx : Type} (c0 : Client Ctx) :
  set_refreshToken Ctx c0 (refreshToken c0) = c0.
Proof. destruct c0; reflexivity. Qed.

End TokenFacts.

(** C1 (as amended). [Refresh] first stores its refresh-token argument.
    Whenever the provider's response is valid JSON: a response missing the
    access-token field leaves the stored access token (and its expiry)
    untouched; a response missing the refresh-token field leaves the stored
    refresh token equal to the argument of the call; and no response puts an
    empty access token or an empty refresh token in place of those. *)
Theorem Refresh_missing_fields_keep_tokens :
  forall (Ctx : Type) (ctx : Ctx) (c0 : goauth2.Client Ctx) (refreshToken : string)
         (tr : HTTP.Client Ctx) (resp : HTTP.Response) (j : JSON.value),
    goauth2.c c0 = Some tr ->
    tr (fst (goauth2.Refresh_request ctx
               (goauth2.set_refreshToken Ctx c0 refreshToken))) = inl resp ->
    HTTP.read_error (HTTP.Body resp) = None ->
    JSON.parse (HTTP.content (HTTP.Body resp)) = Some j ->
    exists res,
      goauth2.Refresh ctx c0 refreshToken = Returned res
      /\ (Terms.has_field goauth2.AuthorizationResponse_fields "access_token" j = false ->
          goauth2.accessToken (goauth2.state res) = goauth2.accessToken c0
          /\ goauth2.accessTokenExpire (goauth2.state res) = goauth2.accessTokenExpire c0)
      /\ (Terms.has_field goauth2.AuthorizationResponse_fields "refresh_token" j = false ->
          goauth2.refreshToken (goauth2.state res) = refreshToken)
      /\ (goauth2.accessToken (goauth2.state res) = goauth2.accessToken c0
          \/ goauth2.accessToken (goauth2.state res) <> EmptyString)
      /\ (goauth2.refreshToken (goauth2.state res) = refreshToken
          \/ goauth2.refreshToken (goauth2.state res) <> EmptyString).
Proof.
  intros Ctx ctx c0 rt tr resp j Hc Htr Hread Hparse.
  eexists. split; [apply (AuthFacts.Refresh_run ctx c0 rt tr resp Hc Htr)|].
  unfold Terms.Refresh_on, Decode.Unmarshal. rewrite Hread, Hparse.
  pose proof (TokenFacts.missing_access_token j) as Ha.
  pose proof (TokenFacts.missing_refresh_token j) as Hr.
  destruct (goauth2.decode_AuthorizationResponse j goauth2.zero_AuthorizationResponse)
    as [response [e|]]; simpl in Ha, Hr.
  - simpl. repeat split; auto.
  - cbv zeta.
    destruct (String.eqb (goauth2.AccessToken response) EmptyString) eqn:Ea;
      destruct (String.eqb (goauth2.RefreshToken response) EmptyString) eqn:Er;
      simpl;
      (split;
       [intro Hm; specialize (Ha Hm);
        try (rewrite Ha in Ea; discriminate); split; reflexivity|]);
      (split;
       [intro Hm; specialize (Hr Hm);
        try (rewrite Hr in Er; discriminate); reflexivity|]);
      (split;
       [first [left; reflexivity
              | right; intro Heq; rewrite Heq in Ea; discriminate]
       |first [left; reflexivity
              | right; intro Heq; rewrite Heq in Er; discriminate]]).
Qed.

Lemma Refresh_missing_fields_keep_tokens_witness :
  let tr : HTTP.Client unit :=
    fun _ => inl (HTTP.mkResponse 200 "200 OK" []
                    (HTTP.mkBody (GoString.q "{'access_token':'A2'}") None)) in
  let c0 := goauth2.mkClient (Some tr) "id" "secret" "A1" 3600 "R1" "scope" in
  exists res,
    goauth2.Refresh tt c0 "R1" = Returned res
    /\ goauth2.accessToken (goauth2.state res) = "A2"
    /\ goauth2.refreshToken (goauth2.state res) = "R1".
Proof.
  intros tr c0.
  destruct (Refresh_missing_fields_keep_tokens unit tt c0 "R1" tr
              (HTTP.mkResponse 200 "200 OK" []
                 (HTTP.mkBody (GoString.q "{'access_token':'A2'}") None))
              (JSON.JObject [("access_token", JSON.JString "A2")])
              eq_refl eq_refl eq_refl eq_refl)
    as [res [Hres [_ [Hr _]]]].
  exists res. split; [exact Hres|]. split.
  - vm_compute in Hres. injection Hres as <-. reflexivity.
  - apply Hr. reflexivity.
Defined.

(** C1, as stated, fails: with "R1" stored, [Refresh] called with "R9" and
    answered [{"access_token":"A2"}] (no refresh-token field) leaves "R9"
    stored, not "R1". *)
Lemma Refresh_missing_refresh_token_stores_argument :
  let body := GoString.q "{'access_token':'A2'}" in
  let tr : HTTP.Client unit :=
    fun _ => inl (HTTP.mkResponse 200 "200 OK" [] (HTTP.mkBody body None)) in
  let c0 := goauth2.mkClient (Some tr) "id" "secret" "A1" 3600 "R1" "scope" in
  exists j res,
    JSON.parse body = Some j
    /\ Terms.has_field goauth2.AuthorizationResponse_fields "refresh_token" j = false
    /\ goauth2.Refresh tt c0 "R9" = Returned res
    /\ goauth2.err res = None
    /\ goauth2.refreshToken c0 = "R1"
    /\ goauth2.refreshToken (goauth2.state res) = "R9"
    /\ goauth2.refreshToken (goauth2.state res) <> goauth2.refreshToken c0.
Proof.
  intros body tr c0. eexists. eexists.
  split; [vm_compute; reflexivity|].
  split; [vm_compute; reflexivity|].
  split; [vm_compute; reflexivity|].
  repeat split; discriminate.
Qed.

(** C2 (as amended). When the provider answers [Refresh] with an empty or
    malformed JSON body, the call fails with a protocol error (the wrapped
    syntax error of [json.Unmarshal]); the stored access token and its
    expiry are exactly what they were before the call, and the stored
    refresh token is the refresh-token argument of the call.  So the token
    state is exactly what it was when the argument is the refresh token
    that was stored. *)
Theorem Refresh_malformed_body_fails :
  forall (Ctx : Type) (ctx : Ctx) (c0 : goauth2.Client Ctx) (refreshToken : string)
         (tr : HTTP.Client Ctx) (resp : HTTP.Response),
    goauth2.c c0 = Some tr ->
    tr (fst (goauth2.Refresh_request ctx
               (goauth2.set_refreshToken Ctx c0 refreshToken))) = inl resp ->
    HTTP.read_error (HTTP.Body resp) = None ->
    JSON.parse (HTTP.content (HTTP.Body resp)) = None ->
    exists res,
      goauth2.Refresh ctx c0 refreshToken = Returned res
      /\ goauth2.err res = Some (failure_Wrap SyntaxError)
      /\ (forall e, goauth2.err res = Some e -> kind_of e = ProtocolError)
      /\ goauth2.accessToken (goauth2.state res) = goauth2.accessToken c0
      /\ goauth2.accessTokenExpire (goauth2.state res) = goauth2.accessTokenExpire c0
      /\ goauth2.refreshToken (goauth2.state res) = refreshToken
      /\ (refreshToken = goauth2.refreshToken c0 -> goauth2.state res = c0).
Proof.
  intros Ctx ctx c0 rt tr resp Hc Htr Hread Hparse.
  eexists. split; [apply (AuthFacts.Refresh_run ctx c0 rt tr resp Hc Htr)|].
  unfold Terms.Refresh_on, Decode.Unmarshal. rewrite Hread, Hparse. simpl.
  repeat split.
  - intros e He. injection He as <-. reflexivity.
  - intros ->. apply TokenFacts.set_refreshToken_same.
Qed.

Lemma Refresh_malformed_body_fails_witness :
  let tr : HTTP.Client unit :=
    fun _ => inl (HTTP.mkResponse 200 "200 OK" []
                    (HTTP.mkBody (GoString.q "{'access_token':") None)) in
  let c0 := goauth2.mkClient (Some tr) "id" "secret" "A1" 3600 "R1" "scope" in
  exists res,
    goauth2.Refresh tt c0 "R1" = Returned res
    /\ goauth2.err res = Some (failure_Wrap SyntaxError)
    /\ goauth2.state res = c0.
Proof.
  intros tr c0.
  destruct (Refresh_malformed_body_fails unit tt c0 "R1" tr
              (HTTP.mkResponse 200 "200 OK" []
                 (HTTP.mkBody (GoString.q "{'access_token':") None))
              eq_refl eq_refl eq_refl eq_refl)
    as [res [Hres [Herr [_ [_ [_ [_ Hsame]]]]]]].
  exists res. split; [exact Hres|]. split; [exact Herr|].
  apply Hsame. reflexivity.
Defined.

(** C2, as stated, fails: with "R1" stored, [Refresh] called with "R9" and
    answered with an empty body fails and leaves "R9" stored: the token
    state is not what it was before the call. *)
Lemma Refresh_empty_body_stores_argument :
  let tr : HTTP.Client unit :=
    fun _ => inl (HTTP.mkResponse 200 "200 OK" [] (HTTP.mkBody EmptyString None)) in
  let c0 := goauth2.mkClient (Some tr) "id" "secret" "A1" 3600 "R1" "scope" in
  exists res,
    JSON.parse EmptyString = None
    /\ goauth2.Refresh tt c0 "R9" = Returned res
    /\ goauth2.err res = Some (failure_Wrap SyntaxError)
    /\ Terms.tokens c0 = ("A1", 3600, "R1")
    /\ Terms.tokens (goauth2.state res) = ("A1", 3600, "R9")
    /\ Terms.tokens (goauth2.state res) <> Terms.tokens c0.
Proof.
  intros tr c0. eexists.
  split; [vm_compute; reflexivity|].
  split; [vm_compute; reflexivity|].
  repeat split; discriminate.
Qed.

(** C3. Whatever the token state was, a successful [Authorization] stores
    the three token fields decoded from the provider's response (a field the
    response does not carry is stored empty or zero).  With the response
    [{"access_token":"A","refresh_token":"R","expires_in":3600}] the access
    token becomes "A" and the refresh token "R"; with a response whose
    refresh token is the empty string, [GetRefreshToken] returns the empty
    string afterwards. *)
Theorem Authorization_overwrites_tokens :
  forall (Ctx : Type) (ctx : Ctx) (c0 : goauth2.Client Ctx) (code : string)
         (tr : HTTP.Client Ctx) (resp : HTTP.Response),
    goauth2.c c0 = Some tr ->
    tr (fst (goauth2.Authorization_request ctx c0 code)) = inl resp ->
    HTTP.read_error (HTTP.Body resp) = None ->
    (forall response,
        Decode.Unmarshal goauth2.decode_AuthorizationResponse
          (HTTP.content (HTTP.Body resp)) goauth2.zero_AuthorizationResponse
        = (response, None) ->
        exists res,
          goauth2.Authorization ctx c0 code = Returned res
          /\ goauth2.err res = None
          /\ goauth2.GetAccessToken (goauth2.state res) = goauth2.AccessToken response
          /\ goauth2.accessTokenExpire (goauth2.state res) = goauth2.ExpiresIn response
          /\ goauth2.GetRefreshToken (goauth2.state res) = goauth2.RefreshToken response)
    /\ (HTTP.content (HTTP.Body resp)
        = GoString.q "{'access_token':'A','refresh_token':'R','expires_in':3600}" ->
        exists res,
          goauth2.Authorization ctx c0 code = Returned res
          /\ goauth2.err res = None
          /\ goauth2.GetAccessToken (goauth2.state res) = "A"
          /\ goauth2.accessTokenExpire (goauth2.state res) = 3600
          /\ goauth2.GetRefreshToken (goauth2.state res) = "R")
    /\ (HTTP.content (HTTP.Body resp)
        = GoString.q "{'access_token':'A','refresh_token':'','expires_in':3600}" ->
        exists res,
          goauth2.Authorization ctx c0 code = Returned res
          /\ goauth2.err res = None
          /\ goauth2.GetAccessToken (goauth2.state res) = "A"
          /\ goauth2.GetRefreshToken (goauth2.state res) = EmptyString).
Proof.
  intros Ctx ctx c0 code tr resp Hc Htr Hread.
  pose proof (AuthFacts.Authorization_run ctx c0 code tr resp Hc Htr) as Hrun.
  assert (Hgen : forall response,
             Decode.Unmarshal goauth2.decode_AuthorizationResponse
               (HTTP.content (HTTP.Body resp)) goauth2.zero_AuthorizationResponse
             = (response, None) ->
             exists res,
               goauth2.Authorization ctx c0 code = Returned res
               /\ goauth2.err res = None
               /\ goauth2.GetAccessToken (goauth2.state res) = goauth2.AccessToken response
               /\ goauth2.accessTokenExpire (goauth2.state res) = goauth2.ExpiresIn response
               /\ goauth2.GetRefreshToken (goauth2.state res)
                  = goauth2.RefreshToken response).
  { intros response Hdec. eexists. split; [exact Hrun|].
    unfold Terms.Authorization_on. rewrite Hread, Hdec. repeat split. }
  split; [exact Hgen|]. split.
  - intro Hbody.
    destruct (Hgen (goauth2.mkAuthorizationResponse "A" EmptyString 3600 EmptyString "R"))
      as [res Hres]; [rewrite Hbody; vm_compute; reflexivity|].
    exists res. exact Hres.
  - intro Hbody.
    destruct (Hgen (goauth2.mkAuthorizationResponse "A" EmptyString 3600 EmptyString
                      EmptyString))
      as [res [H1 [H2 [H3 [_ H5]]]]]; [rewrite Hbody; vm_compute; reflexivity|].
    exists res. repeat split; assumption.
Qed.

Lemma Authorization_overwrites_tokens_witness :
  let body := GoString.q "{'access_token':'A','refresh_token':'R','expires_in':3600}" in
  let tr : HTTP.Client unit :=
    fun _ => inl (HTTP.mkResponse 200 "200 OK" [] (HTTP.mkBody body None)) in
  let c0 := goauth2.mkClient (Some tr) "id" "secret" "A0" 1 "R0" "scope" in
  exists res,
    goauth2.Authorization tt c0 "4/code" = Returned res
    /\ goauth2.err res = None
    /\ goauth2.GetAccessToken (goauth2.state res) = "A"
    /\ goauth2.accessTokenExpire (goauth2.state res) = 3600
    /\ goauth2.GetRefreshToken (goauth2.state res) = "R".
Proof.
  intros body tr c0.
  exact (proj1 (proj2 (Authorization_overwrites_tokens unit tt c0 "4/code" tr
                         (HTTP.mkResponse 200 "200 OK" [] (HTTP.mkBody body None))
                         eq_refl eq_refl eq_refl))
           eq_refl).
Defined.

(** ** gphoto: one search, step by step *)

Module SearchFacts.
Import GoString JSON Decode HTTP gphoto Terms.

Section WithTypes.
Context {float64 Ctx : Type}.
Variable float64_zero : float64.
Variable ParseFloat : string -> option float64.

Lemma Sprintf_bearer (token : string) :
  Sprintf gclient.AuthorizationParam token = "Bearer " ++ token.
Proof.
  change (Sprintf gclient.AuthorizationParam token) with ("Bearer " ++ token ++ EmptyString).
  now rewrite StringFacts.append_nil_r.
Qed.

(** The request built by [request] is the request of the design. *)
Lemma request_built (ctx : Ctx) (token : string) (req : option MediaItemsSearchRequest) :
  with_header
    (WithContext
       (mkRequest MethodPost (baseURL ++ mediaItemsSearchEndpoint) []
          (encode (marshal_ptr marshal_MediaItemsSearchRequest req)) None) ctx)
    (Header_Set
       (Header_Set [] gclient.AuthorizationHeader
          (Sprintf gclient.AuthorizationParam token))
       gclient.ContentTypeHeader gclient.ContentTypeJSON)
  = wire_request ctx token req.
Proof. rewrite Sprintf_bearer. reflexivity. Qed.

Lemma MediaItemsSearch_run (c0 : Client Ctx) (ctx : Ctx)
    (req : option MediaItemsSearchRequest) (tr : HTTP.Client Ctx) :
  c c0 = Some tr ->
  MediaItemsSearch float64_zero ParseFloat c0 ctx req
  = Returned (search_outcome float64_zero ParseFloat
                (tr (wire_request ctx (token c0) req))
                (wire_request ctx (token c0) req)).
Proof.
  intro Hc. unfold MediaItemsSearch, request, Marshal, NewRequest.
  cbv zeta. cbv iota. rewrite Hc. rewrite request_built.
  unfold search_outcome, Do, ReadAll.
  destruct (tr (wire_request ctx (token c0) req)) as [resp|e]; [|reflexivity].
  destruct (read_error (Body resp)) as [e|]; [reflexivity|].
  destruct (Unmarshal (decode_MediaItemsSearchResponse float64_zero ParseFloat)
              (content (Body resp)) zero_MediaItemsSearchResponse) as [r [e|]];
    reflexivity.
Qed.

Lemma MediaItemsSearch_nil_client (token : string) (ctx : Ctx)
    (req : option MediaItemsSearchRequest) :
  MediaItemsSearch float64_zero ParseFloat (NewClient None token) ctx req
  = Panicked "invalid memory address or nil pointer dereference".
Proof. reflexivity. Qed.

End WithTypes.
End SearchFacts.

(** ** The status line plays no part *)

Module StatusFacts.
Import GoString JSON Decode HTTP Terms.

Section WithTypes.
Context {float64 Ctx : Type}.
Variable float64_zero : float64.
Variable ParseFloat : string -> option float64.

Lemma Authorization_on_status (c0 : goauth2.Client Ctx) (resp : Response)
    (code : Z) (status : string) :
  goauth2.err (Authorization_on c0 (with_status resp code status))
  = goauth2.err (Authorization_on c0 resp)
  /\ tokens (goauth2.state (Authorization_on c0 (with_status resp code status)))
     = tokens (goauth2.state (Authorization_on c0 resp)).
Proof.
  unfold Authorization_on, with_status. simpl Body.
  destruct (read_error (Body resp)) as [e|];
    destruct (Unmarshal goauth2.decode_AuthorizationResponse (content (Body resp))
                goauth2.zero_AuthorizationResponse) as [response [e'|]];
    split; reflexivity.
Qed.

Lemma Refresh_on_status (c1 : goauth2.Client Ctx) (resp : Response)
    (code : Z) (status : string) :
  goauth2.err (Refresh_on c1 (with_status resp code status))
  = goauth2.err (Refresh_on c1 resp)
  /\ tokens (goauth2.state (Refresh_on c1 (with_status resp code status)))
     = tokens (goauth2.state (Refresh_on c1 resp)).
Proof.
  unfold Refresh_on, with_status. simpl Body.
  destruct (read_error (Body resp)) as [e|];
    destruct (Unmarshal goauth2.decode_AuthorizationResponse (content (Body resp))
                goauth2.zero_AuthorizationResponse) as [response [e'|]];
    split; reflexivity.
Qed.

Lemma search_outcome_status (resp : Response) (code : Z) (status : string)
    (wire : Request Ctx) :
  search_outcome float64_zero ParseFloat (inl (with_status resp code status)) wire
  = search_outcome float64_zero ParseFloat (inl resp) wire.
Proof. reflexivity. Qed.

End WithTypes.
End StatusFacts.

(** C10. Whatever the token, the context, the request and the behaviour of
    the HTTP client, [MediaItemsSearch] returns a response pointer that is
    not nil, also when the error it returns is not nil: the response is then
    the zero value, filled with whatever [json.Unmarshal] had decoded when
    the error comes from the body.  (The client is one that was given an
    HTTP client; a call on a nil [*http.Client] panics inside [Do].) *)
Theorem MediaItemsSearch_response_never_nil :
  forall (float64 Ctx : Type) (float64_zero : float64)
         (ParseFloat : string -> option float64)
         (tr : HTTP.Client Ctx) (token : string) (ctx : Ctx)
         (req : option gphoto.MediaItemsSearchRequest),
    exists x,
      gphoto.MediaItemsSearch float64_zero ParseFloat
        (gphoto.NewClient (Some tr) token) ctx req = Returned x
      /\ gphoto.filled x <> None
      /\ (forall e, gphoto.err x = Some e ->
            gphoto.filled x = Some gphoto.zero_MediaItemsSearchResponse
            \/ exists body,
                 gphoto.filled x
                 = Some (fst (Decode.Unmarshal
                                (gphoto.decode_MediaItemsSearchResponse
                                   float64_zero ParseFloat)
                                body gphoto.zero_MediaItemsSearchResponse))).
Proof.
  intros float64 Ctx float64_zero ParseFloat tr token ctx req.
  eexists. split.
  - apply SearchFacts.MediaItemsSearch_run. reflexivity.
  - simpl gphoto.token. unfold Terms.search_outcome.
    destruct (tr (Terms.wire_request ctx token req)) as [resp|e0].
    + destruct (HTTP.read_error (HTTP.Body resp)) as [e1|].
      * split; [discriminate|]. intros e _. left. reflexivity.
      * destruct (Decode.Unmarshal
                    (gphoto.decode_MediaItemsSearchResponse float64_zero ParseFloat)
                    (HTTP.content (HTTP.Body resp)) gphoto.zero_MediaItemsSearchResponse)
          as [r e] eqn:Hdec.
        split; [discriminate|]. intros e' _. right.
        exists (HTTP.content (HTTP.Body resp)). simpl. now rewrite Hdec.
    + split; [discriminate|]. intros e _. left. reflexivity.
Qed.

Lemma MediaItemsSearch_response_never_nil_witness :
  let body := GoString.q "{'nextPageToken':5,'mediaItems':[{'id':'1'}]}" in
  let tr : HTTP.Client unit :=
    fun _ => inl (HTTP.mkResponse 200 "200 OK" [] (HTTP.mkBody body None)) in
  exists x,
    gphoto.MediaItemsSearch 0%nat (fun _ => None) (gphoto.NewClient (Some tr) "token") tt None
    = Returned x
    /\ gphoto.err x = Some (failure_Wrap (UnmarshalTypeError "number" "string"))
    /\ gphoto.filled x
       = Some (gphoto.mkMediaItemsSearchResponse (gphoto.mkPagerResponse EmptyString)
                 [Some (gphoto.mkMediaItem "1" EmptyString EmptyString EmptyString
                          EmptyString None None EmptyString)])
    /\ gphoto.filled x <> None.
Proof.
  intros body tr.
  destruct (MediaItemsSearch_response_never_nil nat unit 0%nat (fun _ => None) tr
              "token" tt None) as [x [Hx [Hnil _]]].
  exists x. split; [exact Hx|].
  vm_compute in Hx. injection Hx as <-.
  repeat split. discriminate.
Defined.

(** C5. For [Authorization], [Refresh] and [MediaItemsSearch], the status
    code of the provider's response plays no part in the outcome: two
    responses that differ in the status line only give the same error and
    the same tokens (the same decoded response, for a search), and a
    response whose body decodes without an error is a success whatever its
    status code is, 404 or 500 as well as 200.  (The status line shows in
    one place only: on a body that cannot be decoded, [Authorization] and
    [Refresh] write the response to the log.) *)
Theorem status_code_never_checked :
  forall (float64 Ctx : Type) (float64_zero : float64)
         (ParseFloat : string -> option float64) (ctx : Ctx)
         (tr1 tr2 : HTTP.Client Ctx) (resp : HTTP.Response)
         (code1 code2 : Z) (status1 status2 : string),
    (forall (c0 : goauth2.Client Ctx) (authorizationCode : string),
        tr1 (fst (goauth2.Authorization_request ctx c0 authorizationCode))
        = inl (Terms.with_status resp code1 status1) ->
        tr2 (fst (goauth2.Authorization_request ctx c0 authorizationCode))
        = inl (Terms.with_status resp code2 status2) ->
        exists r1 r2,
          goauth2.Authorization ctx (goauth2.WithHTTPClient c0 tr1) authorizationCode
          = Returned r1
          /\ goauth2.Authorization ctx (goauth2.WithHTTPClient c0 tr2) authorizationCode
             = Returned r2
          /\ goauth2.err r1 = goauth2.err r2
          /\ Terms.tokens (goauth2.state r1) = Terms.tokens (goauth2.state r2)
          /\ (HTTP.read_error (HTTP.Body resp) = None ->
              snd (Decode.Unmarshal goauth2.decode_AuthorizationResponse
                     (HTTP.content (HTTP.Body resp)) goauth2.zero_AuthorizationResponse)
              = None ->
              goauth2.err r1 = None))
    /\ (forall (c0 : goauth2.Client Ctx) (refreshToken : string),
          tr1 (fst (goauth2.Refresh_request ctx
                      (goauth2.set_refreshToken Ctx c0 refreshToken)))
          = inl (Terms.with_status resp code1 status1) ->
          tr2 (fst (goauth2.Refresh_request ctx
                      (goauth2.set_refreshToken Ctx c0 refreshToken)))
          = inl (Terms.with_status resp code2 status2) ->
          exists r1 r2,
            goauth2.Refresh ctx (goauth2.WithHTTPClient c0 tr1) refreshToken = Returned r1
            /\ goauth2.Refresh ctx (goauth2.WithHTTPClient c0 tr2) refreshToken = Returned r2
            /\ goauth2.err r1 = goauth2.err r2
            /\ Terms.tokens (goauth2.state r1) = Terms.tokens (goauth2.state r2)
            /\ (HTTP.read_error (HTTP.Body resp) = None ->
                snd (Decode.Unmarshal goauth2.decode_AuthorizationResponse
                       (HTTP.content (HTTP.Body resp)) goauth2.zero_AuthorizationResponse)
                = None ->
                goauth2.err r1 = None))
    /\ (forall (token : string) (req : option gphoto.MediaItemsSearchRequest),
          tr1 (Terms.wire_request ctx token req)
          = inl (Terms.with_status resp code1 status1) ->
          tr2 (Terms.wire_request ctx token req)
          = inl (Terms.with_status resp code2 status2) ->
          exists x1 x2,
            gphoto.MediaItemsSearch float64_zero ParseFloat
              (gphoto.NewClient (Some tr1) token) ctx req = Returned x1
            /\ gphoto.MediaItemsSearch float64_zero ParseFloat
                 (gphoto.NewClient (Some tr2) token) ctx req = Returned x2
            /\ x1 = x2
            /\ (HTTP.read_error (HTTP.Body resp) = None ->
                snd (Decode.Unmarshal
                       (gphoto.decode_MediaItemsSearchResponse float64_zero ParseFloat)
                       (HTTP.content (HTTP.Body resp))
                       gphoto.zero_MediaItemsSearchResponse) = None ->
                gphoto.err x1 = None)).
Proof.
  intros float64 Ctx float64_zero ParseFloat ctx tr1 tr2 resp code1 code2
         status1 status2.
  split; [|split].
  - intros c0 code H1 H2.
    exists (Terms.Authorization_on (goauth2.WithHTTPClient c0 tr1)
              (Terms.with_status resp code1 status1)).
    exists (Terms.Authorization_on (goauth2.WithHTTPClient c0 tr2)
              (Terms.with_status resp code2 status2)).
    split; [now apply (AuthFacts.Authorization_run ctx _ code tr1)|].
    split; [now apply (AuthFacts.Authorization_run ctx _ code tr2)|].
    destruct (StatusFacts.Authorization_on_status (goauth2.WithHTTPClient c0 tr1)
                resp code1 status1) as [He1 Ht1].
    destruct (StatusFacts.Authorization_on_status (goauth2.WithHTTPClient c0 tr2)
                resp code2 status2) as [He2 Ht2].
    rewrite He1, He2, Ht1, Ht2. unfold Terms.Authorization_on.
    destruct (HTTP.read_error (HTTP.Body resp)) as [e|];
      destruct (Decode.Unmarshal goauth2.decode_AuthorizationResponse
                  (HTTP.content (HTTP.Body resp)) goauth2.zero_AuthorizationResponse)
        as [response [e'|]]; simpl; repeat split; try discriminate; auto.
  - intros c0 rt H1 H2.
    exists (Terms.Refresh_on
              (goauth2.set_refreshToken Ctx (goauth2.WithHTTPClient c0 tr1) rt)
              (Terms.with_status resp code1 status1)).
    exists (Terms.Refresh_on
              (goauth2.set_refreshToken Ctx (goauth2.WithHTTPClient c0 tr2) rt)
              (Terms.with_status resp code2 status2)).
    split; [now apply (AuthFacts.Refresh_run ctx _ rt tr1)|].
    split; [now apply (AuthFacts.Refresh_run ctx _ rt tr2)|].
    destruct (StatusFacts.Refresh_on_status
                (goauth2.set_refreshToken Ctx (goauth2.WithHTTPClient c0 tr1) rt)
                resp code1 status1) as [He1 Ht1].
    destruct (StatusFacts.Refresh_on_status
                (goauth2.set_refreshToken Ctx (goauth2.WithHTTPClient c0 tr2) rt)
                resp code2 status2) as [He2 Ht2].
    rewrite He1, He2, Ht1, Ht2. unfold Terms.Refresh_on.
    destruct (HTTP.read_error (HTTP.Body resp)) as [e|];
      destruct (Decode.Unmarshal goauth2.decode_AuthorizationResponse
                  (HTTP.content (HTTP.Body resp)) goauth2.zero_AuthorizationResponse)
        as [response [e'|]]; simpl; repeat split; try discriminate; auto.
    all: destruct (String.eqb (goauth2.AccessToken response) EmptyString);
      destruct (String.eqb (goauth2.RefreshToken response) EmptyString);
      reflexivity.
  - intros token req H1 H2.
    eexists. eexists.
    split; [apply SearchFacts.MediaItemsSearch_run; reflexivity|].
    split; [apply SearchFacts.MediaItemsSearch_run; reflexivity|].
    simpl gphoto.token. rewrite H1, H2.
    rewrite !StatusFacts.search_outcome_status. split; [reflexivity|].
    intros Hread Hdec. unfold Terms.search_outcome. rewrite Hread.
    destruct (Decode.Unmarshal
                (gphoto.decode_MediaItemsSearchResponse float64_zero ParseFloat)
                (HTTP.content (HTTP.Body resp)) gphoto.zero_MediaItemsSearchResponse)
      as [r e]. simpl in Hdec. subst e. reflexivity.
Qed.

Lemma status_code_never_checked_witness :
  let resp :=
    HTTP.mkResponse 200 "200 OK" []
      (HTTP.mkBody
         (GoString.q "{'access_token':'A','refresh_token':'R','expires_in':3600}") None) in
  let tr1 : HTTP.Client unit := fun _ => inl (Terms.with_status resp 200 "200 OK") in
  let tr2 : HTTP.Client unit :=
    fun _ => inl (Terms.with_status resp 500 "500 Internal Server Error") in
  let c0 := goauth2.NewClient (Ctx := unit) "id" "secret" in
  exists r1 r2,
    goauth2.Authorization tt (goauth2.WithHTTPClient c0 tr1) "4/code" = Returned r1
    /\ goauth2.Authorization tt (goauth2.WithHTTPClient c0 tr2) "4/code" = Returned r2
    /\ goauth2.err r1 = goauth2.err r2
    /\ Terms.tokens (goauth2.state r1) = Terms.tokens (goauth2.state r2)
    /\ goauth2.err r2 = None.
Proof.
  intros resp tr1 tr2 c0.
  destruct (proj1 (status_code_never_checked nat unit 0%nat (fun _ => None) tt
                     tr1 tr2 resp 200 500 "200 OK" "500 Internal Server Error")
              c0 "4/code" eq_refl eq_refl)
    as [r1 [r2 [H1 [H2 [He [Ht Hok]]]]]].
  exists r1, r2. repeat split; try assumption.
  rewrite <- He. apply Hok; reflexivity.
Defined.

(** ** gphoto: the fields of the search response *)

Module ResponseFacts.
Import GoString JSON Decode HTTP gphoto Terms DecodeFacts.


Section WithFloat.
Context {float64 : Type}.
Variable float64_zero : float64.
Variable ParseFloat : string -> option float64.

Local Abbreviation set_item := (set_MediaItem float64_zero ParseFloat).
Local Abbreviation set_response := (set_MediaItemsSearchResponse float64_zero ParseFloat).











End WithFloat.
End ResponseFacts.



(** ** gphoto: the JSON text of a request *)

Module RequestFacts.
Import GoString JSON Decode HTTP gphoto Terms StringFacts.





















End RequestFacts.


(** ** Query strings *)

Module QueryFacts.
Import GoString URL Terms StringFacts.

Lemma contains_byte_app (n : N) (a b : string) :
  contains_byte n (a ++ b) = contains_byte n a || contains_byte n b.
Proof.
  induction a as [|c a IH]; simpl; [reflexivity|].
  rewrite IH. now rewrite orb_assoc.
Qed.

Lemma cut_absent (n : N) (s : string) :
  contains_byte n s = false -> cut n s = (s, EmptyString).
Proof.
  induction s as [|c s IH]; simpl; [reflexivity|].
  intro H. apply orb_false_iff in H. destruct H as [Hc Hs].
  rewrite Hc, (IH Hs). reflexivity.
Qed.

Lemma cut_at (n : N) (a : string) (c : ascii) (rest : string) :
  contains_byte n a = false -> code c = n ->
  cut n (a ++ String c rest) = (a, rest).
Proof.
  intros Ha Hc. induction a as [|d a IH]; simpl.
  - rewrite Hc, N.eqb_refl. reflexivity.
  - simpl in Ha. apply orb_false_iff in Ha. destruct Ha as [Hd Ha].
    rewrite Hd, (IH Ha). reflexivity.
Qed.

Lemma split_at (n : N) (a : string) (c : ascii) (rest : string) :
  contains_byte n a = false -> code c = n ->
  split n (a ++ String c rest) = a :: split n rest.
Proof.
  intros Ha Hc. induction a as [|d a IH]; simpl.
  - rewrite Hc, N.eqb_refl. reflexivity.
  - simpl in Ha. apply orb_false_iff in Ha. destruct Ha as [Hd Ha].
    rewrite Hd, (IH Ha). reflexivity.
Qed.

Lemma QueryUnescape_plain (s : string) :
  contains_byte 37 s = false -> contains_byte 43 s = false ->
  QueryUnescape s = Some s.
Proof.
  induction s as [|c s IH]; simpl; [reflexivity|].
  intros H37 H43.
  apply orb_false_iff in H37. destruct H37 as [Hc37 Hs37].
  apply orb_false_iff in H43. destruct H43 as [Hc43 Hs43].
  rewrite Hc37, Hc43, (IH Hs37 Hs43). reflexivity.
Qed.

Lemma plain_spec (s : string) :
  plain s = true ->
  contains_byte 38 s = false /\ contains_byte 35 s = false
  /\ contains_byte 37 s = false /\ contains_byte 43 s = false.
Proof.
  unfold plain. intro H. apply negb_true_iff in H.
  repeat (apply orb_false_iff in H; destruct H as [H ?]). auto.
Qed.

(** A field [name=value] of a query string, the value plain. *)
Lemma parse_field_plain (name value : string) :
  name <> EmptyString ->
  contains_byte 61 name = false ->
  QueryUnescape name = Some name ->
  plain value = true ->
  parse_field (name ++ String "=" value) = [(name, value)].
Proof.
  intros Hne Hname Hun Hplain.
  destruct (plain_spec value Hplain) as [_ [_ [H37 H43]]].
  unfold parse_field.
  rewrite (cut_at 61 name "=" value Hname eq_refl).
  rewrite Hun, (QueryUnescape_plain value H37 H43).
  destruct name; [congruence|reflexivity].
Qed.

End QueryFacts.

(** ** goauth2: the authorization URL *)

Module OAuthURIFacts.
Import GoString URL goauth2 Terms StringFacts QueryFacts.

Section WithContext.
Context {Ctx : Type}.

(** The query of the authorization URL, from the client id and the scope. *)
Lemma GetOAuthURI_text (c0 : Client Ctx) :
  GetOAuthURI c0
  = "https://accounts.google.com/o/oauth2/v2/auth"
    ++ String "?"
         (EmptyString
          ++ String "&"
               (("client_id" ++ String "=" (clientID c0))
                ++ String "&"
                     ("redirect_uri=urn:ietf:wg:oauth:2.0:oob"
                      ++ String "&"
                           (("scope" ++ String "=" (scope c0))
                            ++ String "&"
                                 "access_type=offline&response_type=code")))).
Proof.
  unfold GetOAuthURI, WriteString, Builder_String, Builder_new, oauthURI,
    redirectURI, accessType, responseType.
  rewrite ?append_assoc. simpl. rewrite ?append_assoc. reflexivity.
Qed.

Lemma query_parameters_plain (c0 : Client Ctx) :
  plain (clientID c0) = true -> plain (scope c0) = true ->
  query_parameters (GetOAuthURI c0) = expected_parameters c0.
Proof.
  intros Hid Hsc.
  destruct (plain_spec _ Hid) as [Hid38 [Hid35 _]].
  destruct (plain_spec _ Hsc) as [Hsc38 [Hsc35 _]].
  rewrite GetOAuthURI_text. unfold query_parameters, RawQuery.
  rewrite (cut_absent 35).
  2:{ repeat (progress (rewrite ?contains_byte_app; simpl;
                        rewrite ?Hid35, ?Hsc35; simpl)).
      reflexivity. }
  cbn [fst].
  rewrite (cut_at 63 "https://accounts.google.com/o/oauth2/v2/auth" "?") by reflexivity.
  cbn [snd]. unfold ParseQuery.
  rewrite (split_at 38 EmptyString "&") by reflexivity.
  rewrite (split_at 38 ("client_id" ++ String "=" (clientID c0)) "&");
    [|rewrite contains_byte_app; simpl; exact Hid38|reflexivity].
  rewrite (split_at 38 "redirect_uri=urn:ietf:wg:oauth:2.0:oob" "&") by reflexivity.
  rewrite (split_at 38 ("scope" ++ String "=" (scope c0)) "&");
    [|rewrite contains_byte_app; simpl; exact Hsc38|reflexivity].
  change (split 38 "access_type=offline&response_type=code")
    with ["access_type=offline"; "response_type=code"].
  cbn [flat_map].
  rewrite (parse_field_plain "client_id" (clientID c0)) by (try discriminate; auto).
  rewrite (parse_field_plain "scope" (scope c0)) by (try discriminate; auto).
  reflexivity.
Qed.

End WithContext.
End OAuthURIFacts.

(** C4 (as amended). For every client id and scope, [GetOAuthURI] returns
    the authorization endpoint followed by
    [?&client_id=<client id>&redirect_uri=urn:ietf:wg:oauth:2.0:oob&scope=<scope>&access_type=offline&response_type=code]:
    the client id and the scope are written as they are, without
    percent-encoding, and the redirect URI, the access type and the response
    type appear verbatim whatever the client id and the scope are.  When
    the client id and the scope have none of the bytes [& # % +], the query
    string carries exactly the five parameters [client_id], [redirect_uri],
    [scope], [access_type], [response_type], with these values. *)
Theorem GetOAuthURI_parameters :
  forall (Ctx : Type) (c : goauth2.Client Ctx),
    goauth2.GetOAuthURI c
    = goauth2.oauthURI ++ "?&client_id=" ++ goauth2.clientID c
      ++ "&redirect_uri=urn:ietf:wg:oauth:2.0:oob&scope=" ++ goauth2.scope c
      ++ "&access_type=offline&response_type=code"
    /\ Terms.appears_in "&redirect_uri=urn:ietf:wg:oauth:2.0:oob&" (goauth2.GetOAuthURI c)
    /\ Terms.appears_in "&access_type=offline&" (goauth2.GetOAuthURI c)
    /\ Terms.appears_in "&response_type=code" (goauth2.GetOAuthURI c)
    /\ (Terms.plain (goauth2.clientID c) = true ->
        Terms.plain (goauth2.scope c) = true ->
        URL.query_parameters (goauth2.GetOAuthURI c) = Terms.expected_parameters c).
Proof.
  intros Ctx c.
  assert (Htext : goauth2.GetOAuthURI c
                  = goauth2.oauthURI ++ "?&client_id=" ++ goauth2.clientID c
                    ++ "&redirect_uri=urn:ietf:wg:oauth:2.0:oob&scope=" ++ goauth2.scope c
                    ++ "&access_type=offline&response_type=code").
  { rewrite OAuthURIFacts.GetOAuthURI_text. unfold goauth2.oauthURI.
    rewrite ?StringFacts.append_assoc. simpl.
    rewrite ?StringFacts.append_assoc. reflexivity. }
  split; [exact Htext|].
  split.
  { exists (goauth2.oauthURI ++ "?&client_id=" ++ goauth2.clientID c).
    exists ("scope=" ++ goauth2.scope c ++ "&access_type=offline&response_type=code").
    rewrite Htext. rewrite ?StringFacts.append_assoc. reflexivity. }
  split.
  { exists (goauth2.oauthURI ++ "?&client_id=" ++ goauth2.clientID c
            ++ "&redirect_uri=urn:ietf:wg:oauth:2.0:oob&scope=" ++ goauth2.scope c).
    exists "response_type=code".
    rewrite Htext. rewrite ?StringFacts.append_assoc. reflexivity. }
  split.
  { exists (goauth2.oauthURI ++ "?&client_id=" ++ goauth2.clientID c
            ++ "&redirect_uri=urn:ietf:wg:oauth:2.0:oob&scope=" ++ goauth2.scope c
            ++ "&access_type=offline").
    exists EmptyString.
    rewrite Htext. rewrite ?StringFacts.append_assoc. reflexivity. }
  apply OAuthURIFacts.query_parameters_plain.
Qed.

Lemma GetOAuthURI_parameters_witness :
  let c := goauth2.WithScope
             (goauth2.NewClient (Ctx := unit) "1234.apps.googleusercontent.com" "secret")
             gphoto.ScopeLibraryReadOnly in
  URL.query_parameters (goauth2.GetOAuthURI c)
  = [("client_id", "1234.apps.googleusercontent.com");
     ("redirect_uri", "urn:ietf:wg:oauth:2.0:oob");
     ("scope", "https://www.googleapis.com/auth/photoslibrary.readonly");
     ("access_type", "offline");
     ("response_type", "code")].
Proof.
  intro c.
  exact (proj2 (proj2 (proj2 (proj2 (GetOAuthURI_parameters unit c)))) eq_refl eq_refl).
Defined.

(** C4, as stated, fails: the values are not percent-encoded.  With the two
    scopes "a" and "b", which [WithScopes] joins as "a&b", the URL reads
    [...&scope=a&b&access_type=...]: its query string carries six
    parameters, the scope "a" and a parameter "b" among them, where the
    encoded value [a%26b] would carry the scope "a&b". *)
Lemma GetOAuthURI_scope_not_encoded :
  exists c : goauth2.Client unit,
    goauth2.WithScopes (goauth2.NewClient "id" "secret") ["a"; "b"] = Returned c
    /\ goauth2.scope c = "a&b"
    /\ URL.QueryEscape (goauth2.scope c) = "a%26b"
    /\ goauth2.GetOAuthURI c
       = "https://accounts.google.com/o/oauth2/v2/auth?&client_id=id&redirect_uri=urn:ietf:wg:oauth:2.0:oob&scope=a&b&access_type=offline&response_type=code"
    /\ URL.query_parameters (goauth2.GetOAuthURI c)
       = [("client_id", "id"); ("redirect_uri", "urn:ietf:wg:oauth:2.0:oob");
          ("scope", "a"); ("b", EmptyString);
          ("access_type", "offline"); ("response_type", "code")]
    /\ URL.query_parameters (goauth2.GetOAuthURI c) <> Terms.expected_parameters c.
Proof.
  eexists. split; [vm_compute; reflexivity|].
  repeat split. discriminate.
Qed.

(** ** Form bodies: what [Values.Encode] writes, [url.ParseQuery] reads back *)

Module FormFacts.
Import GoString URL Terms FormTerms StringFacts QueryFacts.

(** What [QueryEscape] writes for one byte. *)
Lemma QueryEscape_cons (a : ascii) (r : string) :
  QueryEscape (String a r)
  = (if unreserved a then String a EmptyString
     else if (code a =? 32)%N then "+" else percent a) ++ QueryEscape r.
Proof. reflexivity. Qed.

(** One escaped byte has no ampersand and no equals sign, and is read back
    as the byte it stands for. *)
Lemma escaped_byte (a : ascii) :
  let e := if unreserved a then String a EmptyString
           else if (code a =? 32)%N then "+" else percent a in
  contains_byte 38 e = false
  /\ contains_byte 61 e = false
  /\ forall rest, QueryUnescape (e ++ rest)
                  = match QueryUnescape rest with
                    | Some t => Some (String a t)
                    | None => None
                    end.
Proof.
  destruct a as [[|] [|] [|] [|] [|] [|] [|] [|]];
    (split; [reflexivity|]; split; [reflexivity|]; intro rest;
     cbn; destruct (QueryUnescape rest); reflexivity).
Qed.

Lemma QueryEscape_clean (s : string) :
  contains_byte 38 (QueryEscape s) = false
  /\ contains_byte 61 (QueryEscape s) = false.
Proof.
  induction s as [|a s [IH1 IH2]]; [split; reflexivity|].
  rewrite QueryEscape_cons, !contains_byte_app.
  destruct (escaped_byte a) as [H1 [H2 _]].
  cbv zeta in H1, H2. rewrite H1, H2, IH1, IH2. split; reflexivity.
Qed.

Lemma QueryUnescape_QueryEscape (s : string) :
  QueryUnescape (QueryEscape s) = Some s.
Proof.
  induction s as [|a s IH]; [reflexivity|].
  rewrite QueryEscape_cons.
  destruct (escaped_byte a) as [_ [_ H]]. cbv zeta in H.
  rewrite H, IH. reflexivity.
Qed.

Lemma split_absent (n : N) (s : string) :
  contains_byte n s = false -> split n s = [s].
Proof.
  induction s as [|a s IH]; simpl; [reflexivity|].
  intro H. apply Bool.orb_false_iff in H. destruct H as [Ha Hs].
  rewrite Ha, (IH Hs). reflexivity.
Qed.

(** The fields of a joined list are the list, when no element has the
    separator. *)
Lemma split_concat (l : list string) :
  l <> [] ->
  (forall x, In x l -> contains_byte 38 x = false) ->
  split 38 (String.concat "&" l) = l.
Proof.
  induction l as [|x l IH]; [congruence|].
  intros _ Hclean. destruct l as [|y l].
  - simpl. apply split_absent, Hclean. now left.
  - change (String.concat "&" (x :: y :: l))
      with (x ++ String "&" (String.concat "&" (y :: l))).
    rewrite split_at; [|apply Hclean; now left|reflexivity].
    f_equal. apply IH; [discriminate|].
    intros z Hz. apply Hclean. now right.
Qed.

(** A written pair is read back as the name and the value. *)
Lemma parse_field_escaped (k x : string) :
  parse_field (QueryEscape k ++ "=" ++ QueryEscape x) = [(k, x)].
Proof.
  destruct (QueryEscape_clean k) as [_ Hk].
  assert (Hcut : cut 61 (QueryEscape k ++ "=" ++ QueryEscape x)
                 = (QueryEscape k, QueryEscape x)).
  { apply cut_at; [exact Hk|reflexivity]. }
  unfold parse_field. rewrite Hcut, !QueryUnescape_QueryEscape.
  destruct (QueryEscape k); reflexivity.
Qed.

Lemma escaped_pair_clean (k x : string) :
  contains_byte 38 (QueryEscape k ++ "=" ++ QueryEscape x) = false.
Proof.
  rewrite !contains_byte_app.
  destruct (QueryEscape_clean k) as [-> _].
  destruct (QueryEscape_clean x) as [-> _]. reflexivity.
Qed.

Lemma flat_map_parse_escaped (k : string) (vs : list string) :
  flat_map parse_field (map (fun x => QueryEscape k ++ "=" ++ QueryEscape x) vs)
  = map (fun x => (k, x)) vs.
Proof.
  induction vs as [|x vs IH]; [reflexivity|].
  cbn [map flat_map]. rewrite parse_field_escaped, IH. reflexivity.
Qed.

(** [ParseQuery] reads back what [Encode] wrote: every pair, whatever bytes
    the names and the values have. *)
Lemma ParseQuery_Encode (v : Values) : ParseQuery (Encode v) = pairs v.
Proof.
  unfold ParseQuery, Encode, pairs, pairs_of.
  set (w := sort_keys v). clearbody w.
  destruct (flat_map
              (fun kv => map (fun x => QueryEscape (fst kv) ++ "=" ++ QueryEscape x) (snd kv))
              w) as [|p ps] eqn:E.
  - simpl. symmetry. revert E. induction w as [|[k vs] w IH]; [reflexivity|].
    simpl. intro E. apply app_eq_nil in E. destruct E as [E1 E2].
    destruct vs; [|discriminate]. simpl. now apply IH.
  - rewrite split_concat; [|discriminate|].
    + rewrite <- E. clear E. induction w as [|[k vs] w IH]; [reflexivity|].
      cbn [flat_map fst snd].
      rewrite flat_map_app, flat_map_parse_escaped, IH. reflexivity.
    + rewrite <- E. intros x Hx. apply in_flat_map in Hx.
      destruct Hx as [[k vs] [_ Hx]]. apply in_map_iff in Hx.
      destruct Hx as [y [<- _]]. apply escaped_pair_clean.
Qed.

End FormFacts.

(** ** goauth2: every answer of the HTTP client *)

Module FlowFacts.
Import GoString JSON Decode HTTP goauth2 Terms FormTerms AuthFacts.

Section WithContext.
Context {Ctx : Type}.

Lemma Authorization_any (ctx : Ctx) (c0 : Client Ctx) (code : string)
    (tr : HTTP.Client Ctx) :
  c c0 = Some tr ->
  Authorization ctx c0 code
  = Returned (Authorization_answer c0 (tr (fst (Authorization_request ctx c0 code)))).
Proof.
  intro Hc.
  destruct (tr (fst (Authorization_request ctx c0 code))) as [resp|e] eqn:Htr.
  - now apply Authorization_run with (tr := tr).
  - unfold Authorization.
    pose proof (Authorization_request_ok ctx c0 code) as Hnone.
    revert Htr Hnone.
    destruct (Authorization_request ctx c0 code) as [req e0]. simpl.
    intros Htr ->. rewrite Hc. unfold Do. rewrite Htr. reflexivity.
Qed.

Lemma Refresh_any (ctx : Ctx) (c0 : Client Ctx) (rt : string) (tr : HTTP.Client Ctx) :
  c c0 = Some tr ->
  Refresh ctx c0 rt
  = Returned (Refresh_answer (set_refreshToken Ctx c0 rt)
                (tr (fst (Refresh_request ctx (set_refreshToken Ctx c0 rt))))).
Proof.
  intro Hc.
  destruct (tr (fst (Refresh_request ctx (set_refreshToken Ctx c0 rt)))) as [resp|e] eqn:Htr.
  - now apply Refresh_run with (tr := tr).
  - unfold Refresh. cbv zeta.
    pose proof (Refresh_request_ok ctx (set_refreshToken Ctx c0 rt)) as Hnone.
    revert Htr Hnone.
    destruct (Refresh_request ctx (set_refreshToken Ctx c0 rt)) as [req e0]. simpl.
    intros Htr ->. rewrite Hc. unfold Do. rewrite Htr. reflexivity.
Qed.

(** Without an HTTP client both calls end in [Do] on a nil pointer. *)
Lemma Authorization_nil (ctx : Ctx) (c0 : Client Ctx) (code : string) :
  c c0 = None ->
  Authorization ctx c0 code
  = Panicked "invalid memory address or nil pointer dereference".
Proof.
  intro Hc. unfold Authorization.
  pose proof (Authorization_request_ok ctx c0 code) as Hnone. revert Hnone.
  destruct (Authorization_request ctx c0 code) as [req e0]. simpl.
  intros ->. now rewrite Hc.
Qed.

Lemma Refresh_nil (ctx : Ctx) (c0 : Client Ctx) (rt : string) :
  c c0 = None ->
  Refresh ctx c0 rt = Panicked "invalid memory address or nil pointer dereference".
Proof.
  intro Hc. unfold Refresh. cbv zeta.
  pose proof (Refresh_request_ok ctx (set_refreshToken Ctx c0 rt)) as Hnone. revert Hnone.
  destruct (Refresh_request ctx (set_refreshToken Ctx c0 rt)) as [req e0]. simpl.
  intros ->. now rewrite Hc.
Qed.

(** The form values of the two requests, read back from the body. *)
Lemma Authorization_request_body (ctx : Ctx) (c0 : Client Ctx) (code : string) :
  URL.ParseQuery (RequestBody (fst (Authorization_request ctx c0 code)))
  = [("access_type", "offline"); ("client_id", clientID c0);
     ("client_secret", clientSecret c0); ("code", code);
     ("grant_type", "authorization_code");
     ("redirect_uri", "urn:ietf:wg:oauth:2.0:oob")].
Proof.
  unfold Authorization_request, NewRequest. cbn [fst RequestBody WithContext with_header].
  rewrite FormFacts.ParseQuery_Encode. reflexivity.
Qed.


End WithContext.
End FlowFacts.



(** ** goauth2: what a call leaves in the client *)

Module OutcomeFacts.
Import GoString JSON Decode HTTP goauth2 Terms FormTerms DecodeFacts AuthFacts
  TokenFacts.

Lemma set_keeps_ExpiresIn (g : string) (x : value) (t : AuthorizationResponse) :
  g <> "expires_in" ->
  ExpiresIn (fst (set_AuthorizationResponse g x t)) = ExpiresIn t.
Proof.
  intro Hg. unfold set_AuthorizationResponse. other_field;
    try match goal with
      | |- context [decode_string ?v ?o] => destruct (decode_string v o)
      | |- context [decode_int64 ?v ?o] => destruct (decode_int64 v o)
      end; reflexivity.
Qed.

Lemma missing_expires_in (j : value) :
  has_field AuthorizationResponse_fields "expires_in" j = false ->
  ExpiresIn (fst (decode_AuthorizationResponse j zero_AuthorizationResponse)) = 0.
Proof.
  intro Hmiss.
  apply (decode_struct_missing (fun t => ExpiresIn t = 0)) with (f := "expires_in").
  - exact Hmiss.
  - intros g x t Hg Ht. now rewrite set_keeps_ExpiresIn.
  - reflexivity.
Qed.

Section WithContext.
Context {Ctx : Type}.

Lemma Authorization_answer_identity (c0 : Client Ctx) (a : Response + error) :
  same_identity (state (Authorization_answer c0 a)) c0.
Proof.
  destruct a as [resp|e]; [|repeat split].
  unfold Authorization_answer, Authorization_on.
  destruct (read_error (Body resp)) as [e|];
    destruct (Unmarshal decode_AuthorizationResponse (content (Body resp))
                zero_AuthorizationResponse) as [response [e'|]];
    repeat split.
Qed.

Lemma Authorization_answer_failure (c0 : Client Ctx) (a : Response + error) :
  err (Authorization_answer c0 a) <> None -> state (Authorization_answer c0 a) = c0.
Proof.
  destruct a as [resp|e]; [|reflexivity].
  unfold Authorization_answer, Authorization_on.
  destruct (read_error (Body resp)) as [e|];
    destruct (Unmarshal decode_AuthorizationResponse (content (Body resp))
                zero_AuthorizationResponse) as [response [e'|]];
    simpl; congruence.
Qed.

Lemma Refresh_answer_identity (c1 : Client Ctx) (a : Response + error) :
  same_identity (state (Refresh_answer c1 a)) c1.
Proof.
  destruct a as [resp|e]; [|repeat split].
  unfold Refresh_answer, Refresh_on.
  destruct (read_error (Body resp)) as [e|];
    destruct (Unmarshal decode_AuthorizationResponse (content (Body resp))
                zero_AuthorizationResponse) as [response [e'|]];
    try (repeat split; fail).
  cbv zeta.
  destruct (String.eqb (AccessToken response) EmptyString);
    destruct (String.eqb (RefreshToken response) EmptyString); repeat split.
Qed.

Lemma Refresh_answer_failure (c1 : Client Ctx) (a : Response + error) :
  err (Refresh_answer c1 a) <> None -> state (Refresh_answer c1 a) = c1.
Proof.
  destruct a as [resp|e]; [|reflexivity].
  unfold Refresh_answer, Refresh_on.
  destruct (read_error (Body resp)) as [e|];
    destruct (Unmarshal decode_AuthorizationResponse (content (Body resp))
                zero_AuthorizationResponse) as [response [e'|]];
    simpl; congruence.
Qed.

(** The requests depend on the client id and secret only (and, for
    [Refresh], on the refresh token). *)
Lemma Authorization_request_ext (ctx : Ctx) (c1 c2 : Client Ctx) (code : string) :
  same_identity c1 c2 ->
  Authorization_request ctx c1 code = Authorization_request ctx c2 code.
Proof.
  intros [_ [Hid [Hsec _]]]. unfold Authorization_request. now rewrite Hid, Hsec.
Qed.

Lemma Refresh_request_ext (ctx : Ctx) (c1 c2 : Client Ctx) (rt : string) :
  same_identity c1 c2 ->
  Refresh_request ctx (set_refreshToken Ctx c1 rt)
  = Refresh_request ctx (set_refreshToken Ctx c2 rt).
Proof.
  intros [_ [Hid [Hsec _]]]. unfold Refresh_request. simpl. now rewrite Hid, Hsec.
Qed.

Lemma Authorization_answer_again (c0 : Client Ctx) (a : Response + error) :
  Authorization_answer (state (Authorization_answer c0 a)) a = Authorization_answer c0 a.
Proof.
  destruct a as [resp|e]; [|reflexivity].
  unfold Authorization_answer, Authorization_on.
  destruct (read_error (Body resp)) as [e|];
    destruct (Unmarshal decode_AuthorizationResponse (content (Body resp))
                zero_AuthorizationResponse) as [response [e'|]];
    reflexivity.
Qed.

Lemma Refresh_answer_again (c0 : Client Ctx) (rt : string) (a : Response + error) :
  Refresh_answer
    (set_refreshToken Ctx (state (Refresh_answer (set_refreshToken Ctx c0 rt) a)) rt) a
  = Refresh_answer (set_refreshToken Ctx c0 rt) a.
Proof.
  destruct a as [resp|e]; [|reflexivity].
  unfold Refresh_answer, Refresh_on.
  destruct (read_error (Body resp)) as [e|];
    destruct (Unmarshal decode_AuthorizationResponse (content (Body resp))
                zero_AuthorizationResponse) as [response [e'|]];
    try reflexivity.
  cbv zeta.
  destruct (String.eqb (AccessToken response) EmptyString);
    destruct (String.eqb (RefreshToken response) EmptyString); reflexivity.
Qed.

End WithContext.
End OutcomeFacts.

(** X3. [Authorization] is all or nothing: whenever it returns an error,
    whether the HTTP client failed, the body could not be read or the body
    could not be decoded, the client is exactly as it was before the call;
    and in every case the HTTP client, the client id, the client secret and
    the scope are what they were. *)
Theorem Authorization_failure_keeps_client :
  forall (Ctx : Type) (ctx : Ctx) (c0 : goauth2.Client Ctx) (code : string)
         (res : goauth2.result Ctx),
    goauth2.Authorization ctx c0 code = Returned res ->
    (goauth2.err res <> None -> goauth2.state res = c0)
    /\ FormTerms.same_identity (goauth2.state res) c0.
Proof.
  intros Ctx ctx c0 code res Hres.
  destruct (goauth2.c c0) as [tr|] eqn:Hc.
  - rewrite (FlowFacts.Authorization_any ctx c0 code tr Hc) in Hres.
    injection Hres as <-. split.
    + apply OutcomeFacts.Authorization_answer_failure.
    + apply OutcomeFacts.Authorization_answer_identity.
  - rewrite (FlowFacts.Authorization_nil ctx c0 code Hc) in Hres. discriminate.
Qed.

Lemma Authorization_failure_keeps_client_witness :
  let tr : HTTP.Client unit :=
    fun _ => inr (URLError "Post" "https://www.googleapis.com/oauth2/v4/token" "timeout") in
  let c0 := goauth2.mkClient (Some tr) "id" "secret" "A1" 3600 "R1" "scope" in
  let res :=
    goauth2.mkResult c0
      (Some (failure_Wrap
               (URLError "Post" "https://www.googleapis.com/oauth2/v4/token" "timeout")))
      [] in
  goauth2.Authorization tt c0 "4/code" = Returned res
  /\ goauth2.state res = c0.
Proof.
  intros tr c0 res. split; [reflexivity|].
  apply (Authorization_failure_keeps_client unit tt c0 "4/code" res eq_refl).
  discriminate.
Defined.

(** X4. Whenever [Refresh] returns an error, whatever its cause, the client
    differs from what it was in one field only: the refresh token, which is
    the argument of the call; the access token and its expiry are kept.  In
    every case the HTTP client, the client id, the client secret and the
    scope are what they were. *)
Theorem Refresh_failure_keeps_access_token :
  forall (Ctx : Type) (ctx : Ctx) (c0 : goauth2.Client Ctx) (refreshToken : string)
         (res : goauth2.result Ctx),
    goauth2.Refresh ctx c0 refreshToken = Returned res ->
    (goauth2.err res <> None ->
     goauth2.state res = goauth2.set_refreshToken Ctx c0 refreshToken)
    /\ FormTerms.same_identity (goauth2.state res) c0.
Proof.
  intros Ctx ctx c0 rt res Hres.
  destruct (goauth2.c c0) as [tr|] eqn:Hc.
  - rewrite (FlowFacts.Refresh_any ctx c0 rt tr Hc) in Hres.
    injection Hres as <-. split.
    + apply OutcomeFacts.Refresh_answer_failure.
    + apply (OutcomeFacts.Refresh_answer_identity (goauth2.set_refreshToken Ctx c0 rt)).
  - rewrite (FlowFacts.Refresh_nil ctx c0 rt Hc) in Hres. discriminate.
Qed.

Lemma Refresh_failure_keeps_access_token_witness :
  let tr : HTTP.Client unit :=
    fun _ => inl (HTTP.mkResponse 200 "200 OK" []
                    (HTTP.mkBody (GoString.q "{'access_")
                       (Some (BodyReadError "unexpected EOF")))) in
  let c0 := goauth2.mkClient (Some tr) "id" "secret" "A1" 3600 "R1" "scope" in
  let res :=
    goauth2.mkResult (goauth2.mkClient (Some tr) "id" "secret" "A1" 3600 "R9" "scope")
      (Some (failure_Wrap (BodyReadError "unexpected EOF"))) [] in
  goauth2.Refresh tt c0 "R9" = Returned res
  /\ goauth2.state res = goauth2.set_refreshToken unit c0 "R9".
Proof.
  intros tr c0 res. split; [reflexivity|].
  apply (Refresh_failure_keeps_access_token unit tt c0 "R9" res eq_refl).
  discriminate.
Defined.

(** X5. Calling [Authorization] again with the same code, the HTTP client
    answering as it did, returns what the first call returned and leaves the
    client as the first call left it. *)
Theorem Authorization_again_same_result :
  forall (Ctx : Type) (ctx : Ctx) (c0 : goauth2.Client Ctx) (code : string)
         (res : goauth2.result Ctx),
    goauth2.Authorization ctx c0 code = Returned res ->
    goauth2.Authorization ctx (goauth2.state res) code = Returned res.
Proof.
  intros Ctx ctx c0 code res Hres.
  destruct (goauth2.c c0) as [tr|] eqn:Hc.
  - pose proof (FlowFacts.Authorization_any ctx c0 code tr Hc) as Hany.
    set (a := tr (fst (goauth2.Authorization_request ctx c0 code))) in Hany.
    assert (E : res = FormTerms.Authorization_answer c0 a) by congruence.
    rewrite E. clear E Hany Hres.
    pose proof (OutcomeFacts.Authorization_answer_identity c0 a) as Hsame.
    rewrite (FlowFacts.Authorization_any ctx
               (goauth2.state (FormTerms.Authorization_answer c0 a)) code tr);
      [|destruct Hsame as [-> _]; exact Hc].
    rewrite (OutcomeFacts.Authorization_request_ext ctx _ c0 code Hsame).
    fold a. now rewrite OutcomeFacts.Authorization_answer_again.
  - rewrite (FlowFacts.Authorization_nil ctx c0 code Hc) in Hres. discriminate.
Qed.

Lemma Authorization_again_same_result_witness :
  let body := GoString.q "{'access_token':'A','refresh_token':'R','expires_in':3600}" in
  let tr : HTTP.Client unit :=
    fun _ => inl (HTTP.mkResponse 200 "200 OK" [] (HTTP.mkBody body None)) in
  let c0 := goauth2.mkClient (Some tr) "id" "secret" "A0" 1 "R0" "scope" in
  let c1 := goauth2.mkClient (Some tr) "id" "secret" "A" 3600 "R" "scope" in
  goauth2.Authorization tt c0 "4/code" = Returned (goauth2.mkResult c1 None [])
  /\ goauth2.Authorization tt c1 "4/code" = Returned (goauth2.mkResult c1 None []).
Proof.
  intros body tr c0 c1.
  assert (H : goauth2.Authorization tt c0 "4/code"
              = Returned (goauth2.mkResult c1 None [])) by (vm_compute; reflexivity).
  split; [exact H|].
  exact (Authorization_again_same_result unit tt c0 "4/code" _ H).
Defined.

(** X6. Calling [Refresh] again with the same refresh token, the HTTP
    client answering as it did, returns what the first call returned and
    leaves the client as the first call left it: a retry changes nothing. *)
Theorem Refresh_again_same_result :
  forall (Ctx : Type) (ctx : Ctx) (c0 : goauth2.Client Ctx) (refreshToken : string)
         (res : goauth2.result Ctx),
    goauth2.Refresh ctx c0 refreshToken = Returned res ->
    goauth2.Refresh ctx (goauth2.state res) refreshToken = Returned res.
Proof.
  intros Ctx ctx c0 rt res Hres.
  destruct (goauth2.c c0) as [tr|] eqn:Hc.
  - pose proof (FlowFacts.Refresh_any ctx c0 rt tr Hc) as Hany.
    set (a := tr (fst (goauth2.Refresh_request ctx (goauth2.set_refreshToken Ctx c0 rt))))
      in Hany.
    assert (E : res = FormTerms.Refresh_answer (goauth2.set_refreshToken Ctx c0 rt) a)
      by congruence.
    rewrite E. clear E Hany Hres.
    pose proof (OutcomeFacts.Refresh_answer_identity
                  (goauth2.set_refreshToken Ctx c0 rt) a) as Hsame.
    assert (Hsame0 : FormTerms.same_identity
                       (goauth2.state
                          (FormTerms.Refresh_answer (goauth2.set_refreshToken Ctx c0 rt) a))
                       c0) by exact Hsame.
    rewrite (FlowFacts.Refresh_any ctx
               (goauth2.state
                  (FormTerms.Refresh_answer (goauth2.set_refreshToken Ctx c0 rt) a))
               rt tr);
      [|destruct Hsame0 as [-> _]; exact Hc].
    rewrite (OutcomeFacts.Refresh_request_ext ctx _ c0 rt Hsame0).
    fold a. now rewrite OutcomeFacts.Refresh_answer_again.
  - rewrite (FlowFacts.Refresh_nil ctx c0 rt Hc) in Hres. discriminate.
Qed.

Lemma Refresh_again_same_result_witness :
  let body := GoString.q "{'access_token':'A2','expires_in':3599}" in
  let tr : HTTP.Client unit :=
    fun _ => inl (HTTP.mkResponse 200 "200 OK" [] (HTTP.mkBody body None)) in
  let c0 := goauth2.mkClient (Some tr) "id" "secret" "A1" 1 "R0" "scope" in
  let c1 := goauth2.mkClient (Some tr) "id" "secret" "A2" 3599 "R1" "scope" in
  goauth2.Refresh tt c0 "R1" = Returned (goauth2.mkResult c1 None [])
  /\ goauth2.Refresh tt c1 "R1" = Returned (goauth2.mkResult c1 None []).
Proof.
  intros body tr c0 c1.
  assert (H : goauth2.Refresh tt c0 "R1"
              = Returned (goauth2.mkResult c1 None [])) by (vm_compute; reflexivity).
  split; [exact H|].
  exact (Refresh_again_same_result unit tt c0 "R1" _ H).
Defined.


(** X8. A successful [Authorization] stores empty what the response does
    not carry: after a response without a refresh token member
    [GetRefreshToken] returns the empty string, whatever refresh token was
    stored before (the sign on which [main] asks for a code again); without
    an access token member [GetAccessToken] returns the empty string; and
    without an expiry member the stored expiry is zero. *)
Theorem Authorization_missing_fields_stored_empty :
  forall (Ctx : Type) (ctx : Ctx) (c0 : goauth2.Client Ctx) (code : string)
         (tr : HTTP.Client Ctx) (resp : HTTP.Response) (j : JSON.value),
    goauth2.c c0 = Some tr ->
    tr (fst (goauth2.Authorization_request ctx c0 code)) = inl resp ->
    HTTP.read_error (HTTP.Body resp) = None ->
    JSON.parse (HTTP.content (HTTP.Body resp)) = Some j ->
    exists res,
      goauth2.Authorization ctx c0 code = Returned res
      /\ (goauth2.err res = None ->
          (Terms.has_field goauth2.AuthorizationResponse_fields "refresh_token" j = false ->
           goauth2.GetRefreshToken (goauth2.state res) = EmptyString)
          /\ (Terms.has_field goauth2.AuthorizationResponse_fields "access_token" j = false ->
              goauth2.GetAccessToken (goauth2.state res) = EmptyString)
          /\ (Terms.has_field goauth2.AuthorizationResponse_fields "expires_in" j = false ->
              goauth2.accessTokenExpire (goauth2.state res) = 0)).
Proof.
  intros Ctx ctx c0 code tr resp j Hc Htr Hread Hparse.
  eexists. split; [apply (AuthFacts.Authorization_run ctx c0 code tr resp Hc Htr)|].
  unfold Terms.Authorization_on, Decode.Unmarshal. rewrite Hread, Hparse.
  pose proof (TokenFacts.missing_access_token j) as Ha.
  pose proof (TokenFacts.missing_refresh_token j) as Hr.
  pose proof (OutcomeFacts.missing_expires_in j) as He.
  destruct (goauth2.decode_AuthorizationResponse j goauth2.zero_AuthorizationResponse)
    as [response [e|]]; simpl in Ha, Hr, He; simpl.
  - discriminate.
  - intros _. repeat split; assumption.
Qed.

Lemma Authorization_missing_fields_stored_empty_witness :
  let body := GoString.q "{'access_token':'A','token_type':'Bearer'}" in
  let tr : HTTP.Client unit :=
    fun _ => inl (HTTP.mkResponse 200 "200 OK" [] (HTTP.mkBody body None)) in
  let c0 := goauth2.mkClient (Some tr) "id" "secret" "A0" 1 "R0" "scope" in
  exists res,
    goauth2.Authorization tt c0 "4/code" = Returned res
    /\ goauth2.err res = None
    /\ goauth2.GetRefreshToken c0 = "R0"
    /\ goauth2.GetRefreshToken (goauth2.state res) = EmptyString
    /\ goauth2.accessTokenExpire (goauth2.state res) = 0.
Proof.
  intros body tr c0.
  destruct (Authorization_missing_fields_stored_empty unit tt c0 "4/code" tr
              (HTTP.mkResponse 200 "200 OK" [] (HTTP.mkBody body None))
              (JSON.JObject [("access_token", JSON.JString "A");
                             ("token_type", JSON.JString "Bearer")])
              eq_refl eq_refl eq_refl eq_refl)
    as [res [Hres Hmiss]].
  exists res. split; [exact Hres|].
  assert (Herr : goauth2.err res = None).
  { vm_compute in Hres. injection Hres as <-. reflexivity. }
  destruct (Hmiss Herr) as [Hr [_ He]].
  split; [exact Herr|]. split; [reflexivity|].
  split; [apply Hr; reflexivity | apply He; reflexivity].
Defined.

(** X9. A [Refresh] whose response decodes without an error succeeds, and
    the expiry follows the access token: a non-empty access token is stored
    together with the expiry of the response (zero when the response has no
    expiry member), while with an empty access token the stored access token
    and expiry are kept even when the response has an expiry.  A non-empty
    refresh token of the response replaces the argument of the call. *)
Theorem Refresh_expiry_follows_access_token :
  forall (Ctx : Type) (ctx : Ctx) (c0 : goauth2.Client Ctx) (refreshToken : string)
         (tr : HTTP.Client Ctx) (resp : HTTP.Response) (j : JSON.value)
         (response : goauth2.AuthorizationResponse),
    goauth2.c c0 = Some tr ->
    tr (fst (goauth2.Refresh_request ctx
               (goauth2.set_refreshToken Ctx c0 refreshToken))) = inl resp ->
    HTTP.read_error (HTTP.Body resp) = None ->
    JSON.parse (HTTP.content (HTTP.Body resp)) = Some j ->
    goauth2.decode_AuthorizationResponse j goauth2.zero_AuthorizationResponse
    = (response, None) ->
    exists res,
      goauth2.Refresh ctx c0 refreshToken = Returned res
      /\ goauth2.err res = None
      /\ (goauth2.AccessToken response <> EmptyString ->
          goauth2.accessToken (goauth2.state res) = goauth2.AccessToken response
          /\ goauth2.accessTokenExpire (goauth2.state res) = goauth2.ExpiresIn response
          /\ (Terms.has_field goauth2.AuthorizationResponse_fields "expires_in" j = false ->
              goauth2.accessTokenExpire (goauth2.state res) = 0))
      /\ (goauth2.AccessToken response = EmptyString ->
          goauth2.accessToken (goauth2.state res) = goauth2.accessToken c0
          /\ goauth2.accessTokenExpire (goauth2.state res) = goauth2.accessTokenExpire c0)
      /\ (goauth2.RefreshToken response <> EmptyString ->
          goauth2.refreshToken (goauth2.state res) = goauth2.RefreshToken response).
Proof.
  intros Ctx ctx c0 rt tr resp j response Hc Htr Hread Hparse Hdec.
  eexists. split; [apply (AuthFacts.Refresh_run ctx c0 rt tr resp Hc Htr)|].
  unfold Terms.Refresh_on, Decode.Unmarshal. rewrite Hread, Hparse, Hdec.
  pose proof (OutcomeFacts.missing_expires_in j) as He. rewrite Hdec in He. simpl in He.
  cbv zeta.
  destruct (String.eqb (goauth2.AccessToken response) EmptyString) eqn:Ea;
    destruct (String.eqb (goauth2.RefreshToken response) EmptyString) eqn:Er;
    simpl.
  all: split; [reflexivity|].
  all: split;
    [intro Hne; try (apply String.eqb_eq in Ea; congruence);
     try (split; [reflexivity|split; [reflexivity|exact He]])|].
  all: split;
    [intro Heq; try (rewrite Heq in Ea; discriminate); try (split; reflexivity)|].
  all: intro Hne; try (apply String.eqb_eq in Er; congruence); try reflexivity.
Qed.

Lemma Refresh_expiry_follows_access_token_witness :
  let body := GoString.q "{'access_token':'A2','refresh_token':'R2'}" in
  let tr : HTTP.Client unit :=
    fun _ => inl (HTTP.mkResponse 200 "200 OK" [] (HTTP.mkBody body None)) in
  let c0 := goauth2.mkClient (Some tr) "id" "secret" "A1" 3600 "R0" "scope" in
  exists res,
    goauth2.Refresh tt c0 "R1" = Returned res
    /\ goauth2.accessToken (goauth2.state res) = "A2"
    /\ goauth2.accessTokenExpire (goauth2.state res) = 0
    /\ goauth2.refreshToken (goauth2.state res) = "R2".
Proof.
  intros body tr c0.
  destruct (Refresh_expiry_follows_access_token unit tt c0 "R1" tr
              (HTTP.mkResponse 200 "200 OK" [] (HTTP.mkBody body None))
              (JSON.JObject [("access_token", JSON.JString "A2");
                             ("refresh_token", JSON.JString "R2")])
              (goauth2.mkAuthorizationResponse "A2" EmptyString 0 EmptyString "R2")
              eq_refl eq_refl eq_refl eq_refl eq_refl)
    as [res [Hres [_ [Ha [_ Hr]]]]].
  exists res. split; [exact Hres|].
  destruct Ha as [Ha [_ He]]; [discriminate|].
  split; [exact Ha|]. split; [apply He; reflexivity|].
  apply Hr. discriminate.
Defined.

(** ** The authorization URL of a client with scopes *)

Module ScopeURIFacts.
Import GoString URL goauth2 Terms StringFacts QueryFacts OAuthURIFacts.

(** Cutting at a byte goes past a text that has none and past another
    byte. *)
Lemma fst_cut_past (n : N) (a : string) (x : ascii) (rest : string) :
  contains_byte n a = false -> (code x =? n)%N = false ->
  fst (cut n (a ++ String x rest)) = a ++ String x (fst (cut n rest)).
Proof.
  intros Ha Hx. induction a as [|y a IH]; simpl.
  - rewrite Hx. destruct (cut n rest). reflexivity.
  - simpl in Ha. apply Bool.orb_false_iff in Ha. destruct Ha as [Hy Ha].
    rewrite Hy. specialize (IH Ha).
    destruct (cut n (a ++ String x rest)). simpl in *. now rewrite IH.
Qed.

(** The parameters of the authorization URL when the scope is a plain text
    followed by an ampersand and anything. *)
Lemma query_parameters_first_scope {Ctx : Type} (c0 : Client Ctx) (s1 tail : string) :
  plain (clientID c0) = true -> plain s1 = true ->
  scope c0 = s1 ++ String "&" tail ->
  query_parameters (GetOAuthURI c0)
  = ([("client_id", clientID c0); ("redirect_uri", "urn:ietf:wg:oauth:2.0:oob");
      ("scope", s1)]
     ++ ParseQuery (fst (cut 35 (tail ++ "&access_type=offline&response_type=code"))))%list.
Proof.
  intros Hid Hs1 Hscope.
  destruct (plain_spec _ Hid) as [Hid38 [Hid35 _]].
  destruct (plain_spec _ Hs1) as [Hs38 [Hs35 _]].
  rewrite GetOAuthURI_text, Hscope.
  replace (("scope" ++ String "=" (s1 ++ String "&" tail))
           ++ String "&" "access_type=offline&response_type=code")
    with (("scope" ++ String "=" s1)
          ++ String "&" (tail ++ "&access_type=offline&response_type=code"))
    by (simpl; rewrite !append_assoc; reflexivity).
  set (T := tail ++ "&access_type=offline&response_type=code").
  unfold query_parameters, RawQuery.
  rewrite (fst_cut_past 35 "https://accounts.google.com/o/oauth2/v2/auth" "?")
    by reflexivity.
  rewrite (fst_cut_past 35 EmptyString "&") by reflexivity.
  rewrite (fst_cut_past 35 ("client_id" ++ String "=" (clientID c0)) "&");
    [|rewrite contains_byte_app; simpl; exact Hid35|reflexivity].
  rewrite (fst_cut_past 35 "redirect_uri=urn:ietf:wg:oauth:2.0:oob" "&") by reflexivity.
  rewrite (fst_cut_past 35 ("scope" ++ String "=" s1) "&");
    [|rewrite contains_byte_app; simpl; exact Hs35|reflexivity].
  rewrite (cut_at 63 "https://accounts.google.com/o/oauth2/v2/auth" "?") by reflexivity.
  cbn [snd]. unfold ParseQuery.
  rewrite (split_at 38 EmptyString "&") by reflexivity.
  rewrite (split_at 38 ("client_id" ++ String "=" (clientID c0)) "&");
    [|rewrite contains_byte_app; simpl; exact Hid38|reflexivity].
  rewrite (split_at 38 "redirect_uri=urn:ietf:wg:oauth:2.0:oob" "&") by reflexivity.
  rewrite (split_at 38 ("scope" ++ String "=" s1) "&");
    [|rewrite contains_byte_app; simpl; exact Hs38|reflexivity].
  cbn [flat_map].
  rewrite (parse_field_plain "client_id" (clientID c0)) by (try discriminate; auto).
  rewrite (parse_field_plain "scope" s1) by (try discriminate; auto).
  reflexivity.
Qed.

End ScopeURIFacts.

(** X10. The URL [main] prints: for a client made by [NewClient], given the
    one scope of the photo library with [WithScopes] and an HTTP client with
    [WithHTTPClient], and a client id without ampersand, number sign, percent
    sign or plus, the query of [GetOAuthURI] has exactly the five parameters
    of the authorization request, the scope being the read-only scope of the
    photo library. *)
Theorem main_authorization_url :
  forall (Ctx : Type) (clientID clientSecret : string) (tr : HTTP.Client Ctx),
    Terms.plain clientID = true ->
    exists c1 : goauth2.Client Ctx,
      goauth2.WithScopes (goauth2.NewClient clientID clientSecret)
        [gphoto.ScopeLibraryReadOnly] = Returned c1
      /\ URL.query_parameters (goauth2.GetOAuthURI (goauth2.WithHTTPClient c1 tr))
         = [("client_id", clientID);
            ("redirect_uri", "urn:ietf:wg:oauth:2.0:oob");
            ("scope", "https://www.googleapis.com/auth/photoslibrary.readonly");
            ("access_type", "offline");
            ("response_type", "code")].
Proof.
  intros Ctx clientID clientSecret tr Hid.
  eexists. split; [apply ScopeFacts.WithScopes_cons|].
  rewrite OAuthURIFacts.query_parameters_plain; [reflexivity|exact Hid|reflexivity].
Qed.

Lemma main_authorization_url_witness :
  exists c1 : goauth2.Client unit,
    goauth2.WithScopes (goauth2.NewClient "1234.apps.googleusercontent.com" "secret")
      [gphoto.ScopeLibraryReadOnly] = Returned c1
    /\ URL.query_parameters
         (goauth2.GetOAuthURI
            (goauth2.WithHTTPClient c1
               (fun _ => inr (URLError "Post" EmptyString "timeout"))))
       = [("client_id", "1234.apps.googleusercontent.com");
          ("redirect_uri", "urn:ietf:wg:oauth:2.0:oob");
          ("scope", "https://www.googleapis.com/auth/photoslibrary.readonly");
          ("access_type", "offline");
          ("response_type", "code")].
Proof.
  exact (main_authorization_url unit "1234.apps.googleusercontent.com" "secret"
           (fun _ => inr (URLError "Post" EmptyString "timeout")) eq_refl).
Defined.

(** X11. With two scopes or more, [WithScopes] followed by [GetOAuthURI]
    gives a URL whose scope parameter is the first scope alone: the
    ampersand that joins the scopes ends the parameter, and what follows the
    first scope is read as further parameters.  (The client id and the first
    scope have no ampersand, number sign, percent sign or plus.) *)
Theorem GetOAuthURI_scope_is_first_scope :
  forall (Ctx : Type) (c : goauth2.Client Ctx) (s1 s2 : string) (rest : list string),
    Terms.plain (goauth2.clientID c) = true ->
    Terms.plain s1 = true ->
    exists c1 : goauth2.Client Ctx,
      goauth2.WithScopes c (s1 :: s2 :: rest) = Returned c1
      /\ URL.query_parameters (goauth2.GetOAuthURI c1)
         = ([("client_id", goauth2.clientID c);
             ("redirect_uri", "urn:ietf:wg:oauth:2.0:oob");
             ("scope", s1)]
            ++ URL.ParseQuery
                 (fst (URL.cut 35 (String.concat "&" (s2 :: rest)
                                   ++ "&access_type=offline&response_type=code"))))%list.
Proof.
  intros Ctx c s1 s2 rest Hid Hs1.
  eexists. split; [apply ScopeFacts.WithScopes_cons|].
  apply (ScopeURIFacts.query_parameters_first_scope
           (goauth2.set_scope Ctx c (String.concat "&" (s1 :: s2 :: rest)))
           s1 (String.concat "&" (s2 :: rest)) Hid Hs1).
  reflexivity.
Qed.

Lemma GetOAuthURI_scope_is_first_scope_witness :
  exists c1 : goauth2.Client unit,
    goauth2.WithScopes (goauth2.NewClient "id" "secret") ["photos"; "drive"] = Returned c1
    /\ URL.query_parameters (goauth2.GetOAuthURI c1)
       = [("client_id", "id");
          ("redirect_uri", "urn:ietf:wg:oauth:2.0:oob");
          ("scope", "photos");
          ("drive", EmptyString);
          ("access_type", "offline");
          ("response_type", "code")].
Proof.
  exact (GetOAuthURI_scope_is_first_scope unit (goauth2.NewClient "id" "secret")
           "photos" "drive" [] eq_refl eq_refl).
Defined.

(** ** gphoto and the program: every answer to a search *)

Module CollectFacts.
Import GoString JSON Decode HTTP gphoto Terms FormTerms neko SearchFacts.

(** A member whose key names no field is skipped. *)
Lemma decode_member_skips {T : Type} (fields : list string)
    (set : string -> decoder T) (acc : T * option error) (m : string * value) :
  find_field fields (fst m) = None -> decode_member fields set acc m = acc.
Proof. intro Hk. unfold decode_member. now rewrite Hk. Qed.

Lemma decode_struct_skips {T : Type} (ty : string) (fields : list string)
    (set : string -> decoder T) (ms1 ms2 : list (string * value))
    (k : string) (v : value) (old : T) :
  find_field fields k = None ->
  decode_struct ty fields set (JObject (ms1 ++ (k, v) :: ms2)) old
  = decode_struct ty fields set (JObject (ms1 ++ ms2)) old.
Proof.
  intro Hk. unfold decode_struct. rewrite !fold_left_app. cbn [fold_left].
  now rewrite (decode_member_skips fields set _ (k, v)).
Qed.

Section WithFloat.
Context {float64 Ctx : Type}.
Variable float64_zero : float64.
Variable ParseFloat : string -> option float64.

Lemma print_items_spec (items : list (option (MediaItem float64))) :
  printed (print_items items) = map ProductURL (before_nil items)
  /\ ended (print_items items)
     = if has_nil items
       then Panicked "invalid memory address or nil pointer dereference"
       else Returned tt.
Proof.
  induction items as [|[item|] items [IH1 IH2]]; simpl; try (split; reflexivity).
  rewrite IH1, IH2. split; reflexivity.
Qed.

(** A null element of the array is a nil item of the slice. *)
Lemma decode_elems_null (elems : list value) :
  In JNull elems ->
  has_nil (fst (decode_elems None
                  (decode_ptr zero_MediaItem (decode_MediaItem float64_zero ParseFloat))
                  elems)) = true.
Proof.
  induction elems as [|v elems IH]; [contradiction|].
  intros [Hv|Hin]; simpl.
  - subst v. simpl.
    destruct (decode_elems None
                (decode_ptr zero_MediaItem (decode_MediaItem float64_zero ParseFloat))
                elems). reflexivity.
  - specialize (IH Hin).
    destruct (decode_ptr zero_MediaItem (decode_MediaItem float64_zero ParseFloat) v None)
      as [t e].
    destruct (decode_elems None
                (decode_ptr zero_MediaItem (decode_MediaItem float64_zero ParseFloat))
                elems) as [ts e'].
    simpl in *. rewrite IH. apply Bool.orb_true_r.
Qed.

(** The search of [main] and what follows it. *)
Lemma main_search_run (tr : HTTP.Client Ctx) (bg : Ctx) (oauth2 : goauth2.Client Ctx) :
  main_search float64_zero ParseFloat tr bg oauth2
  = match filled (search_outcome float64_zero ParseFloat
                    (tr (wire_request bg (goauth2.GetAccessToken oauth2)
                           (Some pets_request)))
                    (wire_request bg (goauth2.GetAccessToken oauth2)
                       (Some pets_request))) with
    | Some resp => print_items (MediaItems resp)
    | None => mkRun [] (Panicked "invalid memory address or nil pointer dereference")
    end.
Proof.
  unfold main_search.
  rewrite (MediaItemsSearch_run float64_zero ParseFloat
             (NewClient (Some tr) (goauth2.GetAccessToken oauth2)) bg
             (Some pets_request) tr eq_refl).
  reflexivity.
Qed.

End WithFloat.
End CollectFacts.

(** X12. Each call of [MediaItemsSearch] on a client with an HTTP client
    hands it exactly one request, also when the call fails; a nil request is
    sent as the JSON text null.  When the HTTP client fails, when the body
    cannot be read and when the body is not JSON, the error returned is the
    error met wrapped, and the response returned is the zero value. *)
Theorem MediaItemsSearch_sends_one_request :
  forall (float64 Ctx : Type) (float64_zero : float64)
         (ParseFloat : string -> option float64)
         (tr : HTTP.Client Ctx) (token : string) (ctx : Ctx)
         (req : option gphoto.MediaItemsSearchRequest),
    exists x,
      gphoto.MediaItemsSearch float64_zero ParseFloat
        (gphoto.NewClient (Some tr) token) ctx req = Returned x
      /\ gphoto.sent x = [Terms.wire_request ctx token req]
      /\ HTTP.RequestBody (Terms.wire_request ctx token None) = "null"
      /\ (forall e, tr (Terms.wire_request ctx token req) = inr e ->
            gphoto.err x = Some (failure_Wrap e)
            /\ gphoto.filled x = Some gphoto.zero_MediaItemsSearchResponse)
      /\ (forall resp e,
            tr (Terms.wire_request ctx token req) = inl resp ->
            HTTP.read_error (HTTP.Body resp) = Some e ->
            gphoto.err x = Some (failure_Wrap e)
            /\ gphoto.filled x = Some gphoto.zero_MediaItemsSearchResponse)
      /\ (forall resp,
            tr (Terms.wire_request ctx token req) = inl resp ->
            HTTP.read_error (HTTP.Body resp) = None ->
            JSON.parse (HTTP.content (HTTP.Body resp)) = None ->
            gphoto.err x = Some (failure_Wrap SyntaxError)
            /\ gphoto.filled x = Some gphoto.zero_MediaItemsSearchResponse).
Proof.
  intros float64 Ctx float64_zero ParseFloat tr token ctx req.
  eexists. split; [apply SearchFacts.MediaItemsSearch_run; reflexivity|].
  simpl gphoto.token. unfold Terms.search_outcome.
  split.
  { destruct (tr (Terms.wire_request ctx token req)) as [resp|e]; [|reflexivity].
    destruct (HTTP.read_error (HTTP.Body resp)); [reflexivity|].
    destruct (Decode.Unmarshal _ _ _); reflexivity. }
  split; [reflexivity|].
  split; [|split].
  - intros e ->. split; reflexivity.
  - intros resp e -> ->. split; reflexivity.
  - intros resp -> -> Hparse. unfold Decode.Unmarshal. rewrite Hparse.
    split; reflexivity.
Qed.

(** X13. A member of the response object whose key names no field of the
    search response is skipped: the response with the member and the
    response without it give the same decoded response and the same
    error. *)
Theorem MediaItemsSearch_ignores_unknown_members :
  forall (float64 Ctx : Type) (float64_zero : float64)
         (ParseFloat : string -> option float64)
         (tr1 tr2 : HTTP.Client Ctx) (token : string) (ctx : Ctx)
         (req : option gphoto.MediaItemsSearchRequest)
         (resp1 resp2 : HTTP.Response)
         (ms1 ms2 : list (string * JSON.value)) (k : string) (v : JSON.value),
    Decode.find_field gphoto.MediaItemsSearchResponse_fields k = None ->
    tr1 (Terms.wire_request ctx token req) = inl resp1 ->
    tr2 (Terms.wire_request ctx token req) = inl resp2 ->
    HTTP.read_error (HTTP.Body resp1) = None ->
    HTTP.read_error (HTTP.Body resp2) = None ->
    JSON.parse (HTTP.content (HTTP.Body resp1))
    = Some (JSON.JObject (ms1 ++ (k, v) :: ms2)) ->
    JSON.parse (HTTP.content (HTTP.Body resp2)) = Some (JSON.JObject (ms1 ++ ms2)) ->
    exists x1 x2,
      gphoto.MediaItemsSearch float64_zero ParseFloat
        (gphoto.NewClient (Some tr1) token) ctx req = Returned x1
      /\ gphoto.MediaItemsSearch float64_zero ParseFloat
           (gphoto.NewClient (Some tr2) token) ctx req = Returned x2
      /\ gphoto.filled x1 = gphoto.filled x2
      /\ gphoto.err x1 = gphoto.err x2.
Proof.
  intros float64 Ctx float64_zero ParseFloat tr1 tr2 token ctx req resp1 resp2
    ms1 ms2 k v Hk Htr1 Htr2 Hr1 Hr2 Hp1 Hp2.
  eexists. eexists.
  split; [apply SearchFacts.MediaItemsSearch_run; reflexivity|].
  split; [apply SearchFacts.MediaItemsSearch_run; reflexivity|].
  simpl gphoto.token. rewrite Htr1, Htr2.
  unfold Terms.search_outcome, Decode.Unmarshal.
  rewrite Hr1, Hr2, Hp1, Hp2.
  unfold gphoto.decode_MediaItemsSearchResponse.
  rewrite (CollectFacts.decode_struct_skips _ _ _ ms1 ms2 k v _ Hk).
  destruct (Decode.decode_struct _ _ _ _ _) as [r [e|]]; split; reflexivity.
Qed.

Lemma MediaItemsSearch_ignores_unknown_members_witness :
  let body1 := GoString.q "{'nextPageToken':'n','kind':'photos#list','mediaItems':[]}" in
  let body2 := GoString.q "{'nextPageToken':'n','mediaItems':[]}" in
  let tr1 : HTTP.Client unit :=
    fun _ => inl (HTTP.mkResponse 200 "200 OK" [] (HTTP.mkBody body1 None)) in
  let tr2 : HTTP.Client unit :=
    fun _ => inl (HTTP.mkResponse 200 "200 OK" [] (HTTP.mkBody body2 None)) in
  exists x1 x2,
    gphoto.MediaItemsSearch 0%nat (fun _ => None) (gphoto.NewClient (Some tr1) "token") tt None
    = Returned x1
    /\ gphoto.MediaItemsSearch 0%nat (fun _ => None) (gphoto.NewClient (Some tr2) "token")
         tt None
       = Returned x2
    /\ gphoto.filled x1 = gphoto.filled x2
    /\ gphoto.err x1 = gphoto.err x2.
Proof.
  intros body1 body2 tr1 tr2.
  exact (MediaItemsSearch_ignores_unknown_members nat unit 0%nat (fun _ => None)
           tr1 tr2 "token" tt None
           (HTTP.mkResponse 200 "200 OK" [] (HTTP.mkBody body1 None))
           (HTTP.mkResponse 200 "200 OK" [] (HTTP.mkBody body2 None))
           [("nextPageToken", JSON.JString "n")] [("mediaItems", JSON.JArray [])]
           "kind" (JSON.JString "photos#list")
           eq_refl eq_refl eq_refl eq_refl eq_refl eq_refl eq_refl).
Defined.

(** X14. The end of [main]: the search is made with the access token of
    the OAuth client, for a page of 100 items of the pets category, and its
    error is not looked at.  What is printed is the product URL of each
    item of the response returned, in order, up to the first nil item; the
    program ends normally when no item is nil and panics on the first nil
    item otherwise. *)
Theorem main_search_prints_product_urls :
  forall (float64 Ctx : Type) (float64_zero : float64)
         (ParseFloat : string -> option float64)
         (httpClient : HTTP.Client Ctx) (background : Ctx)
         (oauth2 : goauth2.Client Ctx),
    exists x resp,
      gphoto.MediaItemsSearch float64_zero ParseFloat
        (gphoto.NewClient (Some httpClient) (goauth2.GetAccessToken oauth2))
        background (Some neko.pets_request) = Returned x
      /\ gphoto.filled x = Some resp
      /\ gphoto.sent x
         = [Terms.wire_request background (goauth2.accessToken oauth2)
              (Some neko.pets_request)]
      /\ HTTP.RequestBody
           (Terms.wire_request background (goauth2.accessToken oauth2)
              (Some neko.pets_request))
         = GoString.q
             "{'pageSize':'100','filters':{'contentFilter':{'includedContentCategories':['PETS']}}}"
      /\ neko.printed (neko.main_search float64_zero ParseFloat httpClient background oauth2)
         = map gphoto.ProductURL (FormTerms.before_nil (gphoto.MediaItems resp))
      /\ neko.ended (neko.main_search float64_zero ParseFloat httpClient background oauth2)
         = if FormTerms.has_nil (gphoto.MediaItems resp)
           then Panicked "invalid memory address or nil pointer dereference"
           else Returned tt.
Proof.
  intros float64 Ctx float64_zero ParseFloat tr bg oauth2.
  rewrite CollectFacts.main_search_run.
  rewrite (SearchFacts.MediaItemsSearch_run float64_zero ParseFloat
             (gphoto.NewClient (Some tr) (goauth2.GetAccessToken oauth2)) bg
             (Some neko.pets_request) tr eq_refl).
  simpl gphoto.token. unfold goauth2.GetAccessToken.
  set (wire := Terms.wire_request bg (goauth2.accessToken oauth2) (Some neko.pets_request)).
  assert (Hx : exists resp,
             gphoto.filled (Terms.search_outcome float64_zero ParseFloat (tr wire) wire)
             = Some resp
             /\ gphoto.sent (Terms.search_outcome float64_zero ParseFloat (tr wire) wire)
                = [wire]).
  { unfold Terms.search_outcome.
    destruct (tr wire) as [r|e]; [|eexists; split; reflexivity].
    destruct (HTTP.read_error (HTTP.Body r)); [eexists; split; reflexivity|].
    destruct (Decode.Unmarshal _ _ _). eexists; split; reflexivity. }
  destruct Hx as [resp [Hfilled Hsent]].
  eexists. exists resp.
  split; [reflexivity|]. split; [exact Hfilled|]. split; [exact Hsent|].
  split; [vm_compute; reflexivity|].
  rewrite Hfilled. apply CollectFacts.print_items_spec.
Qed.

(** X15. [main] does not look at the error of the search: when the HTTP
    client fails, when the body cannot be read and when the body is not
    JSON, the program prints no URL and ends normally, as after a search
    that found nothing. *)
Theorem main_search_ignores_failure :
  forall (float64 Ctx : Type) (float64_zero : float64)
         (ParseFloat : string -> option float64)
         (httpClient : HTTP.Client Ctx) (background : Ctx)
         (oauth2 : goauth2.Client Ctx),
    match httpClient (Terms.wire_request background (goauth2.GetAccessToken oauth2)
                        (Some neko.pets_request)) with
    | inr _ => True
    | inl resp =>
        HTTP.read_error (HTTP.Body resp) <> None
        \/ JSON.parse (HTTP.content (HTTP.Body resp)) = None
    end ->
    neko.main_search float64_zero ParseFloat httpClient background oauth2
    = neko.mkRun [] (Returned tt).
Proof.
  intros float64 Ctx float64_zero ParseFloat tr bg oauth2 Hfail.
  rewrite CollectFacts.main_search_run. unfold Terms.search_outcome.
  destruct (tr _) as [resp|e]; [|reflexivity].
  destruct (HTTP.read_error (HTTP.Body resp)) as [e|]; [reflexivity|].
  destruct Hfail as [Hread|Hparse]; [congruence|].
  unfold Decode.Unmarshal. rewrite Hparse. reflexivity.
Qed.

Lemma main_search_ignores_failure_witness :
  let tr : HTTP.Client unit :=
    fun _ => inl (HTTP.mkResponse 401 "401 Unauthorized" []
                    (HTTP.mkBody "<html>Unauthorized</html>" None)) in
  neko.main_search 0%nat (fun _ => None) tr tt (goauth2.NewClient "id" "secret")
  = neko.mkRun [] (Returned tt).
Proof.
  intro tr.
  apply (main_search_ignores_failure nat unit 0%nat (fun _ => None) tr tt
           (goauth2.NewClient "id" "secret")).
  right. reflexivity.
Defined.

(** X16. A null element in the array of media items makes [main] panic:
    the element is decoded to a nil item, on which the loop reads the
    product URL.  (The response is an object whose last member is the array
    of media items.) *)
Theorem main_search_panics_on_null_item :
  forall (float64 Ctx : Type) (float64_zero : float64)
         (ParseFloat : string -> option float64)
         (httpClient : HTTP.Client Ctx) (background : Ctx)
         (oauth2 : goauth2.Client Ctx) (resp : HTTP.Response)
         (members : list (string * JSON.value)) (elems : list JSON.value),
    httpClient (Terms.wire_request background (goauth2.GetAccessToken oauth2)
                  (Some neko.pets_request)) = inl resp ->
    HTTP.read_error (HTTP.Body resp) = None ->
    JSON.parse (HTTP.content (HTTP.Body resp))
    = Some (JSON.JObject (members ++ [("mediaItems", JSON.JArray elems)])) ->
    In JSON.JNull elems ->
    neko.ended (neko.main_search float64_zero ParseFloat httpClient background oauth2)
    = Panicked "invalid memory address or nil pointer dereference".
Proof.
  intros float64 Ctx float64_zero ParseFloat tr bg oauth2 resp members elems
    Htr Hread Hparse Hnull.
  rewrite CollectFacts.main_search_run. rewrite Htr.
  unfold Terms.search_outcome, Decode.Unmarshal. rewrite Hread, Hparse.
  unfold gphoto.decode_MediaItemsSearchResponse, Decode.decode_struct.
  rewrite fold_left_app. cbn [fold_left].
  destruct (fold_left _ members _) as [r0 e0].
  unfold Decode.decode_member. cbn [fst snd].
  change (Decode.find_field gphoto.MediaItemsSearchResponse_fields "mediaItems")
    with (Some "mediaItems").
  unfold gphoto.set_MediaItemsSearchResponse.
  change ("mediaItems" =? "nextPageToken")%string with false.
  change ("mediaItems" =? "mediaItems")%string with true.
  cbn iota. unfold gphoto.store, Decode.decode_slice.
  pose proof (CollectFacts.decode_elems_null float64_zero ParseFloat elems Hnull) as Hnil.
  destruct (Decode.decode_elems _ _ elems) as [items e]. simpl in Hnil.
  cbn [gphoto.filled gphoto.MediaItems].
  destruct (CollectFacts.print_items_spec items) as [_ ->]. now rewrite Hnil.
Qed.

Lemma main_search_panics_on_null_item_witness :
  let body := GoString.q "{'mediaItems':[{'productUrl':'https://photos/1'},null]}" in
  let tr : HTTP.Client unit :=
    fun _ => inl (HTTP.mkResponse 200 "200 OK" [] (HTTP.mkBody body None)) in
  neko.main_search 0%nat (fun _ => None) tr tt (goauth2.NewClient "id" "secret")
  = neko.mkRun ["https://photos/1"]
      (Panicked "invalid memory address or nil pointer dereference").
Proof.
  intros body tr.
  pose proof (main_search_panics_on_null_item nat unit 0%nat (fun _ => None) tr tt
                (goauth2.NewClient "id" "secret")
                (HTTP.mkResponse 200 "200 OK" [] (HTTP.mkBody body None))
                []
                [JSON.JObject [("productUrl", JSON.JString "https://photos/1")];
                 JSON.JNull]
                eq_refl eq_refl eq_refl (or_intror (or_introl eq_refl))) as H.
  destruct (neko.main_search 0%nat (fun _ => None) tr tt (goauth2.NewClient "id" "secret"))
    as [p e] eqn:E.
  simpl in H. subst e. vm_compute in E. injection E as <-. reflexivity.
Defined.

(** ** Decoding goes on after a type mismatch *)

Module MismatchFacts.
Import GoString JSON Decode HTTP Terms FormTerms.

Lemma first_error_assoc (e1 e2 e3 : option error) :
  first_error (first_error e1 e2) e3 = first_error e1 (first_error e2 e3).
Proof. destruct e1; reflexivity. Qed.

(** The fields stored do not depend on the errors met before, and the first
    error met is kept. *)
Lemma fold_error_split {T : Type} (fields : list string) (set : string -> decoder T)
    (ms : list (string * value)) :
  forall (t : T) (e : option error),
    fold_left (decode_member fields set) ms (t, e)
    = (fst (fold_left (decode_member fields set) ms (t, None)),
       first_error e (snd (fold_left (decode_member fields set) ms (t, None)))).
Proof.
  induction ms as [|m ms IH]; intros t e; simpl.
  - destruct e; reflexivity.
  - unfold decode_member at 2 4 6. cbn [fst snd].
    destruct (find_field fields (fst m)) as [f|]; [|apply IH].
    destruct (set f (snd m) t) as [t' e'].
    rewrite (IH t' (first_error e e')), (IH t' (first_error None e')).
    now rewrite first_error_assoc.
Qed.

Lemma find_In {A : Type} (p : A -> bool) (l : list A) (x : A) :
  find p l = Some x -> In x l.
Proof.
  induction l as [|y l IH]; simpl; [discriminate|].
  destruct (p y); [intro H; injection H as ->; now left|].
  intro H. right. now apply IH.
Qed.

Lemma find_field_In (fields : list string) (k f : string) :
  find_field fields k = Some f -> In f fields.
Proof.
  unfold find_field. destruct (find (String.eqb k) fields) as [g|] eqn:E.
  - intro H. injection H as <-. now apply find_In in E.
  - apply find_In.
Qed.

(** A value that does not fit a field of the token response is a type
    error, and the field keeps its value. *)
Lemma set_AuthorizationResponse_misfit (f : string) (v : value) :
  In f goauth2.AuthorizationResponse_fields -> fits f v = false ->
  exists e, forall t, goauth2.set_AuthorizationResponse f v t = (t, Some e).
Proof.
  intros Hin Hfit. simpl in Hin.
  destruct Hin as [<-|[<-|[<-|[<-|[<-|[]]]]]];
    destruct v as [|b|lit|s|elems|members]; try discriminate Hfit;
    try (eexists; intros [a i x ty r]; reflexivity).
  unfold fits in Hfit. simpl in Hfit.
  exists (UnmarshalTypeError ("number " ++ lit) "int64").
  intros [a i x ty r].
  unfold goauth2.set_AuthorizationResponse. simpl.
  destruct (ParseInt64 lit); [discriminate|reflexivity].
Qed.

(** The errors of the decoding of a token response are type errors. *)
Lemma set_AuthorizationResponse_error (f : string) (v : value)
    (t : goauth2.AuthorizationResponse) (e : error) :
  snd (goauth2.set_AuthorizationResponse f v t) = Some e -> kind_of e = ProtocolError.
Proof.
  unfold goauth2.set_AuthorizationResponse.
  repeat match goal with
    | |- context [String.eqb f ?g] => destruct (String.eqb f g)
    end;
    destruct v as [|b|lit|s|elems|members]; simpl;
    try discriminate;
    try (intro H; injection H as <-; reflexivity).
  destruct (ParseInt64 lit); simpl; [discriminate|].
  intro H; injection H as <-; reflexivity.
Qed.

Lemma decode_AuthorizationResponse_error (j : value)
    (t : goauth2.AuthorizationResponse) (e : error) :
  snd (goauth2.decode_AuthorizationResponse j t) = Some e -> kind_of e = ProtocolError.
Proof.
  unfold goauth2.decode_AuthorizationResponse, decode_struct.
  destruct j as [|b|lit|s|elems|members]; simpl;
    try discriminate; try (intro H; injection H as <-; reflexivity).
  assert (Hgen : forall (acc : goauth2.AuthorizationResponse * option error),
             (forall e0, snd acc = Some e0 -> kind_of e0 = ProtocolError) ->
             snd (fold_left
                    (decode_member goauth2.AuthorizationResponse_fields
                       goauth2.set_AuthorizationResponse) members acc) = Some e ->
             kind_of e = ProtocolError).
  { induction members as [|m members IH]; intros acc Hacc; simpl.
    - apply Hacc.
    - apply IH. unfold decode_member.
      destruct (find_field goauth2.AuthorizationResponse_fields (fst m)) as [f|];
        [|exact Hacc].
      pose proof (set_AuthorizationResponse_error f (snd m) (fst acc)) as Hset.
      destruct (goauth2.set_AuthorizationResponse f (snd m) (fst acc)) as [t' e'].
      simpl in *. intros e0. destruct (snd acc) as [ea|]; simpl.
      + apply Hacc.
      + apply Hset. }
  apply Hgen. discriminate.
Qed.

Lemma decode_struct_prefix_ok {T : Type} (ty : string) (fields : list string)
    (set : string -> decoder T) (ms1 ms2 : list (string * value)) (old : T) :
  snd (decode_struct ty fields set (JObject (ms1 ++ ms2)) old) = None ->
  snd (fold_left (decode_member fields set) ms1 (old, None)) = None.
Proof.
  unfold decode_struct. rewrite fold_left_app.
  destruct (fold_left (decode_member fields set) ms1 (old, None)) as [t1 e1].
  rewrite (fold_error_split fields set ms2 t1 e1). cbn [snd].
  destruct e1; [discriminate|reflexivity].
Qed.

(** The same for the page token of a search response. *)
Lemma set_nextPageToken_misfit {float64 : Type} (float64_zero : float64)
    (ParseFloat : string -> option float64) (v : value)
    (t : gphoto.MediaItemsSearchResponse float64) :
  not_a_string v = true ->
  gphoto.set_MediaItemsSearchResponse float64_zero ParseFloat "nextPageToken" v t
  = (t, Some (UnmarshalTypeError (describe v) "string")).
Proof.
  intro Hv. destruct t as [[n] items].
  destruct v; try discriminate Hv; reflexivity.
Qed.

(** A member that is a type error: the other members are stored as
    without it, and an error is returned. *)
Lemma decode_struct_misfit {T : Type} (ty : string) (fields : list string)
    (set : string -> decoder T) (ms1 ms2 : list (string * value))
    (k f : string) (v : value) (old : T) (e : error) :
  find_field fields k = Some f ->
  (forall t, set f v t = (t, Some e)) ->
  fst (decode_struct ty fields set (JObject (ms1 ++ (k, v) :: ms2)) old)
  = fst (decode_struct ty fields set (JObject (ms1 ++ ms2)) old)
  /\ snd (decode_struct ty fields set (JObject (ms1 ++ (k, v) :: ms2)) old)
     = first_error
         (snd (fold_left (decode_member fields set) ms1 (old, None)))
         (Some e).
Proof.
  intros Hk Hset. unfold decode_struct. rewrite !fold_left_app. cbn [fold_left].
  destruct (fold_left (decode_member fields set) ms1 (old, None)) as [t1 e1].
  assert (Hm : decode_member fields set (t1, e1) (k, v)
               = (t1, first_error e1 (Some e))).
  { unfold decode_member. cbn [fst snd]. now rewrite Hk, Hset. }
  rewrite Hm.
  rewrite (fold_error_split fields set ms2 t1 (first_error e1 (Some e))).
  rewrite (fold_error_split fields set ms2 t1 e1).
  cbn [fst snd]. split; [reflexivity|].
  destruct e1; reflexivity.
Qed.

End MismatchFacts.

(** X17. A page token that is not a string (a number, a boolean, an array,
    an object) makes [MediaItemsSearch] return a type error, and decoding
    goes on: the response returned with the error is the response decoded
    from the same object without that member, items included.  When the
    rest of the object decodes without an error, the error returned is the
    type error of this member, wrapped. *)
Theorem MediaItemsSearch_type_error_keeps_rest :
  forall (float64 Ctx : Type) (float64_zero : float64)
         (ParseFloat : string -> option float64)
         (tr1 tr2 : HTTP.Client Ctx) (token : string) (ctx : Ctx)
         (req : option gphoto.MediaItemsSearchRequest)
         (resp1 resp2 : HTTP.Response)
         (ms1 ms2 : list (string * JSON.value)) (k : string) (v : JSON.value),
    Decode.find_field gphoto.MediaItemsSearchResponse_fields k = Some "nextPageToken" ->
    FormTerms.not_a_string v = true ->
    tr1 (Terms.wire_request ctx token req) = inl resp1 ->
    tr2 (Terms.wire_request ctx token req) = inl resp2 ->
    HTTP.read_error (HTTP.Body resp1) = None ->
    HTTP.read_error (HTTP.Body resp2) = None ->
    JSON.parse (HTTP.content (HTTP.Body resp1))
    = Some (JSON.JObject (ms1 ++ (k, v) :: ms2)) ->
    JSON.parse (HTTP.content (HTTP.Body resp2)) = Some (JSON.JObject (ms1 ++ ms2)) ->
    exists x1 x2,
      gphoto.MediaItemsSearch float64_zero ParseFloat
        (gphoto.NewClient (Some tr1) token) ctx req = Returned x1
      /\ gphoto.MediaItemsSearch float64_zero ParseFloat
           (gphoto.NewClient (Some tr2) token) ctx req = Returned x2
      /\ gphoto.filled x1 = gphoto.filled x2
      /\ gphoto.err x1 <> None
      /\ (gphoto.err x2 = None ->
          gphoto.err x1
          = Some (failure_Wrap (UnmarshalTypeError (Decode.describe v) "string"))).
Proof.
  intros float64 Ctx float64_zero ParseFloat tr1 tr2 token ctx req resp1 resp2
    ms1 ms2 k v Hk Hv Htr1 Htr2 Hr1 Hr2 Hp1 Hp2.
  eexists. eexists.
  split; [apply SearchFacts.MediaItemsSearch_run; reflexivity|].
  split; [apply SearchFacts.MediaItemsSearch_run; reflexivity|].
  simpl gphoto.token. rewrite Htr1, Htr2.
  unfold Terms.search_outcome, Decode.Unmarshal.
  rewrite Hr1, Hr2, Hp1, Hp2.
  unfold gphoto.decode_MediaItemsSearchResponse.
  destruct (MismatchFacts.decode_struct_misfit "gphoto.MediaItemsSearchResponse"
              gphoto.MediaItemsSearchResponse_fields
              (gphoto.set_MediaItemsSearchResponse float64_zero ParseFloat)
              ms1 ms2 k "nextPageToken" v gphoto.zero_MediaItemsSearchResponse
              (UnmarshalTypeError (Decode.describe v) "string") Hk
              (fun t => MismatchFacts.set_nextPageToken_misfit
                          float64_zero ParseFloat v t Hv))
    as [Hfst Hsnd].
  pose proof (MismatchFacts.decode_struct_prefix_ok "gphoto.MediaItemsSearchResponse"
                gphoto.MediaItemsSearchResponse_fields
                (gphoto.set_MediaItemsSearchResponse float64_zero ParseFloat)
                ms1 ms2 gphoto.zero_MediaItemsSearchResponse) as Hok.
  destruct (Decode.decode_struct _ _ _ (JSON.JObject (ms1 ++ (k, v) :: ms2)) _)
    as [r1 e1].
  destruct (Decode.decode_struct _ _ _ (JSON.JObject (ms1 ++ ms2)) _) as [r2 e2].
  simpl in Hfst, Hsnd, Hok. subst r1. simpl.
  split; [reflexivity|]. split.
  - rewrite Hsnd. destruct (snd (fold_left _ ms1 _)); discriminate.
  - intro He2. destruct e2; [discriminate|].
    rewrite Hsnd, (Hok eq_refl). reflexivity.
Qed.

Lemma MediaItemsSearch_type_error_keeps_rest_witness :
  let body1 := GoString.q "{'nextPageToken':5,'mediaItems':[{'id':'1'}]}" in
  let body2 := GoString.q "{'mediaItems':[{'id':'1'}]}" in
  let tr1 : HTTP.Client unit :=
    fun _ => inl (HTTP.mkResponse 200 "200 OK" [] (HTTP.mkBody body1 None)) in
  let tr2 : HTTP.Client unit :=
    fun _ => inl (HTTP.mkResponse 200 "200 OK" [] (HTTP.mkBody body2 None)) in
  exists x1 x2,
    gphoto.MediaItemsSearch 0%nat (fun _ => None) (gphoto.NewClient (Some tr1) "token") tt None
    = Returned x1
    /\ gphoto.MediaItemsSearch 0%nat (fun _ => None) (gphoto.NewClient (Some tr2) "token")
         tt None
       = Returned x2
    /\ gphoto.filled x1 = gphoto.filled x2
    /\ gphoto.err x1 <> None
    /\ (gphoto.err x2 = None ->
        gphoto.err x1 = Some (failure_Wrap (UnmarshalTypeError "number" "string"))).
Proof.
  intros body1 body2 tr1 tr2.
  exact (MediaItemsSearch_type_error_keeps_rest nat unit 0%nat (fun _ => None)
           tr1 tr2 "token" tt None
           (HTTP.mkResponse 200 "200 OK" [] (HTTP.mkBody body1 None))
           (HTTP.mkResponse 200 "200 OK" [] (HTTP.mkBody body2 None))
           []
           [("mediaItems",
             JSON.JArray [JSON.JObject [("id", JSON.JString "1")]])]
           "nextPageToken" (JSON.JNumber "5")
           eq_refl eq_refl eq_refl eq_refl eq_refl eq_refl eq_refl eq_refl).
Defined.

(** X18. A member of the token response whose value does not fit its field
    (a string where the expiry is expected, a number with a fraction or an
    exponent or beyond 64 bits as expiry, a number, boolean, array or object
    where a string is expected) makes [Authorization] fail with a protocol
    error: nothing is stored, not even the tokens the response carries with
    the right type, and the response is written to the log. *)
Theorem Authorization_misfit_stores_nothing :
  forall (Ctx : Type) (ctx : Ctx) (c0 : goauth2.Client Ctx) (code : string)
         (tr : HTTP.Client Ctx) (resp : HTTP.Response)
         (ms1 ms2 : list (string * JSON.value)) (k f : string) (v : JSON.value),
    goauth2.c c0 = Some tr ->
    tr (fst (goauth2.Authorization_request ctx c0 code)) = inl resp ->
    HTTP.read_error (HTTP.Body resp) = None ->
    JSON.parse (HTTP.content (HTTP.Body resp))
    = Some (JSON.JObject (ms1 ++ (k, v) :: ms2)) ->
    Decode.find_field goauth2.AuthorizationResponse_fields k = Some f ->
    FormTerms.fits f v = false ->
    exists res e,
      goauth2.Authorization ctx c0 code = Returned res
      /\ goauth2.err res = Some e
      /\ kind_of e = ProtocolError
      /\ goauth2.state res = c0
      /\ goauth2.logged res = [resp].
Proof.
  intros Ctx ctx c0 code tr resp ms1 ms2 k f v Hc Htr Hread Hparse Hk Hfit.
  destruct (MismatchFacts.set_AuthorizationResponse_misfit f v
              (MismatchFacts.find_field_In _ _ _ Hk) Hfit) as [e Hset].
  destruct (MismatchFacts.decode_struct_misfit "goauth2.AuthorizationResponse"
              goauth2.AuthorizationResponse_fields goauth2.set_AuthorizationResponse
              ms1 ms2 k f v goauth2.zero_AuthorizationResponse e Hk Hset)
    as [_ Hsnd].
  pose proof (MismatchFacts.decode_AuthorizationResponse_error
                (JSON.JObject (ms1 ++ (k, v) :: ms2))
                goauth2.zero_AuthorizationResponse) as Hkind.
  rewrite (AuthFacts.Authorization_run ctx c0 code tr resp Hc Htr).
  unfold Terms.Authorization_on, Decode.Unmarshal. rewrite Hread, Hparse.
  unfold goauth2.decode_AuthorizationResponse in *.
  destruct (Decode.decode_struct _ _ _ (JSON.JObject (ms1 ++ (k, v) :: ms2)) _)
    as [r1 e1].
  simpl in Hsnd, Hkind. subst e1.
  destruct (snd (fold_left _ ms1 _)) as [e0|]; simpl in *;
    eexists; eexists; (split; [reflexivity|]); (split; [reflexivity|]);
    (split; [apply (Hkind _ eq_refl)|split; reflexivity]).
Qed.

Lemma Authorization_misfit_stores_nothing_witness :
  let body := GoString.q "{'access_token':'A','refresh_token':'R','expires_in':'3600'}" in
  let resp := HTTP.mkResponse 200 "200 OK" [] (HTTP.mkBody body None) in
  let tr : HTTP.Client unit := fun _ => inl resp in
  let c0 := goauth2.mkClient (Some tr) "id" "secret" "A0" 1 "R0" "scope" in
  exists res e,
    goauth2.Authorization tt c0 "4/code" = Returned res
    /\ goauth2.err res = Some e
    /\ kind_of e = ProtocolError
    /\ goauth2.state res = c0
    /\ goauth2.logged res = [resp].
Proof.
  intros body resp tr c0.
  exact (Authorization_misfit_stores_nothing unit tt c0 "4/code" tr resp
           [("access_token", JSON.JString "A"); ("refresh_token", JSON.JString "R")] []
           "expires_in" "expires_in" (JSON.JString "3600")
           eq_refl eq_refl eq_refl eq_refl eq_refl eq_refl).
Defined.

(** X19. A member of the token response whose key names no field of
    [AuthorizationResponse] (the scope of the provider's answer, say) is
    skipped: [Authorization] returns the same error and stores the same
    tokens with the member and without it. *)
Theorem Authorization_ignores_unknown_members :
  forall (Ctx : Type) (ctx : Ctx) (c0 : goauth2.Client Ctx) (code : string)
         (tr1 tr2 : HTTP.Client Ctx) (resp1 resp2 : HTTP.Response)
         (ms1 ms2 : list (string * JSON.value)) (k : string) (v : JSON.value),
    Decode.find_field goauth2.AuthorizationResponse_fields k = None ->
    tr1 (fst (goauth2.Authorization_request ctx c0 code)) = inl resp1 ->
    tr2 (fst (goauth2.Authorization_request ctx c0 code)) = inl resp2 ->
    HTTP.read_error (HTTP.Body resp1) = None ->
    HTTP.read_error (HTTP.Body resp2) = None ->
    JSON.parse (HTTP.content (HTTP.Body resp1))
    = Some (JSON.JObject (ms1 ++ (k, v) :: ms2)) ->
    JSON.parse (HTTP.content (HTTP.Body resp2)) = Some (JSON.JObject (ms1 ++ ms2)) ->
    exists res1 res2,
      goauth2.Authorization ctx (goauth2.WithHTTPClient c0 tr1) code = Returned res1
      /\ goauth2.Authorization ctx (goauth2.WithHTTPClient c0 tr2) code = Returned res2
      /\ goauth2.err res1 = goauth2.err res2
      /\ Terms.tokens (goauth2.state res1) = Terms.tokens (goauth2.state res2).
Proof.
  intros Ctx ctx c0 code tr1 tr2 resp1 resp2 ms1 ms2 k v Hk Htr1 Htr2 Hr1 Hr2 Hp1 Hp2.
  eexists. eexists.
  split.
  { apply (AuthFacts.Authorization_run ctx (goauth2.WithHTTPClient c0 tr1) code tr1 resp1
             eq_refl).
    rewrite AuthFacts.Authorization_request_WithHTTPClient. exact Htr1. }
  split.
  { apply (AuthFacts.Authorization_run ctx (goauth2.WithHTTPClient c0 tr2) code tr2 resp2
             eq_refl).
    rewrite AuthFacts.Authorization_request_WithHTTPClient. exact Htr2. }
  unfold Terms.Authorization_on, Decode.Unmarshal.
  rewrite Hr1, Hr2, Hp1, Hp2.
  unfold goauth2.decode_AuthorizationResponse.
  rewrite (CollectFacts.decode_struct_skips _ _ _ ms1 ms2 k v _ Hk).
  destruct (Decode.decode_struct _ _ _ _ _) as [r [e|]]; split; reflexivity.
Qed.

Lemma Authorization_ignores_unknown_members_witness :
  let body1 := GoString.q "{'access_token':'A','scope':'photos','refresh_token':'R'}" in
  let body2 := GoString.q "{'access_token':'A','refresh_token':'R'}" in
  let resp1 := HTTP.mkResponse 200 "200 OK" [] (HTTP.mkBody body1 None) in
  let resp2 := HTTP.mkResponse 200 "200 OK" [] (HTTP.mkBody body2 None) in
  let c0 : goauth2.Client unit := goauth2.NewClient "id" "secret" in
  exists res1 res2,
    goauth2.Authorization tt (goauth2.WithHTTPClient c0 (fun _ => inl resp1)) "4/code"
    = Returned res1
    /\ goauth2.Authorization tt (goauth2.WithHTTPClient c0 (fun _ => inl resp2)) "4/code"
       = Returned res2
    /\ goauth2.err res1 = goauth2.err res2
    /\ Terms.tokens (goauth2.state res1) = Terms.tokens (goauth2.state res2).
Proof.
  intros body1 body2 resp1 resp2 c0.
  exact (Authorization_ignores_unknown_members unit tt c0 "4/code"
           (fun _ => inl resp1) (fun _ => inl resp2) resp1 resp2
           [("access_token", JSON.JString "A")] [("refresh_token", JSON.JString "R")]
           "scope" (JSON.JString "photos")
           eq_refl eq_refl eq_refl eq_refl eq_refl eq_refl eq_refl).
Defined.

(** ** The stored expiry is written and never read *)

Module ExpiryFacts.
Import GoString JSON Decode HTTP goauth2 Terms FormTerms AuthFacts.

Section WithContext.
Context {Ctx : Type}.

Lemma Authorization_answer_expiry (c0 : Client Ctx) (z : Z) (a : Response + error) :
  err (Authorization_answer (set_accessTokenExpire Ctx c0 z) a)
  = err (Authorization_answer c0 a)
  /\ logged (Authorization_answer (set_accessTokenExpire Ctx c0 z) a)
     = logged (Authorization_answer c0 a)
  /\ accessToken (state (Authorization_answer (set_accessTokenExpire Ctx c0 z) a))
     = accessToken (state (Authorization_answer c0 a))
  /\ refreshToken (state (Authorization_answer (set_accessTokenExpire Ctx c0 z) a))
     = refreshToken (state (Authorization_answer c0 a)).
Proof.
  destruct a as [resp|e]; [|repeat split].
  unfold Authorization_answer, Authorization_on.
  destruct (read_error (Body resp)) as [e|];
    destruct (Unmarshal decode_AuthorizationResponse (content (Body resp))
                zero_AuthorizationResponse) as [response [e'|]];
    repeat split.
Qed.

Lemma Refresh_answer_expiry (c1 : Client Ctx) (z : Z) (a : Response + error) :
  err (Refresh_answer (set_accessTokenExpire Ctx c1 z) a) = err (Refresh_answer c1 a)
  /\ logged (Refresh_answer (set_accessTokenExpire Ctx c1 z) a)
     = logged (Refresh_answer c1 a)
  /\ accessToken (state (Refresh_answer (set_accessTokenExpire Ctx c1 z) a))
     = accessToken (state (Refresh_answer c1 a))
  /\ refreshToken (state (Refresh_answer (set_accessTokenExpire Ctx c1 z) a))
     = refreshToken (state (Refresh_answer c1 a)).
Proof.
  destruct a as [resp|e]; [|repeat split].
  unfold Refresh_answer, Refresh_on.
  destruct (read_error (Body resp)) as [e|];
    destruct (Unmarshal decode_AuthorizationResponse (content (Body resp))
                zero_AuthorizationResponse) as [response [e'|]];
    try (repeat split; fail).
  cbv zeta.
  destruct (String.eqb (AccessToken response) EmptyString);
    destruct (String.eqb (RefreshToken response) EmptyString); repeat split.
Qed.

End WithContext.
End ExpiryFacts.

(** X20. The stored expiry of the access token is written and never read:
    whatever expiry the client holds, [GetAccessToken], [GetRefreshToken]
    and [GetOAuthURI] return the same, and [Authorization] and [Refresh]
    send the same request, return the same error, log the same and store the
    same access and refresh tokens.  No call refuses or renews a token
    because it has expired. *)
Theorem expiry_is_never_read :
  forall (Ctx : Type) (ctx : Ctx) (c0 : goauth2.Client Ctx) (z : Z) (arg : string)
         (tr : HTTP.Client Ctx),
    let c1 := goauth2.set_accessTokenExpire Ctx (goauth2.WithHTTPClient c0 tr) z in
    goauth2.GetAccessToken c1 = goauth2.GetAccessToken c0
    /\ goauth2.GetRefreshToken c1 = goauth2.GetRefreshToken c0
    /\ goauth2.GetOAuthURI c1 = goauth2.GetOAuthURI c0
    /\ goauth2.Authorization_request ctx c1 arg
       = goauth2.Authorization_request ctx c0 arg
    /\ goauth2.Refresh_request ctx (goauth2.set_refreshToken Ctx c1 arg)
       = goauth2.Refresh_request ctx (goauth2.set_refreshToken Ctx c0 arg)
    /\ (exists res res',
          goauth2.Authorization ctx (goauth2.WithHTTPClient c0 tr) arg = Returned res
          /\ goauth2.Authorization ctx c1 arg = Returned res'
          /\ goauth2.err res' = goauth2.err res
          /\ goauth2.logged res' = goauth2.logged res
          /\ goauth2.accessToken (goauth2.state res')
             = goauth2.accessToken (goauth2.state res)
          /\ goauth2.refreshToken (goauth2.state res')
             = goauth2.refreshToken (goauth2.state res))
    /\ (exists res res',
          goauth2.Refresh ctx (goauth2.WithHTTPClient c0 tr) arg = Returned res
          /\ goauth2.Refresh ctx c1 arg = Returned res'
          /\ goauth2.err res' = goauth2.err res
          /\ goauth2.logged res' = goauth2.logged res
          /\ goauth2.accessToken (goauth2.state res')
             = goauth2.accessToken (goauth2.state res)
          /\ goauth2.refreshToken (goauth2.state res')
             = goauth2.refreshToken (goauth2.state res)).
Proof.
  intros Ctx ctx c0 z arg tr c1.
  split; [reflexivity|]. split; [reflexivity|]. split; [reflexivity|].
  split; [reflexivity|]. split; [reflexivity|]. split.
  - eexists. eexists.
    split; [apply (FlowFacts.Authorization_any ctx (goauth2.WithHTTPClient c0 tr)
                     arg tr eq_refl)|].
    split; [apply (FlowFacts.Authorization_any ctx c1 arg tr eq_refl)|].
    apply (ExpiryFacts.Authorization_answer_expiry (goauth2.WithHTTPClient c0 tr) z).
  - eexists. eexists.
    split; [apply (FlowFacts.Refresh_any ctx (goauth2.WithHTTPClient c0 tr)
                     arg tr eq_refl)|].
    split; [apply (FlowFacts.Refresh_any ctx c1 arg tr eq_refl)|].
    apply (ExpiryFacts.Refresh_answer_expiry
             (goauth2.set_refreshToken Ctx (goauth2.WithHTTPClient c0 tr) arg) z).
Qed.



(** X22. The authorization URL and the token request of [Authorization]
    agree on what the provider compares between the two steps: the client
    id, the redirect URI and the access type are the same in the query of
    [GetOAuthURI] and in the form body of [Authorization] (client id and
    scope without ampersand, number sign, percent sign or plus). *)
Theorem authorization_steps_agree :
  forall (Ctx : Type) (ctx : Ctx) (c : goauth2.Client Ctx) (code name : string),
    Terms.plain (goauth2.clientID c) = true ->
    Terms.plain (goauth2.scope c) = true ->
    In name ["client_id"; "redirect_uri"; "access_type"] ->
    FormTerms.parameter name (URL.query_parameters (goauth2.GetOAuthURI c))
    = FormTerms.parameter name
        (URL.ParseQuery
           (HTTP.RequestBody (fst (goauth2.Authorization_request ctx c code))))
    /\ FormTerms.parameter name (URL.query_parameters (goauth2.GetOAuthURI c)) <> None.
Proof.
  intros Ctx ctx c code name Hid Hsc Hname.
  rewrite (OAuthURIFacts.query_parameters_plain c Hid Hsc).
  rewrite FlowFacts.Authorization_request_body.
  simpl in Hname.
  destruct Hname as [<-|[<-|[<-|[]]]]; split; (reflexivity || discriminate).
Qed.

Lemma authorization_steps_agree_witness :
  let c : goauth2.Client unit :=
    goauth2.WithScope (goauth2.NewClient "1234.apps.googleusercontent.com" "secret")
      gphoto.ScopeLibraryReadOnly in
  FormTerms.parameter "redirect_uri" (URL.query_parameters (goauth2.GetOAuthURI c))
  = FormTerms.parameter "redirect_uri"
      (URL.ParseQuery
         (HTTP.RequestBody (fst (goauth2.Authorization_request tt c "4/code")))).
Proof.
  intro c.
  exact (proj1 (authorization_steps_agree unit tt c "4/code" "redirect_uri"
                  eq_refl eq_refl (or_intror (or_introl eq_refl)))).
Defined.

(** ** The JSON text of a request is read back as the request *)

Module TextFacts.
Import GoString JSON Wellformed StringFacts.



















(** *** The parser over the tokens of a value *)










End TextFacts.

(** ** The numbers [FormatInt] writes are number literals *)

Module NumberFacts.
Import GoString JSON Wellformed.









End NumberFacts.

(** ** The value of a request is well formed *)

Module BodyFacts.
Import GoString JSON gphoto Wellformed NumberFacts.






















End BodyFacts.




